(** * AppManager: the application instance manager of AppScale

    A shallow embedding of [AppManager/app_manager_server.py]: the service
    that starts and stops application servers on one node, hands them to
    Monit, waits for them to answer, registers them with the AppController
    and removes the source of obsolete revisions.

    Python integers are [Z], strings are [string], dictionaries are [gmap]
    and sets are [gset].  Code with effects runs in a small state and
    exception monad over a [World] that holds the file system and the record
    of the calls made on the collaborators. *)

From Stdlib Require Import ZArith Ascii String List Lia Sorted.
From stdpp Require Import base option list gmap strings pretty fin_maps.

Local Open Scope Z_scope.

Set Warnings "-register-all".

(** ** Python strings *)

Module Py.

(** [str(n)] for an integer. *)
Definition str (n : Z) : string := pretty n.

(** [s.startswith(p)] *)
Definition startswith (s p : string) : bool := String.prefix p s.

(** [s.endswith(p)] *)
Definition endswith (s p : string) : bool :=
  String.prefix (String.rev p) (String.rev s).

(** [s[n:]] *)
Fixpoint slice_from (n : nat) (s : string) : string :=
  match n, s with
  | O, _ => s
  | S n', String _ r => slice_from n' r
  | S _, EmptyString => EmptyString
  end.

(** [sep.join(l)] *)
Fixpoint join (sep : string) (l : list string) : string :=
  match l with
  | [] => ""
  | [x] => x
  | x :: r => x +:+ sep +:+ join sep r
  end.

(** The text before the last occurrence of the character [sep], when there
    is one. *)
Fixpoint before_last (sep : ascii) (s : string) : option string :=
  match s with
  | EmptyString => None
  | String c r =>
      match before_last sep r with
      | Some h => Some (String c h)
      | None => if Ascii.eqb c sep then Some "" else None
      end
  end.

(** [s.rsplit(sep, 1)[0]] for a separator of one character. *)
Definition rsplit1_head (sep : ascii) (s : string) : string :=
  default s (before_last sep s).

(** [s.rstrip(c)] for one character. *)
Fixpoint rstrip (c : ascii) (s : string) : string :=
  match s with
  | EmptyString => EmptyString
  | String a r =>
      match rstrip c r with
      | EmptyString => if Ascii.eqb a c then EmptyString else String a EmptyString
      | r' => String a r'
      end
  end.

Fixpoint lstrip_space (s : string) : string :=
  match s with
  | String a r => if Ascii.is_space a then lstrip_space r else s
  | EmptyString => EmptyString
  end.

(** [s.strip()] *)
Definition strip (s : string) : string :=
  String.rev (lstrip_space (String.rev (lstrip_space s))).

Fixpoint digits (acc : Z) (s : string) : option Z :=
  match s with
  | EmptyString => Some acc
  | String c r =>
      match Ascii.is_nat c with
      | Some d => digits (10 * acc + Z.of_nat d) r
      | None => None
      end
  end.

Definition unsigned (s : string) : option Z :=
  match s with
  | EmptyString => None
  | _ => digits 0 s
  end.

(** [int(s)] in base ten: blanks around the literal are dropped, one sign
    is allowed, at least one digit is required.  [None] is [ValueError]. *)
Definition int (s : string) : option Z :=
  match strip s with
  | String "-"%char r => Z.opp <$> unsigned r
  | String "+"%char r => unsigned r
  | r => unsigned r
  end.

Fixpoint all_char (c : ascii) (s : string) : bool :=
  match s with
  | EmptyString => true
  | String a r => Ascii.eqb a c && all_char c r
  end.

(** [os.path.join(a, *p)] of posixpath. *)
Definition path_join2 (path b : string) : string :=
  if startswith b "/" then b
  else if String.eqb path "" || endswith path "/" then path +:+ b
  else path +:+ "/" +:+ b.

Definition path_join (a : string) (p : list string) : string :=
  fold_left path_join2 p a.

(** [os.path.dirname(p)] of posixpath: the head up to the last slash, with
    its trailing slashes removed unless it consists of slashes only. *)
Definition dirname (p : string) : string :=
  match before_last "/" p with
  | None => ""
  | Some h => if all_char "/" h then h +:+ "/" else rstrip "/" h
  end.

End Py.

(** ** Data *)

(** A Python value that is a string or an integer: the values of the
    environment of an instance and of a deployment configuration section. *)
Inductive pyval :=
| PStr (s : string)
| PInt (n : Z).

(** [str(v)], also what ['{}'.format(v)] prints. *)
Definition pyval_str (v : pyval) : string :=
  match v with
  | PStr s => s
  | PInt n => Py.str n
  end.

(** [version_details] of a version, as the projects manager holds it: the
    keys the service reads. *)
Record VersionDetails := {
  runtime : string;
  instanceClass : option string;
  revision : Z;
  sourceUrl : string
}.

(** The body of a start request after [json_decode]: a dictionary in which
    each of the four keys may be missing. *)
Record StartConfig := {
  app_port : option Z;
  service_id : option string;
  version_id : option string;
  env_vars : option (gmap string pyval)
}.

(** An element of an XML document as [ElementTree] gives it. *)
Inductive Element :=
| Elem (tag : string) (attrib : gmap string string) (children : list Element).

Definition tag_of (e : Element) : string :=
  match e with Elem t _ _ => t end.

Definition attrib_of (e : Element) : gmap string string :=
  match e with Elem _ a _ => a end.

Definition children_of (e : Element) : list Element :=
  match e with Elem _ _ c => c end.

(** Exceptions. [IOError] stands for the class with its subclasses
    ([urllib2.URLError], [socket.error]); [HTTPException] is
    [httplib.HTTPException], which is not an [IOError]. *)
Inductive exn :=
| BadConfigurationException (value : string)
| HTTPError (code : Z) (message : string)
| ProcessNotFound (message : string)
| AssertionError (message : string)
| IOError
| OSError
| ValueError
| KeyError (key : string)
| IndexError
| ConfigInaccessible
| HTTPException
| SourceError.

#[global] Instance exn_eq_dec : EqDecision exn.
Proof. solve_decision. Defined.

(** The constants imported from the rest of AppScale, whose values the
    service does not fix. *)
Record Constants := {
  UNPACK_ROOT : string;
  VERSION_PATH_SEPARATOR : string;
  APP_LOG_SIZE : Z;
  DASHBOARD_LOG_SIZE : Z;
  DASHBOARD_PROJECT_ID : string;
  DEFAULT_MAX_MEMORY : Z;
  INSTANCE_CLASSES : gmap string Z;
  LOGROTATE_CONFIG_DIR : string;
  MONIT_CONFIG_DIR : string;
  MONIT_LOCATION : string;
  APPSCALE_HOME : string;
  JAVA_APPSERVER : string;
  PID_DIR : string;
  UA_SERVER_PORT : Z;
  DB_SERVER_PORT : Z
}.

(** [tornado.options.options], defined when the service starts. *)
Record Options := {
  private_ip : string;
  login_ip : string;
  syslog_server : string;
  db_proxy : string;
  tq_proxy : string
}.

(** Modelled from the spec: [MONIT_INSTANCE_PREFIX] of
    [appscale.admin.instance_manager.constants] is missing; the spec gives
    the entry name as [app___<projectId>-<port>]. *)
Definition MONIT_INSTANCE_PREFIX : string := "app___".

(** Modelled from the spec: the runtime names of [appscale.common.constants]
    are missing; the spec lists python27, go, php and java. *)
Definition PYTHON27 : string := "python27".
Definition GO : string := "go".
Definition PHP : string := "php".
Definition JAVA : string := "java".

(** Modelled from the spec: [HTTPCodes] of [appscale.common.constants] is
    missing; the spec gives 400 for configuration errors and 500 for
    internal errors. *)
Definition BAD_REQUEST : Z := 400.
Definition INTERNAL_ERROR : Z := 500.


Definition START_APP_TIMEOUT : Z := 180.
Definition BACKOFF_TIME : Z := 1.
Definition FETCH_PATH : string := "/_ah/health_check".
Definition TRUSTED_APPS : list string := ["appscaledashboard"].
Definition TRUSTED_FLAG : string := "--trusted".
Definition PHP_CGI_LOCATION : string := "/usr/bin/php-cgi".
Definition GO_SDK : string := Py.path_join "/" ["opt"; "go_appengine"].
Definition HTTP_OK : Z := 200.
Definition MAX_INSTANCE_RESPONSE_TIME : Z := 600.

(** [PIDFILE_TEMPLATE.format(project=..., port=...)] *)
Definition PIDFILE (project : string) (port : Z) : string :=
  Py.path_join "/" ["var"; "run"; "appscale";
                    "app___" +:+ project +:+ "-" +:+ Py.str port +:+ ".pid"].

(** ** The world *)

(** What the service does to its collaborators, in the order it does it.
    Calls of [logging.info] and [logging.debug] are left out. *)
Inductive event :=
| LogWarning (message : string)
| LogError (message : string)
| EnsureSource (revision_key source_archive runtime : string)
| CreateConfigFile (watch start_cmd pidfile : string) (port : Z)
    (env : gmap string pyval) (max_memory : Z) (syslog : string)
    (check_port : bool)
| MonitStart (watch : string) (is_group : bool)
| MonitStop (watch : string)
| MonitReload
| MonitUnmonitor (process_url : string)
| MonitGetEntries
| CleanOldRevisions (active_revisions : gset string)
| ThreadAddRouting (app : string) (port : Z)
| ThreadKillInstance (watch : string) (instance_pid : Z)
| OpenUrl (url : string)
| AddRoutingForAppserver (app ip : string) (port : Z)
| Sleep (seconds : Z).

(** The answer of Monit to a request of [HTTPClient.fetch], which raises
    [HTTPError] for a status that is not a success. *)
Inductive fetch_reply :=
| FetchOk
| FetchHTTPError (code : Z).

(** What [opener.open(url)] does with the [NoRedirection] opener: since
    [http_response] returns the response as it is, a response of any status
    is returned and none is turned into an error or followed. *)
Inductive open_reply :=
| Responded (code : Z) (headers : string)
| OpenRaises (e : exn).

(** The mutable part: the files under the PID, Monit and logrotate
    directories, the trace of calls, and how many answers each collaborator
    has given so far. *)
Record World := {
  files : gmap string string;
  trace : list event;
  fetches : nat;
  opens : nat;
  routings : nat
}.

(** The collaborators, as the answers they give. *)
Record Env := {
  projects_manager : gmap string (gmap string (gmap string VersionDetails));
  runtime_params : option (gmap string Z);
  gcs : option (gmap string pyval);
  num_cpus : Z;
  ensure_source : string -> string -> string -> option exn;
  find_web_inf : string -> string + exn;
  os_walk : string -> list (string * list string * list string);
  xml_parse : string -> Element + exn;
  monit_start : string -> bool;
  monit_stop : string -> bool;
  monit_entries : list string;
  monit_fetch : nat -> fetch_reply;
  url_open : nat -> open_reply;
  add_routing_for_appserver : nat -> string;
  write_fails : string -> bool;
  remove_fails : string -> bool
}.

(** ** The monad *)

Inductive result (A : Type) :=
| Return (a : A)
| Raise (e : exn)
| OutOfFuel.

Arguments Return {A} a.
Arguments Raise {A} e.
Arguments OutOfFuel {A}.

Definition M (A : Type) : Type := World -> result A * World.

Definition ret {A} (a : A) : M A := fun w => (Return a, w).

Definition raise {A} (e : exn) : M A := fun w => (Raise e, w).

Definition out_of_fuel {A} : M A := fun w => (OutOfFuel, w).

Definition bind {A B} (m : M A) (k : A -> M B) : M B :=
  fun w =>
    match m w with
    | (Return a, w') => k a w'
    | (Raise e, w') => (Raise e, w')
    | (OutOfFuel, w') => (OutOfFuel, w')
    end.

(** [try: m except <the exceptions h answers>: h e] *)
Definition try_except {A} (m : M A) (h : exn -> option (M A)) : M A :=
  fun w =>
    match m w with
    | (Raise e, w') =>
        match h e with
        | Some k => k w'
        | None => (Raise e, w')
        end
    | r => r
    end.

Declare Scope aim_scope.
Delimit Scope aim_scope with aim.
Notation "x <- m ;; k" := (bind m (fun x => k))
  (at level 100, m at next level, k at level 200, right associativity)
  : aim_scope.
Notation "m ;;; k" := (bind m (fun _ => k))
  (at level 100, k at level 200, right associativity) : aim_scope.

Definition emit (e : event) : M unit :=
  fun w => (Return tt,
            {| files := files w; trace := trace w ++ [e];
               fetches := fetches w; opens := opens w;
               routings := routings w |}).

Definition get_world : M World := fun w => (Return w, w).

Definition set_files (f : gmap string string) : M unit :=
  fun w => (Return tt,
            {| files := f; trace := trace w; fetches := fetches w;
               opens := opens w; routings := routings w |}).

(** [open(path).read()] *)
Definition read_file (path : string) : M string :=
  fun w =>
    match files w !! path with
    | Some s => (Return s, w)
    | None => (Raise IOError, w)
    end.

(** [for x in l: body(x)] *)
Fixpoint for_each {A} (l : list A) (body : A -> M unit) : M unit :=
  match l with
  | [] => ret tt
  | x :: r => bind (body x) (fun _ => for_each r body)
  end.

(** [for x in l: acc = body(acc, x)] *)
Fixpoint fold_each {A B} (l : list A) (acc : B) (body : B -> A -> M B) : M B :=
  match l with
  | [] => ret acc
  | x :: r => bind (body acc x) (fun acc' => fold_each r acc' body)
  end.

(** ** Project identifiers *)

Definition is_app_name_char (a : ascii) : bool :=
  let n := nat_of_ascii a in
  ((97 <=? n)%nat && (n <=? 122)%nat) ||
  ((48 <=? n)%nat && (n <=? 57)%nat) ||
  Ascii.eqb a "-".

Fixpoint all_app_name_chars (s : string) : bool :=
  match s with
  | EmptyString => true
  | String a r => is_app_name_char a && all_app_name_chars r
  end.

(** Modelled from the spec: [misc.is_app_name_valid] of [appscale.common] is
    missing; the spec validates a project identifier against the pattern
    [[a-z0-9-]+]. *)
Definition is_app_name_valid (app_name : string) : bool :=
  negb (String.eqb app_name "") && all_app_name_chars app_name.

(** ** Sorting paths *)

Fixpoint insert_sorted (x : string) (l : list string) : list string :=
  match l with
  | [] => [x]
  | y :: r => if String.leb x y then x :: l else y :: insert_sorted x r
  end.

(** [l.sort()] on strings. *)
Definition sort_strings (l : list string) : list string :=
  fold_right insert_sorted [] l.

Fixpoint contains_char (c : ascii) (s : string) : bool :=
  match s with
  | EmptyString => false
  | String a r => Ascii.eqb a c || contains_char c r
  end.

(** Whether [path] matches the pattern [pre*suf] of [glob]: the star stands
    for any run of characters without a slash ([suf] has none). *)
Definition glob_match (pre suf path : string) : bool :=
  let rest := Py.slice_from (String.length pre) path in
  Py.startswith path pre && Py.endswith rest suf &&
  negb (contains_char "/" rest).

(** ** The service *)

Section AppManager.

Context (c : Constants) (o : Options) (env : Env).

Local Open Scope aim_scope.

(** [os.remove(path)] *)
Definition os_remove (path : string) : M unit :=
  w <- get_world ;;
  match files w !! path with
  | None => raise OSError
  | Some _ =>
      if remove_fails env path then raise OSError
      else set_files (delete path (files w))
  end.

(** [with open(path, 'w') as fd: fd.write(contents)] *)
Definition write_file (path contents : string) : M unit :=
  w <- get_world ;;
  if write_fails env path then raise IOError
  else set_files (<[path := contents]> (files w)).

(** [glob.glob(pre + '*' + suf)] *)
Definition glob (pre suf : string) : M (list string) :=
  w <- get_world ;;
  ret (List.filter (glob_match pre suf) (map fst (map_to_list (files w)))).

(** [client.fetch(process_url, method='POST', body=payload)] *)
Definition monit_post (process_url payload : string) : M unit :=
  fun w =>
    let w' := {| files := files w;
                 trace := trace w ++ [MonitUnmonitor process_url];
                 fetches := S (fetches w); opens := opens w;
                 routings := routings w |} in
    match monit_fetch env (fetches w) with
    | FetchOk => (Return tt, w')
    | FetchHTTPError code => (Raise (HTTPError code "Monit"), w')
    end.

(** [opener.open(url)] with the [NoRedirection] opener. *)
Definition open_url (url : string) : M (Z * string) :=
  fun w =>
    let w' := {| files := files w; trace := trace w ++ [OpenUrl url];
                 fetches := fetches w; opens := S (opens w);
                 routings := routings w |} in
    match url_open env (opens w) with
    | Responded code headers => (Return (code, headers), w')
    | OpenRaises e => (Raise e, w')
    end.


(** The loop of [wait_on_app]; [fuel] bounds the number of rounds. *)
Fixpoint wait_loop (fuel : nat) (url : string) (retries : Z) : M bool :=
  if retries >? 0 then
    match fuel with
    | O => out_of_fuel
    | S fuel' =>
        answered <-
          try_except
            (response <- open_url url ;;
             (if negb (fst response =? HTTP_OK)
              then emit (LogWarning (url +:+ " returned " +:+
                           Py.str (fst response) +:+ ". Headers: " +:+
                           snd response))
              else ret tt) ;;;
             ret true)
            (fun e => match e with
                      | IOError => Some (ret false)
                      | _ => None
                      end) ;;
        if answered then ret true
        else emit (Sleep BACKOFF_TIME) ;;; wait_loop fuel' url (retries - 1)
    end
  else
    emit (LogError ("Application did not come up on " +:+ url +:+ " after " +:+
                    Py.str START_APP_TIMEOUT +:+ " seconds")) ;;;
    ret false.

(** [math.ceil(START_APP_TIMEOUT / BACKOFF_TIME)]: the division of two
    integers of Python 2 is the floor division, so [ceil] changes nothing. *)
Definition wait_retries : Z := START_APP_TIMEOUT / BACKOFF_TIME.

Definition wait_on_app (port : Z) : M bool :=
  let retries := wait_retries in
  let url := "http://" +:+ private_ip o +:+ ":" +:+ Py.str port +:+ FETCH_PATH in
  wait_loop (Z.to_nat retries) url retries.



(** [unmonitor]; [fuel] bounds the depth of the recursion. *)
Fixpoint unmonitor_rec (fuel : nat) (process_name : string) (retries : Z)
  : M unit :=
  match fuel with
  | O => out_of_fuel
  | S fuel' =>
      let process_url := MONIT_LOCATION c +:+ "/" +:+ process_name in
      let payload := "action=unmonitor" in
      try_except (monit_post process_url payload)
        (fun error =>
           match error with
           | HTTPError code _ =>
               Some (if code =? 404 then
                       raise (ProcessNotFound
                                (process_name +:+ " not listed by Monit"))
                     else if code =? 503 then
                       let retries := retries - 1 in
                       if retries <? 0 then raise error
                       else unmonitor_rec fuel' process_name retries
                     else raise error)
           | _ => None
           end)
  end.

Definition unmonitor (process_name : string) (retries : Z) : M unit :=
  unmonitor_rec (S (Z.to_nat retries)) process_name retries.

(** The revisions that the Monit entries stand for. *)
Definition entry_revisions (monit_entries : list string) : gset string :=
  list_to_set
    (map (fun entry =>
            Py.rsplit1_head "-"
              (Py.slice_from (String.length MONIT_INSTANCE_PREFIX) entry))
         (List.filter (fun entry => Py.startswith entry MONIT_INSTANCE_PREFIX)
                      monit_entries)).

(** The revision keys of the versions that the projects manager holds. *)
Definition project_revisions : list string :=
  '(project_id, project_manager) ← map_to_list (projects_manager env);
  '(service_id, service_manager) ← map_to_list project_manager;
  '(version_id, version_details) ← map_to_list service_manager;
  [Py.join (VERSION_PATH_SEPARATOR c)
     [project_id; service_id; version_id; Py.str (revision version_details)]].

(** [monit_operator.get_entries()] *)
Definition get_entries : M (list string) :=
  emit MonitGetEntries ;;; ret (monit_entries env).

(** The set that [clean_old_sources] builds: the comprehension over the
    Monit entries, to which the loops add the revision keys. *)
Definition active_revisions (monit_entries : list string) : gset string :=
  entry_revisions monit_entries ∪ list_to_set project_revisions.

Definition clean_old_sources : M unit :=
  monit_entries <- get_entries ;;
  emit (CleanOldRevisions (active_revisions monit_entries)).

Definition logrotate_script (app_name : string) : string :=
  LOGROTATE_CONFIG_DIR c +:+ "/appscale-" +:+ app_name.

Definition logrotate_contents (watch : string) (log_size : Z) : string :=
  "/var/log/appscale/" +:+ watch +:+ "*.log {
  size " +:+ Py.str log_size +:+ "
  missingok
  rotate 7
  compress
  delaycompress
  notifempty
  copytruncate
}
".

Definition setup_logrotate (app_name watch : string) (log_size : Z) : M bool :=
  let app_logrotate_script := logrotate_script app_name in
  let contents := logrotate_contents watch log_size in
  write_file app_logrotate_script contents ;;;
  ret true.

Definition remove_logrotate (app_name : string) : M bool :=
  let app_logrotate_script := logrotate_script app_name in
  try_except (os_remove app_logrotate_script ;;; ret true)
    (fun e => match e with
              | OSError =>
                  Some (emit (LogError ("Error deleting " +:+
                                        app_logrotate_script)) ;;;
                        ret false)
              | _ => None
              end).

Definition monit_config_file (watch : string) : string :=
  MONIT_CONFIG_DIR c +:+ "/appscale-" +:+ watch +:+ ".cfg".

Definition instance_watch (app_name : string) (port : Z) : string :=
  MONIT_INSTANCE_PREFIX +:+ app_name +:+ "-" +:+ Py.str port.

Definition stop_app_instance (app_name : string) (port : Z) : M unit :=
  if negb (is_app_name_valid app_name) then
    raise (BadConfigurationException ("Invalid project ID: " +:+ app_name))
  else
    let watch := instance_watch app_name port in
    let pid_location := Py.path_join (PID_DIR c) [watch +:+ ".pid"] in
    instance_pid <-
      try_except
        (text <- read_file pid_location ;;
         match Py.int (Py.strip text) with
         | Some n => ret n
         | None => raise ValueError
         end)
        (fun e => match e with
                  | IOError =>
                      Some (raise (HTTPError INTERNAL_ERROR
                                     (pid_location +:+ " does not exist")))
                  | _ => None
                  end) ;;
    listed <-
      try_except (unmonitor watch 5 ;;; ret true)
        (fun e => match e with
                  | ProcessNotFound _ => Some (ret false)
                  | _ => None
                  end) ;;
    if negb listed then ret tt
    else
      try_except (os_remove (monit_config_file watch))
        (fun e => match e with
                  | OSError =>
                      Some (emit (LogError ("Error deleting " +:+
                                            monit_config_file watch)))
                  | _ => None
                  end) ;;;
      emit MonitReload ;;;
      clean_old_sources ;;;
      emit (ThreadKillInstance watch instance_pid).

Definition stop_app (app_name : string) : M unit :=
  if negb (is_app_name_valid app_name) then
    raise (BadConfigurationException ("Invalid project ID: " +:+ app_name))
  else
    let watch := MONIT_INSTANCE_PREFIX +:+ app_name in
    emit (MonitStop watch) ;;;
    let monit_result := monit_stop env watch in
    if negb monit_result then
      raise (HTTPError INTERNAL_ERROR ("Unable to stop " +:+ watch))
    else
      config_files <-
        glob (MONIT_CONFIG_DIR c +:+ "/appscale-" +:+ watch +:+ "-") ".cfg" ;;
      for_each config_files
        (fun config_file =>
           try_except (os_remove config_file)
             (fun e => match e with
                       | OSError =>
                           Some (emit (LogError ("Error removing " +:+
                                                 config_file)))
                       | _ => None
                       end)) ;;;
      removed <- remove_logrotate app_name ;;
      (if negb removed then
         emit (LogError ("Error while setting up log rotation for application: "
                         +:+ app_name))
       else ret tt) ;;;
      clean_old_sources.

Definition create_python_app_env (public_ip app_name : string)
  : gmap string pyval :=
  <["PYTHON_LIB" := PStr (APPSCALE_HOME c +:+ "/AppServer/")]>
  (<["APPSCALE_HOME" := PStr (APPSCALE_HOME c)]>
  (<["GOMAXPROCS" := PInt (num_cpus env)]>
  (<["APPNAME" := PStr app_name]>
  (<["MY_IP_ADDRESS" := PStr public_ip]> ∅)))).

Definition shorter_of (match_to_use candidate : string) : string :=
  if (String.length candidate <? String.length match_to_use)%nat
  then candidate else match_to_use.

Definition find_web_xml (app_name : string) : M string :=
  let app_dir := "/var/apps/" +:+ app_name +:+ "/app" in
  let file_name := "appengine-web.xml" in
  let matches :=
    flat_map (fun '(root, dirs, files) =>
                if bool_decide (file_name ∈ (files : list string)) &&
                   Py.endswith root "/WEB-INF"
                then [Py.path_join root [file_name]] else [])
             (os_walk env app_dir) in
  match matches with
  | [] => raise (BadConfigurationException
                   ("Unable to find " +:+ file_name +:+ " file for " +:+
                    app_name))
  | [only] => ret only
  | _ =>
      match sort_strings matches with
      | first :: _ as sorted => ret (fold_left shorter_of sorted first)
      | [] => raise IndexError
      end
  end.

(** [custom_vars[var_dict['name']] = var_dict['value']]: the value is looked
    up first. *)
Definition add_env_var (custom_vars : gmap string string) (env_var : Element)
  : M (gmap string string) :=
  let var_dict := attrib_of env_var in
  match var_dict !! "value", var_dict !! "name" with
  | None, _ => raise (KeyError "value")
  | Some _, None => raise (KeyError "name")
  | Some v, Some k => ret (<[k := v]> custom_vars)
  end.

Definition extract_env_vars_from_xml (xml_file : string)
  : M (gmap string string) :=
  match xml_parse env xml_file with
  | inr e => raise e
  | inl root =>
      fold_each (children_of root) ∅
        (fun custom_vars child =>
           if negb (Py.endswith (tag_of child) "env-variables")
           then ret custom_vars
           else fold_each (children_of child) custom_vars add_env_var)
  end.

Definition gcs_defaults : gmap string pyval :=
  <["port" := PInt 443]> (<["scheme" := PStr "https"]> ∅).

Definition format_gcs_host (gcs_config : gmap string pyval) : M string :=
  match gcs_config !! "scheme", gcs_config !! "host", gcs_config !! "port" with
  | Some scheme, Some host, Some port =>
      ret (pyval_str scheme +:+ "://" +:+ pyval_str host +:+ ":" +:+
           pyval_str port)
  | None, _, _ => raise (KeyError "scheme")
  | _, None, _ => raise (KeyError "host")
  | _, _, None => raise (KeyError "port")
  end.

Definition create_java_app_env (app_name : string) : M (gmap string pyval) :=
  let env_vars : gmap string pyval :=
    <["APPSCALE_HOME" := PStr (APPSCALE_HOME c)]> ∅ in
  config_file <- find_web_xml app_name ;;
  custom_env_vars <- extract_env_vars_from_xml config_file ;;
  let env_vars := (PStr <$> custom_env_vars) ∪ env_vars in
  gcs_config <-
    match gcs env with
    | Some g => ret (g ∪ gcs_defaults)
    | None =>
        emit (LogWarning "Unable to fetch GCS configuration.") ;;;
        ret gcs_defaults
    end ;;
  match gcs_config !! "host" with
  | Some _ =>
      gcs_host <- format_gcs_host gcs_config ;;
      ret (<["GCS_HOST" := PStr gcs_host]> env_vars)
  | None => ret env_vars
  end.

(** The list [cmd] of [create_python27_start_cmd], before it is joined. *)
Definition python27_cmd (app_name login_ip : string) (port : Z)
  (pidfile revision_key : string) : list string :=
  let source_directory := Py.path_join (UNPACK_ROOT c) [revision_key; "app"] in
  let cmd := [
    "/usr/bin/python2";
    APPSCALE_HOME c +:+ "/AppServer/dev_appserver.py";
    "--port " +:+ Py.str port;
    "--admin_port " +:+ Py.str (port + 10000);
    "--login_server " +:+ login_ip;
    "--skip_sdk_update_check";
    "--nginx_host " +:+ login_ip;
    "--require_indexes";
    "--enable_sendmail";
    "--xmpp_path " +:+ login_ip;
    "--php_executable_path=" +:+ PHP_CGI_LOCATION;
    "--uaserver_path " +:+ db_proxy o +:+ ":" +:+ Py.str (UA_SERVER_PORT c);
    "--datastore_path " +:+ db_proxy o +:+ ":" +:+ Py.str (DB_SERVER_PORT c);
    source_directory;
    "--host " +:+ private_ip o;
    "--admin_host " +:+ private_ip o;
    "--automatic_restart"; "no";
    "--pidfile"; pidfile] in
  if bool_decide (app_name ∈ TRUSTED_APPS) then cmd ++ [TRUSTED_FLAG] else cmd.

Definition create_python27_start_cmd (app_name login_ip : string) (port : Z)
  (pidfile revision_key : string) : string :=
  Py.join " " (python27_cmd app_name login_ip port pidfile revision_key).

Definition create_java_start_cmd (app_name : string) (port : Z)
  (load_balancer_host : string) (max_heap : Z) (pidfile revision_key : string)
  : M string :=
  let java_start_script :=
    Py.path_join (JAVA_APPSERVER c)
      ["appengine-java-sdk-repacked"; "bin"; "dev_appserver.sh"] in
  let revision_base := Py.path_join (UNPACK_ROOT c) [revision_key] in
  web_inf_directory <-
    match find_web_inf env revision_base with
    | inl d => ret d
    | inr e => raise e
    end ;;
  let cmd := [
    java_start_script;
    "--port=" +:+ Py.str port;
    "--jvm_flag=-Dsocket.permit_connect=true";
    "--jvm_flag=-Xmx" +:+ Py.str max_heap +:+ "m";
    "--jvm_flag=-Djava.security.egd=file:/dev/./urandom";
    "--disable_update_check";
    "--address=" +:+ private_ip o;
    "--datastore_path=" +:+ db_proxy o;
    "--login_server=" +:+ load_balancer_host;
    "--appscale_version=1";
    "--APP_NAME=" +:+ app_name;
    "--NGINX_ADDRESS=" +:+ load_balancer_host;
    "--TQ_PROXY=" +:+ tq_proxy o;
    "--pidfile=" +:+ pidfile;
    Py.dirname web_inf_directory] in
  ret (Py.join " " cmd).

(** Modelled from the spec: [monit_app_configuration.create_config_file] is
    missing; the spec has it write the file
    [SUPERVISOR_CONF_DIR/appscale-<entryName>.cfg], the entry name being the
    watch followed by the port.  The call is recorded and the file appears;
    what the file holds is not specified, the start command stands for it. *)
Definition create_config_file (watch start_cmd pidfile : string) (port : Z)
  (env_vars : gmap string pyval) (max_memory : Z) (syslog : string)
  (check_port : bool) : M unit :=
  emit (CreateConfigFile watch start_cmd pidfile port env_vars max_memory
          syslog check_port) ;;;
  write_file (monit_config_file (watch +:+ "-" +:+ Py.str port)) start_cmd.

(** [monit_interface.start(watch, is_group=...)] *)
Definition monit_interface_start (watch : string) (is_group : bool) : M bool :=
  emit (MonitStart watch is_group) ;;;
  ret (monit_start env watch).

Definition lookup_version (project_id service_id version_id : string)
  : option VersionDetails :=
  service_manager ← (projects_manager env !! project_id) ≫= (.!! service_id);
  service_manager !! version_id.

Definition start_app (project_id : string) (config : StartConfig) : M unit :=
  match app_port config, service_id config, version_id config,
        env_vars config with
  | None, _, _, _ =>
      raise (BadConfigurationException "Missing parameter: app_port")
  | Some _, None, _, _ =>
      raise (BadConfigurationException "Missing parameter: service_id")
  | Some _, Some _, None, _ =>
      raise (BadConfigurationException "Missing parameter: version_id")
  | Some _, Some _, Some _, None =>
      raise (BadConfigurationException "Missing parameter: env_vars")
  | Some port, Some service_id, Some version_id, Some env_vars =>
  if negb (is_app_name_valid project_id) then
    raise (BadConfigurationException ("Invalid project ID: " +:+ project_id))
  else
  match lookup_version project_id service_id version_id with
  | None => raise (BadConfigurationException "Version not found")
  | Some version_details =>
  let runtime := runtime version_details in
  match runtime_params env with
  | None => raise ConfigInaccessible
  | Some runtime_params =>
  let max_memory :=
    default (DEFAULT_MAX_MEMORY c) (runtime_params !! "max_memory") in
  let max_memory :=
    match instanceClass version_details with
    | Some class => default max_memory (INSTANCE_CLASSES c !! class)
    | None => max_memory
    end in
  let revision_key :=
    Py.join (VERSION_PATH_SEPARATOR c)
      [project_id; service_id; version_id;
       Py.str (revision version_details)] in
  let source_archive := sourceUrl version_details in
  emit (EnsureSource revision_key source_archive runtime) ;;;
  match ensure_source env revision_key source_archive runtime with
  | Some e => raise e
  | None =>
  let pidfile := PIDFILE project_id port in
  let env_vars :=
    if String.eqb runtime GO then
      <["GOROOT" := PStr (Py.path_join GO_SDK ["goroot"])]>
        (<["GOPATH" :=
             PStr (Py.path_join (UNPACK_ROOT c) [revision_key; "gopath"])]>
           env_vars)
    else env_vars in
  let watch := MONIT_INSTANCE_PREFIX +:+ project_id in
  built <-
    (if String.eqb runtime PYTHON27 || String.eqb runtime GO ||
        String.eqb runtime PHP then
       let start_cmd :=
         create_python27_start_cmd project_id (login_ip o) port pidfile
           revision_key in
       ret (start_cmd,
            create_python_app_env (login_ip o) project_id ∪ env_vars)
     else if String.eqb runtime JAVA then
       let max_heap := max_memory - 250 in
       if max_heap <=? 0 then
         raise (BadConfigurationException
                  "Memory for Java applications must be greater than 250MB")
       else
         start_cmd <-
           create_java_start_cmd project_id port (login_ip o) max_heap
             pidfile revision_key ;;
         java_env <- create_java_app_env project_id ;;
         ret (start_cmd, java_env ∪ env_vars)
     else
       raise (BadConfigurationException
                ("Unknown runtime " +:+ runtime +:+ " for " +:+ project_id))) ;;
  let start_cmd := fst built in
  let env_vars := snd built in
  create_config_file watch start_cmd pidfile port env_vars max_memory
    (syslog_server o) true ;;;
  let full_watch := watch +:+ "-" +:+ Py.str port in
  started <- monit_interface_start full_watch false ;;
  if negb started then
    raise (AssertionError ("Monit was unable to start " +:+ project_id +:+
                           ":" +:+ Py.str port))
  else
  emit (ThreadAddRouting project_id port) ;;;
  let log_size :=
    if String.eqb project_id (DASHBOARD_PROJECT_ID c)
    then DASHBOARD_LOG_SIZE c else APP_LOG_SIZE c in
  done_rotate <- setup_logrotate project_id watch log_size ;;
  if negb done_rotate then
    emit (LogError ("Error while setting up log rotation for application: " +:+
                    project_id))
  else ret tt
  end end end end.

(** [except BadConfigurationException as error:
       raise HTTPError(HTTPCodes.BAD_REQUEST, error.message)] *)
Definition bad_request {A} (m : M A) : M A :=
  try_except m
    (fun e => match e with
              | BadConfigurationException message =>
                  Some (raise (HTTPError BAD_REQUEST message))
              | _ => None
              end).

(** [AppHandler.post]; [None] is a body that is not JSON. *)
Definition AppHandler_post (project_id : string) (body : option StartConfig)
  : M unit :=
  match body with
  | None => raise (HTTPError BAD_REQUEST "Payload must be valid JSON")
  | Some config => bad_request (start_app project_id config)
  end.


(** [InstanceHandler.delete]: [int(port)] is evaluated before the call; its
    [ValueError] is not among the exceptions that the [try] answers. *)
Definition InstanceHandler_delete (project_id port : string) : M unit :=
  match Py.int port with
  | None => raise ValueError
  | Some n => bad_request (stop_app_instance project_id n)
  end.

End AppManager.

(** ** The order of the arguments as the spec lists them *)

(** The options of the launcher in the order in which the spec sets them
    out, each by the text it starts with; the source directory, which has no
    option, is left out. *)
Definition spec_argument_order : list string :=
  ["--port"; "--admin_port"; "--login_server"; "--skip_sdk_update_check";
   "--require_indexes"; "--enable_sendmail"; "--automatic_restart";
   "--nginx_host"; "--xmpp_path"; "--php_executable_path"; "--uaserver_path";
   "--datastore_path"; "--host"; "--admin_host"; "--pidfile"].

(** Whether the options [names] occur in [cmd] in that order: each is the
    start of an argument further to the right than the one before. *)
Fixpoint in_order (names cmd : list string) : bool :=
  match names, cmd with
  | [], _ => true
  | _ :: _, [] => false
  | name :: names', arg :: cmd' =>
      if Py.startswith arg name then in_order names' cmd'
      else in_order names cmd'
  end.

(** A status code that the spec counts as a success of the probe. *)
Definition is_2xx_or_3xx (code : Z) : bool :=
  (200 <=? code) && (code <? 400).

(** Whether an event is a call of [logging.error]. *)
Definition is_log_error (e : event) : bool :=
  match e with
  | LogError _ => true
  | _ => false
  end.

(** Whether an event is a registration with the AppController. *)
Definition is_routing_call (e : event) : bool :=
  match e with
  | AddRoutingForAppserver _ _ _ => true
  | _ => false
  end.

(** ** The entries of an XML document *)

(** The elements that [extract_env_vars_from_xml] reads as variables, in the
    order of the document: the children of those children of the root whose
    tag ends in [env-variables]. *)
Definition env_var_elements (root : Element) : list Element :=
  flat_map (fun child =>
              if Py.endswith (tag_of child) "env-variables"
              then children_of child else [])
           (children_of root).

(** The dictionary after the assignment that an element with both
    attributes makes. *)
Definition set_env_var (custom_vars : gmap string string) (env_var : Element)
  : gmap string string :=
  match attrib_of env_var !! "name", attrib_of env_var !! "value" with
  | Some k, Some v => <[k := v]> custom_vars
  | _, _ => custom_vars
  end.

(** An entry that carries both attributes, as [<env-var name= value= />]
    does. *)
Definition has_name_and_value (e : Element) : Prop :=
  is_Some (attrib_of e !! "name") /\ is_Some (attrib_of e !! "value").

(** ** Entry names as the spec reads them *)

(** [revision] is what is left of the Monit entry [entry] once the prefix
    [app___] and the trailing [-<port>] are taken away: the port is the text
    behind the last dash; an entry without a dash behind the prefix has no
    port to take away. *)
Definition stripped_entry (entry revision : string) : Prop :=
  exists rest,
    entry = MONIT_INSTANCE_PREFIX +:+ rest /\
    ((exists port, rest = revision +:+ "-" +:+ port /\
                   contains_char "-" port = false) \/
     (contains_char "-" rest = false /\ revision = rest)).

(** ** Worlds after repeated calls *)

(** The world after [k] more requests to Monit for [process_url]. *)
Definition after_posts (w : World) (process_url : string) (k : nat) : World :=
  {| files := files w;
     trace := trace w ++ replicate k (MonitUnmonitor process_url);
     fetches := fetches w + k;
     opens := opens w;
     routings := routings w |}.


Definition no_routing_call (evs : list event) : Prop :=
  forallb (fun e => negb (is_routing_call e)) evs = true.


(** ** What a start asks for *)

(** The memory limit that [start_app] passes on: the [max_memory] of the
    runtime parameters or the default, replaced by the memory of the
    instance class of the version when that class is known. *)
Definition instance_max_memory (c : Constants) (params : gmap string Z)
  (details : VersionDetails) : Z :=
  let max_memory := default (DEFAULT_MAX_MEMORY c) (params !! "max_memory") in
  match instanceClass details with
  | Some class => default max_memory (INSTANCE_CLASSES c !! class)
  | None => max_memory
  end.

(** The revision key of a version. *)
Definition revision_key_of (c : Constants) (project_id service version : string)
  (details : VersionDetails) : string :=
  Py.join (VERSION_PATH_SEPARATOR c)
    [project_id; service; version; Py.str (revision details)].

(** The environment that a start of the Python application server hands to
    Monit: the variables of the request, with the Go paths for a Go
    application, updated with the variables of [create_python_app_env]. *)
Definition python_start_env (c : Constants) (o : Options) (env : Env)
  (project_id revision_key runtime : string) (vars : gmap string pyval)
  : gmap string pyval :=
  create_python_app_env c env (login_ip o) project_id ∪
  (if String.eqb runtime GO then
     <["GOROOT" := PStr (Py.path_join GO_SDK ["goroot"])]>
       (<["GOPATH" :=
            PStr (Py.path_join (UNPACK_ROOT c) [revision_key; "gopath"])]>
          vars)
   else vars).

(** Whether a runtime is served by the Python application server. *)
Definition python_family (runtime : string) : bool :=
  String.eqb runtime PYTHON27 || String.eqb runtime GO ||
  String.eqb runtime PHP.

(** The world with one more event. *)
Definition with_event (w : World) (e : event) : World :=
  {| files := files w; trace := trace w ++ [e]; fetches := fetches w;
     opens := opens w; routings := routings w |}.

(** The world with one more file. *)
Definition with_file (w : World) (path contents : string) : World :=
  {| files := <[path := contents]> (files w); trace := trace w;
     fetches := fetches w; opens := opens w; routings := routings w |}.

(** The size of the logs of a project, as [start_app] chooses it. *)
Definition log_size_of (c : Constants) (project_id : string) : Z :=
  if String.eqb project_id (DASHBOARD_PROJECT_ID c)
  then DASHBOARD_LOG_SIZE c else APP_LOG_SIZE c.

(** The names that [create_python_app_env] sets. *)
Definition python_env_names : list string :=
  ["MY_IP_ADDRESS"; "APPNAME"; "GOMAXPROCS"; "APPSCALE_HOME"; "PYTHON_LIB"].

(** The world with one file less. *)
Definition without_file (w : World) (path : string) : World :=
  {| files := delete path (files w); trace := trace w;
     fetches := fetches w; opens := opens w; routings := routings w |}.

(** The world that [stop_app_instance] leaves when Monit has let the process
    [watch] go in the world [w]: the Monit configuration file is removed, or
    the failure to do so logged, Monit is reloaded, the old sources are
    cleaned and the thread that kills the process [pid] is started. *)
Definition after_instance_cleanup (c : Constants) (env : Env) (watch : string)
  (pid : Z) (w : World) : World :=
  let cfg := monit_config_file c watch in
  let removed :=
    match files w !! cfg with
    | Some _ =>
        if remove_fails env cfg
        then with_event w (LogError ("Error deleting " +:+ cfg))
        else without_file w cfg
    | None => with_event w (LogError ("Error deleting " +:+ cfg))
    end in
  with_event
    (with_event
       (with_event (with_event removed MonitReload) MonitGetEntries)
       (CleanOldRevisions (active_revisions c env (monit_entries env))))
    (ThreadKillInstance watch pid).

(** The world after [k] probes of [url] that ended in an [IOError], each
    followed by a pause. *)
Definition after_probes (w : World) (url : string) (k : nat) : World :=
  {| files := files w;
     trace := trace w ++
              concat (replicate k [OpenUrl url; Sleep BACKOFF_TIME]);
     fetches := fetches w; opens := opens w + k; routings := routings w |}.

(** The address that [wait_on_app] probes. *)
Definition probe_url (o : Options) (port : Z) : string :=
  "http://" +:+ private_ip o +:+ ":" +:+ Py.str port +:+ FETCH_PATH.

(** Whether a string consists of decimal digits only. *)
Fixpoint all_digits (s : string) : bool :=
  match s with
  | EmptyString => true
  | String a r =>
      match Ascii.is_nat a with
      | Some _ => all_digits r
      | None => false
      end
  end.

(** The files named [appengine-web.xml] in a directory [WEB-INF] that the
    walk of [find_web_xml] comes across. *)
Definition web_xml_candidates (env : Env) (app_name : string) : list string :=
  flat_map (fun '(root, dirs, files) =>
              if bool_decide ("appengine-web.xml" ∈ (files : list string)) &&
                 Py.endswith root "/WEB-INF"
              then [Py.path_join root ["appengine-web.xml"]] else [])
           (os_walk env ("/var/apps/" +:+ app_name +:+ "/app")).

(** The order of [sort] on strings. *)
Definition string_le (x y : string) : Prop := String.leb x y = true.

(** The list [cmd] of [create_java_start_cmd], before it is joined, for the
    directory that [find_web_inf] gives. *)
Definition java_cmd (c : Constants) (o : Options) (app_name : string)
  (port : Z) (load_balancer_host : string) (max_heap : Z)
  (pidfile web_inf_directory : string) : list string :=
  [Py.path_join (JAVA_APPSERVER c)
     ["appengine-java-sdk-repacked"; "bin"; "dev_appserver.sh"];
   "--port=" +:+ Py.str port;
   "--jvm_flag=-Dsocket.permit_connect=true";
   "--jvm_flag=-Xmx" +:+ Py.str max_heap +:+ "m";
   "--jvm_flag=-Djava.security.egd=file:/dev/./urandom";
   "--disable_update_check";
   "--address=" +:+ private_ip o;
   "--datastore_path=" +:+ db_proxy o;
   "--login_server=" +:+ load_balancer_host;
   "--appscale_version=1";
   "--APP_NAME=" +:+ app_name;
   "--NGINX_ADDRESS=" +:+ load_balancer_host;
   "--TQ_PROXY=" +:+ tq_proxy o;
   "--pidfile=" +:+ pidfile;
   Py.dirname web_inf_directory].


(** The characters that the route of [InstanceHandler] lets through as a
    port, [[0-9-]]. *)
Definition is_port_char (a : ascii) : bool :=
  match Ascii.is_nat a with
  | Some _ => true
  | None => Ascii.eqb a "-"
  end.

Fixpoint port_chars (s : string) : bool :=
  match s with
  | EmptyString => true
  | String a r => is_port_char a && port_chars r
  end.


(** ** The routes of the service *)










(** ** A node to run the service on *)

Module Sample.

Definition constants : Constants := {|
  UNPACK_ROOT := "/var/apps";
  VERSION_PATH_SEPARATOR := "_";
  APP_LOG_SIZE := 10485760;
  DASHBOARD_LOG_SIZE := 10485760;
  DASHBOARD_PROJECT_ID := "appscaledashboard";
  DEFAULT_MAX_MEMORY := 400;
  INSTANCE_CLASSES := <["F1" := 128]> (<["F4" := 512]> ∅);
  LOGROTATE_CONFIG_DIR := "/etc/logrotate.d";
  MONIT_CONFIG_DIR := "/etc/monit/conf.d";
  MONIT_LOCATION := "http://localhost:2812";
  APPSCALE_HOME := "/root/appscale";
  JAVA_APPSERVER := "/root/appscale/AppServer_Java";
  PID_DIR := "/var/run/appscale";
  UA_SERVER_PORT := 4343;
  DB_SERVER_PORT := 8888
|}.

Definition options : Options := {|
  private_ip := "10.0.0.2";
  login_ip := "10.0.0.1";
  syslog_server := "10.0.0.1";
  db_proxy := "10.0.0.3";
  tq_proxy := "10.0.0.4"
|}.

Definition guestbook : VersionDetails := {|
  runtime := "python27";
  instanceClass := None;
  revision := 2;
  sourceUrl := "/opt/appscale/apps/guestbook.tar.gz"
|}.

Definition javabook : VersionDetails := {|
  runtime := "java";
  instanceClass := Some "F1";
  revision := 1;
  sourceUrl := "/opt/appscale/apps/javabook.tar.gz"
|}.

Definition projects
  : gmap string (gmap string (gmap string VersionDetails)) :=
  <["guestbook" := <["default" := <["v1" := guestbook]> ∅]> ∅]>
  (<["javabook" := <["default" := <["v1" := javabook]> ∅]> ∅]> ∅).

Definition web_xml : Element :=
  Elem "{http://appengine.google.com/ns/1.0}appengine-web-app" ∅ [
    Elem "{http://appengine.google.com/ns/1.0}threadsafe" ∅ [];
    Elem "{http://appengine.google.com/ns/1.0}env-variables" ∅ [
      Elem "{http://appengine.google.com/ns/1.0}env-var"
        (<["name" := "GCS_HOST"]> (<["value" := "storage.local"]> ∅)) [];
      Elem "{http://appengine.google.com/ns/1.0}env-var"
        (<["name" := "MODE"]> (<["value" := "test"]> ∅)) []
    ]
  ].

(** Monit answers the requests of [unmonitor] with [replies], then with
    success; the application answers the probes with [probes], then refuses
    the connection; the AppController answers [routing], then accepts. *)
Definition node (replies : list fetch_reply) (probes : list open_reply)
  (routing : list string) (read_only : list string) : Env := {|
  projects_manager := projects;
  runtime_params := Some ∅;
  gcs := Some (<["host" := PStr "gcs.example.com"]> ∅);
  num_cpus := 4;
  ensure_source := fun _ _ _ => None;
  find_web_inf := fun base => inl (base +:+ "/app/war/WEB-INF");
  os_walk := fun app_dir =>
    [(app_dir, ["war"], []);
     (app_dir +:+ "/war", ["WEB-INF"], ["index.html"]);
     (app_dir +:+ "/war/WEB-INF", [], ["web.xml"; "appengine-web.xml"])];
  xml_parse := fun _ => inl web_xml;
  monit_start := fun _ => true;
  monit_stop := fun _ => true;
  monit_entries := ["app___guestbook-8080"; "monit"; "app___javabook-8081"];
  monit_fetch := fun n => nth n replies FetchOk;
  url_open := fun n => nth n probes (OpenRaises IOError);
  add_routing_for_appserver := fun n => nth n routing "true";
  write_fails := fun path => bool_decide (path ∈ read_only);
  remove_fails := fun path => bool_decide (path ∈ read_only)
|}.

Definition disk : gmap string string :=
  <["/var/run/appscale/app___guestbook-8080.pid" := "4711
"]>
  (<["/etc/monit/conf.d/appscale-app___guestbook-8080.cfg" := "check process"]>
  (<["/etc/logrotate.d/appscale-guestbook" := "rotate 7"]> ∅)).

Definition world : World := {|
  files := disk; trace := []; fetches := 0; opens := 0; routings := 0
|}.

Definition start_guestbook : StartConfig := {|
  app_port := Some 8080;
  service_id := Some "default";
  version_id := Some "v1";
  env_vars := Some ∅
|}.

(** Monit is busy four times and then lets the process go. *)
Definition busy_monit : Env :=
  node [FetchHTTPError 503; FetchHTTPError 503; FetchHTTPError 503;
        FetchHTTPError 503; FetchOk] [] [] [].

(** The application answers the first probe with an internal error. *)
Definition failing_app : Env :=
  node [] [Responded 500 "[]"] [] [].

(** The application refuses the first probe and answers the second with
    status 404; the AppController is not ready at first. *)
Definition slow_start : Env :=
  node [] [OpenRaises IOError; Responded 404 "[]"] ["NOT_READY"] [].

(** Monit does not know the process that it is asked to unmonitor. *)
Definition unlisted : Env :=
  node [FetchHTTPError 404] [] [] [].

(** The logrotate directory cannot be written to. *)
Definition read_only_logrotate : Env :=
  node [] [] [] ["/etc/logrotate.d/appscale-guestbook"].

(** A request without the service, and one for a version that does not
    exist. *)
Definition start_without_service : StartConfig := {|
  app_port := Some 8080;
  service_id := None;
  version_id := None;
  env_vars := Some ∅
|}.

Definition start_unknown_version : StartConfig := {|
  app_port := Some 8080;
  service_id := Some "default";
  version_id := Some "v7";
  env_vars := Some ∅
|}.

(** Monit refuses to start anything. *)
Definition monit_refuses : Env := {|
  projects_manager := projects;
  runtime_params := Some ∅;
  gcs := None;
  num_cpus := 4;
  ensure_source := fun _ _ _ => None;
  find_web_inf := fun base => inl (base +:+ "/app/war/WEB-INF");
  os_walk := fun _ => [];
  xml_parse := fun _ => inr IOError;
  monit_start := fun _ => false;
  monit_stop := fun _ => false;
  monit_entries := [];
  monit_fetch := fun _ => FetchHTTPError 500;
  url_open := fun _ => OpenRaises IOError;
  add_routing_for_appserver := fun _ => "true";
  write_fails := fun _ => false;
  remove_fails := fun _ => false
|}.

(** The source of no revision can be fetched. *)
Definition no_source : Env := {|
  projects_manager := projects;
  runtime_params := Some ∅;
  gcs := None;
  num_cpus := 4;
  ensure_source := fun _ _ _ => Some SourceError;
  find_web_inf := fun base => inl (base +:+ "/app/war/WEB-INF");
  os_walk := fun _ => [];
  xml_parse := fun _ => inr IOError;
  monit_start := fun _ => true;
  monit_stop := fun _ => true;
  monit_entries := [];
  monit_fetch := fun _ => FetchOk;
  url_open := fun _ => OpenRaises IOError;
  add_routing_for_appserver := fun _ => "true";
  write_fails := fun _ => false;
  remove_fails := fun _ => false
|}.

(** A version whose runtime the service does not know. *)
Definition rubybook : VersionDetails := {|
  runtime := "ruby";
  instanceClass := None;
  revision := 3;
  sourceUrl := "/opt/appscale/apps/rubybook.tar.gz"
|}.

Definition odd_runtime : Env := {|
  projects_manager := <["rubybook" := <["default" := <["v1" := rubybook]> ∅]> ∅]> ∅;
  runtime_params := Some ∅;
  gcs := None;
  num_cpus := 4;
  ensure_source := fun _ _ _ => None;
  find_web_inf := fun base => inl (base +:+ "/app/war/WEB-INF");
  os_walk := fun _ => [];
  xml_parse := fun _ => inr IOError;
  monit_start := fun _ => true;
  monit_stop := fun _ => true;
  monit_entries := [];
  monit_fetch := fun _ => FetchOk;
  url_open := fun _ => OpenRaises IOError;
  add_routing_for_appserver := fun _ => "true";
  write_fails := fun _ => false;
  remove_fails := fun _ => false
|}.

(** A request that tries to set [APPNAME] itself. *)
Definition start_with_vars : StartConfig := {|
  app_port := Some 8080;
  service_id := Some "default";
  version_id := Some "v1";
  env_vars := Some (<["APPNAME" := PStr "other"]> (<["FOO" := PStr "bar"]> ∅))
|}.

(** Two projects, the identifier of one being that of the other followed by
    a dash and more, each with one instance. *)
Definition shared_disk : gmap string string :=
  <["/etc/monit/conf.d/appscale-app___shop-8080.cfg" := "check process"]>
  (<["/etc/monit/conf.d/appscale-app___shop-admin-8081.cfg" :=
       "check process"]> ∅).

Definition shared_world : World := {|
  files := shared_disk; trace := []; fetches := 0; opens := 0; routings := 0
|}.


(** The source of a Java application with three [WEB-INF] directories that
    hold an [appengine-web.xml]. *)
Definition nested_web_inf : Env := {|
  projects_manager := projects;
  runtime_params := Some ∅;
  gcs := None;
  num_cpus := 4;
  ensure_source := fun _ _ _ => None;
  find_web_inf := fun base => inl (base +:+ "/app/war/WEB-INF");
  os_walk := fun app_dir =>
    [(app_dir +:+ "/build/exploded/WEB-INF", [], ["appengine-web.xml"]);
     (app_dir +:+ "/war/WEB-INF", [], ["web.xml"; "appengine-web.xml"]);
     (app_dir +:+ "/war/WEB-INF/classes", [], ["appengine-web.xml"]);
     (app_dir +:+ "/bin/WEB-INF", [], ["appengine-web.xml"])];
  xml_parse := fun _ => inl web_xml;
  monit_start := fun _ => true;
  monit_stop := fun _ => true;
  monit_entries := [];
  monit_fetch := fun _ => FetchOk;
  url_open := fun _ => OpenRaises IOError;
  add_routing_for_appserver := fun _ => "true";
  write_fails := fun _ => false;
  remove_fails := fun _ => false
|}.


(** A document with an entry that has a name and no value, after one that
    is complete. *)
Definition broken_web_xml : Element :=
  Elem "{http://appengine.google.com/ns/1.0}appengine-web-app" ∅ [
    Elem "{http://appengine.google.com/ns/1.0}env-variables" ∅ [
      Elem "{http://appengine.google.com/ns/1.0}env-var"
        (<["name" := "MODE"]> (<["value" := "test"]> ∅)) [];
      Elem "{http://appengine.google.com/ns/1.0}env-var"
        (<["name" := "LEVEL"]> ∅) []
    ]
  ].

(** A node whose deployment configuration cannot be read and on which every
    [appengine-web.xml] reads as [document]. *)
Definition without_deployment (document : Element) : Env := {|
  projects_manager := projects;
  runtime_params := Some ∅;
  gcs := None;
  num_cpus := 4;
  ensure_source := fun _ _ _ => None;
  find_web_inf := fun base => inl (base +:+ "/app/war/WEB-INF");
  os_walk := fun app_dir =>
    [(app_dir +:+ "/war/WEB-INF", [], ["web.xml"; "appengine-web.xml"])];
  xml_parse := fun _ => inl document;
  monit_start := fun _ => true;
  monit_stop := fun _ => true;
  monit_entries := [];
  monit_fetch := fun _ => FetchOk;
  url_open := fun _ => OpenRaises IOError;
  add_routing_for_appserver := fun _ => "true";
  write_fails := fun _ => false;
  remove_fails := fun _ => false
|}.

(** A document without entries. *)
Definition plain_web_xml : Element :=
  Elem "{http://appengine.google.com/ns/1.0}appengine-web-app" ∅ [
    Elem "{http://appengine.google.com/ns/1.0}threadsafe" ∅ []
  ].


(** A Java version with an instance class that leaves room for the heap,
    on a node whose [WEB-INF] directory holds [web.xml] and the files
    [descriptor]. *)
Definition bigbook : VersionDetails := {|
  runtime := "java";
  instanceClass := Some "F4";
  revision := 3;
  sourceUrl := "/opt/appscale/apps/bigbook.tar.gz"
|}.

Definition java_node (descriptor : list string) : Env := {|
  projects_manager := <["bigbook" := <["default" := <["v1" := bigbook]> ∅]> ∅]> ∅;
  runtime_params := Some ∅;
  gcs := None;
  num_cpus := 4;
  ensure_source := fun _ _ _ => None;
  find_web_inf := fun base => inl (base +:+ "/app/war/WEB-INF");
  os_walk := fun app_dir =>
    [(app_dir, ["war"], []);
     (app_dir +:+ "/war/WEB-INF", [], "web.xml" :: descriptor)];
  xml_parse := fun _ => inl web_xml;
  monit_start := fun _ => true;
  monit_stop := fun _ => true;
  monit_entries := [];
  monit_fetch := fun _ => FetchOk;
  url_open := fun _ => OpenRaises IOError;
  add_routing_for_appserver := fun _ => "true";
  write_fails := fun _ => false;
  remove_fails := fun _ => false
|}.





(** The node of the Java version, with a Monit that refuses to start
    anything. *)
Definition java_monit_refuses : Env := {|
  projects_manager := <["bigbook" := <["default" := <["v1" := bigbook]> ∅]> ∅]> ∅;
  runtime_params := Some ∅;
  gcs := None;
  num_cpus := 4;
  ensure_source := fun _ _ _ => None;
  find_web_inf := fun base => inl (base +:+ "/app/war/WEB-INF");
  os_walk := fun app_dir =>
    [(app_dir, ["war"], []);
     (app_dir +:+ "/war/WEB-INF", [], ["web.xml"; "appengine-web.xml"])];
  xml_parse := fun _ => inl web_xml;
  monit_start := fun _ => false;
  monit_stop := fun _ => false;
  monit_entries := [];
  monit_fetch := fun _ => FetchOk;
  url_open := fun _ => OpenRaises IOError;
  add_routing_for_appserver := fun _ => "true";
  write_fails := fun _ => false;
  remove_fails := fun _ => false
|}.

End Sample.


(** * Properties *)

Import Sample.

(** ** Python strings *)

Example str_examples :
  Py.str 8080 = "8080" /\ Py.str (-3) = "-3" /\ Py.str 0 = "0".
Proof. repeat split; reflexivity. Qed.

Example rsplit_examples :
  Py.rsplit1_head "-" "guestbook-20000" = "guestbook" /\
  Py.rsplit1_head "-" "my-app-8080" = "my-app" /\
  Py.rsplit1_head "-" "plain" = "plain" /\
  Py.rsplit1_head "-" "-1" = "".
Proof. repeat split; reflexivity. Qed.

Example path_examples :
  Py.path_join "/var/apps" ["p_s_v_1"; "app"] = "/var/apps/p_s_v_1/app" /\
  Py.path_join "/" ["opt"; "go_appengine"] = "/opt/go_appengine" /\
  Py.path_join "/a" ["/b"; "c"] = "/b/c" /\
  Py.dirname "/a/b/WEB-INF" = "/a/b" /\
  Py.dirname "/WEB-INF" = "/" /\
  Py.dirname "WEB-INF" = "" /\
  Py.dirname "/a//b" = "/a".
Proof. repeat split; reflexivity. Qed.

Example int_examples :
  Py.int " 4711
" = Some 4711 /\ Py.int "-5" = Some (-5) /\ Py.int "8-0" = None /\
  Py.int "" = None /\ Py.int "-" = None.
Proof. repeat split; reflexivity. Qed.

Example app_name_examples :
  is_app_name_valid "guestbook-2" = true /\
  is_app_name_valid "Guestbook" = false /\
  is_app_name_valid "guest_book" = false /\
  is_app_name_valid "" = false.
Proof. repeat split; reflexivity. Qed.

(** ** The start command of the Python application server *)

(** C6, as the spec words it, fails: on the sample node the command puts
    [--nginx_host] between [--skip_sdk_update_check] and [--require_indexes]
    and [--automatic_restart] behind [--admin_host], so the options do not
    occur in the order of the spec. *)
Lemma python27_cmd_not_in_spec_order :
  let cmd := python27_cmd constants options "guestbook" "10.0.0.1" 8080
               (PIDFILE "guestbook" 8080) "guestbook_default_v1_2" in
  in_order spec_argument_order cmd = false /\
  cmd !! 5%nat = Some "--skip_sdk_update_check" /\
  cmd !! 6%nat = Some "--nginx_host 10.0.0.1" /\
  cmd !! 7%nat = Some "--require_indexes" /\
  cmd !! 15%nat = Some "--admin_host 10.0.0.2" /\
  cmd !! 16%nat = Some "--automatic_restart" /\
  cmd !! 17%nat = Some "no".
Proof. vm_compute. repeat split; reflexivity. Qed.

(** C6, amended: the command line is the interpreter and the launcher
    followed by the arguments in the order of the code (port, admin_port =
    port + 10000, login_server, --skip_sdk_update_check, nginx_host,
    --require_indexes, --enable_sendmail, xmpp_path, php_executable_path,
    uaserver_path, datastore_path, source directory, host, admin_host,
    --automatic_restart no, --pidfile pidfile), joined by blanks, and
    [--trusted] is appended exactly when the project is the one trusted
    application. *)
Theorem python27_start_cmd_arguments :
  forall (c : Constants) (o : Options) (app_name login_ip : string) (port : Z)
         (pidfile revision_key : string),
    create_python27_start_cmd c o app_name login_ip port pidfile revision_key =
    Py.join " "
      (["/usr/bin/python2";
        APPSCALE_HOME c +:+ "/AppServer/dev_appserver.py";
        "--port " +:+ Py.str port;
        "--admin_port " +:+ Py.str (port + 10000);
        "--login_server " +:+ login_ip;
        "--skip_sdk_update_check";
        "--nginx_host " +:+ login_ip;
        "--require_indexes";
        "--enable_sendmail";
        "--xmpp_path " +:+ login_ip;
        "--php_executable_path=/usr/bin/php-cgi";
        "--uaserver_path " +:+ db_proxy o +:+ ":" +:+ Py.str (UA_SERVER_PORT c);
        "--datastore_path " +:+ db_proxy o +:+ ":" +:+ Py.str (DB_SERVER_PORT c);
        Py.path_join (UNPACK_ROOT c) [revision_key; "app"];
        "--host " +:+ private_ip o;
        "--admin_host " +:+ private_ip o;
        "--automatic_restart"; "no";
        "--pidfile"; pidfile]
       ++ (if bool_decide (app_name = "appscaledashboard")
           then ["--trusted"] else [])).
Proof.
  intros. unfold create_python27_start_cmd, python27_cmd, TRUSTED_APPS.
  f_equal.
  destruct (bool_decide (app_name = "appscaledashboard")) eqn:Hd.
  - apply bool_decide_eq_true in Hd. subst.
    rewrite bool_decide_eq_true_2 by (apply list_elem_of_here). reflexivity.
  - apply bool_decide_eq_false in Hd.
    rewrite bool_decide_eq_false_2.
    + now rewrite app_nil_r.
    + intros Hin. apply list_elem_of_singleton in Hin. contradiction.
Qed.


(** ** Unmonitoring a process that Monit is too busy to let go *)

Lemma after_posts_0 w url : after_posts w url 0 = w.
Proof.
  destruct w. unfold after_posts. simpl.
  now rewrite app_nil_r, Nat.add_0_r.
Qed.

Lemma after_posts_S w url k :
  after_posts (after_posts w url 1) url k = after_posts w url (S k).
Proof.
  unfold after_posts. simpl. f_equal.
  - now rewrite <- app_assoc.
  - lia.
Qed.

Lemma after_posts_plus w url a b :
  after_posts (after_posts w url a) url b = after_posts w url (a + b).
Proof.
  unfold after_posts. simpl. f_equal.
  - now rewrite <- app_assoc, <- replicate_add.
  - lia.
Qed.

Section Unmonitor.

Context (c : Constants) (env : Env) (process_name : string).

Let url := MONIT_LOCATION c +:+ "/" +:+ process_name.

(** One request answered with 503 while retries are left: the function
    calls itself with one retry less. *)
Lemma unmonitor_rec_busy_step fuel retries w :
  monit_fetch env (fetches w) = FetchHTTPError 503 ->
  1 <= retries ->
  unmonitor_rec c env (S fuel) process_name retries w =
  unmonitor_rec c env fuel process_name (retries - 1) (after_posts w url 1).
Proof.
  intros Hreply Hretries. simpl.
  unfold try_except, monit_post. rewrite Hreply. simpl.
  destruct (retries - 1 <? 0) eqn:Hlt; [apply Z.ltb_lt in Hlt; lia|].
  unfold after_posts. simpl. now rewrite Nat.add_1_r.
Qed.

Lemma unmonitor_rec_busy k : forall fuel retries w,
  (forall i, (i < k)%nat ->
     monit_fetch env (fetches w + i) = FetchHTTPError 503) ->
  Z.of_nat k <= retries ->
  unmonitor_rec c env (k + fuel) process_name retries w =
  unmonitor_rec c env fuel process_name (retries - Z.of_nat k)
    (after_posts w url k).
Proof.
  induction k as [|k IH]; intros fuel retries w Hbusy Hretries.
  - simpl. rewrite after_posts_0. f_equal. lia.
  - change (S k + fuel)%nat with (S (k + fuel)).
    rewrite unmonitor_rec_busy_step.
    + rewrite IH.
      * rewrite after_posts_S. f_equal. lia.
      * intros i Hi. simpl.
        replace (fetches w + 1 + i)%nat with (fetches w + S i)%nat by lia.
        apply Hbusy. lia.
      * lia.
    + rewrite <- (Nat.add_0_r (fetches w)). apply Hbusy. lia.
    + lia.
Qed.

Lemma unmonitor_rec_ok fuel retries w :
  monit_fetch env (fetches w) = FetchOk ->
  unmonitor_rec c env (S fuel) process_name retries w =
  (Return tt, after_posts w url 1).
Proof.
  intros Hreply. simpl. unfold try_except, monit_post. rewrite Hreply.
  unfold after_posts. simpl. now rewrite Nat.add_1_r.
Qed.

Lemma unmonitor_rec_exhausted fuel w :
  monit_fetch env (fetches w) = FetchHTTPError 503 ->
  unmonitor_rec c env (S fuel) process_name 0 w =
  (Raise (HTTPError 503 "Monit"), after_posts w url 1).
Proof.
  intros Hreply. simpl. unfold try_except, monit_post. rewrite Hreply.
  simpl. unfold raise, after_posts. simpl. now rewrite Nat.add_1_r.
Qed.

Lemma unmonitor_rec_not_found fuel retries w :
  monit_fetch env (fetches w) = FetchHTTPError 404 ->
  unmonitor_rec c env (S fuel) process_name retries w =
  (Raise (ProcessNotFound (process_name +:+ " not listed by Monit")),
   after_posts w url 1).
Proof.
  intros Hreply. simpl. unfold try_except, monit_post. rewrite Hreply.
  simpl. unfold raise, after_posts. simpl. now rewrite Nat.add_1_r.
Qed.

(** The recursion ends before the fuel does, and asks Monit at most once
    more than there are retries. *)
Lemma unmonitor_rec_bounded fuel : forall retries w,
  0 <= retries ->
  (Z.to_nat retries < fuel)%nat ->
  fst (unmonitor_rec c env fuel process_name retries w) <> OutOfFuel /\
  (fetches (snd (unmonitor_rec c env fuel process_name retries w))
   <= fetches w + Z.to_nat retries + 1)%nat /\
  files (snd (unmonitor_rec c env fuel process_name retries w)) = files w.
Proof.
  induction fuel as [|fuel IH]; intros retries w Hpos Hfuel; [lia|].
  simpl. unfold try_except, monit_post.
  destruct (monit_fetch env (fetches w)) as [|code] eqn:Hreply; simpl.
  - split; [discriminate|]. split; [lia|reflexivity].
  - destruct (code =? 404); simpl.
    { split; [discriminate|]. split; [lia|reflexivity]. }
    destruct (code =? 503); simpl.
    2:{ split; [discriminate|]. split; [lia|reflexivity]. }
    destruct (retries - 1 <? 0) eqn:Hlt; simpl.
    { split; [discriminate|]. split; [lia|reflexivity]. }
    apply Z.ltb_ge in Hlt.
    match goal with
    | |- context [unmonitor_rec c env fuel process_name (retries - 1) ?w1] =>
        destruct (IH (retries - 1) w1) as (Hres & Hcount & Hfiles);
          [lia | lia |]
    end.
    split; [exact Hres|]. split; [|exact Hfiles].
    simpl in Hcount. lia.
Qed.

End Unmonitor.

(** C7: a 503 answer to [unmonitor] is retried up to five times.  Whatever
    Monit answers, at most six requests are made and the call comes to an
    end; up to five 503 answers followed by a success give a success after
    one request more than there were 503 answers (so four and then a success
    succeed on the fifth request); six 503 answers in a row surface the
    error of the sixth. *)
Theorem unmonitor_retries_503 :
  forall (c : Constants) (env : Env) (process_name : string) (w : World),
    let url := MONIT_LOCATION c +:+ "/" +:+ process_name in
    (fst (unmonitor c env process_name 5 w) <> OutOfFuel /\
     (fetches (snd (unmonitor c env process_name 5 w)) <= fetches w + 6)%nat) /\
    (forall k : nat,
       (k <= 5)%nat ->
       (forall i, (i < k)%nat ->
          monit_fetch env (fetches w + i) = FetchHTTPError 503) ->
       monit_fetch env (fetches w + k) = FetchOk ->
       unmonitor c env process_name 5 w =
       (Return tt, after_posts w url (S k))) /\
    ((forall i, (i < 6)%nat ->
        monit_fetch env (fetches w + i) = FetchHTTPError 503) ->
     unmonitor c env process_name 5 w =
     (Raise (HTTPError 503 "Monit"), after_posts w url 6)).
Proof.
  intros c env process_name w url. unfold unmonitor.
  change (S (Z.to_nat 5)) with 6%nat.
  split; [|split].
  - destruct (unmonitor_rec_bounded c env process_name 6 5 w)
      as (Hres & Hcount & _); [lia | lia |].
    split; [exact Hres|]. lia.
  - intros k Hk Hbusy Hok.
    replace 6%nat with (k + S (5 - k))%nat by lia.
    rewrite unmonitor_rec_busy by (assumption || lia).
    rewrite unmonitor_rec_ok by exact Hok.
    rewrite after_posts_plus. do 2 f_equal. lia.
  - intros Hbusy.
    change 6%nat with (5 + 1)%nat at 1.
    rewrite unmonitor_rec_busy by (intros; apply Hbusy; lia) || lia.
    change (5 - Z.of_nat 5) with 0.
    rewrite unmonitor_rec_exhausted.
    + now rewrite after_posts_plus.
    + apply Hbusy. lia.
Qed.

Lemma unmonitor_retries_503_witness :
  unmonitor constants busy_monit "app___guestbook-8080" 5 world =
  (Return tt,
   after_posts world "http://localhost:2812/app___guestbook-8080" 5).
Proof.
  refine (proj1 (proj2 (unmonitor_retries_503 constants busy_monit
                          "app___guestbook-8080" world)) 4%nat _ _ _).
  - lia.
  - intros i Hi. simpl.
    destruct i as [|[|[|[|i]]]]; try reflexivity. lia.
  - reflexivity.
Defined.

(** ** Waiting for an application to answer *)

Section WaitOnApp.

Context (o : Options) (env : Env) (url : string).

(** A probe that ends in an [IOError] costs one retry and one pause. *)
Lemma wait_loop_io_error fuel retries w :
  url_open env (opens w) = OpenRaises IOError ->
  0 < retries ->
  wait_loop env (S fuel) url retries w =
  wait_loop env fuel url (retries - 1)
    {| files := files w;
       trace := trace w ++ [OpenUrl url; Sleep BACKOFF_TIME];
       fetches := fetches w; opens := S (opens w);
       routings := routings w |}.
Proof.
  intros Hreply Hpos. simpl.
  destruct (Z.gtb_spec retries 0); [|lia].
  unfold bind, try_except, open_url. rewrite Hreply. simpl.
  unfold emit. simpl. now rewrite <- app_assoc.
Qed.

(** A response of any status ends the wait with [True]. *)
Lemma wait_loop_response fuel retries w code headers :
  url_open env (opens w) = Responded code headers ->
  0 < retries ->
  fst (wait_loop env (S fuel) url retries w) = Return true.
Proof.
  intros Hreply Hpos. simpl.
  destruct (Z.gtb_spec retries 0); [|lia].
  unfold bind, try_except, open_url. rewrite Hreply. simpl.
  destruct (code =? HTTP_OK); reflexivity.
Qed.

(** An exception that is not an [IOError] leaves the function. *)
Lemma wait_loop_other_error fuel retries w e :
  url_open env (opens w) = OpenRaises e ->
  e <> IOError ->
  0 < retries ->
  fst (wait_loop env (S fuel) url retries w) = Raise e.
Proof.
  intros Hreply He Hpos. simpl.
  destruct (Z.gtb_spec retries 0); [|lia].
  unfold bind, try_except, open_url. rewrite Hreply. simpl.
  destruct e; try reflexivity. contradiction.
Qed.

(** The three ways in which [n] rounds with [n] retries end. *)
Lemma wait_loop_cases n : forall w,
  let r := fst (wait_loop env n url (Z.of_nat n) w) in
  ((forall i, (i < n)%nat -> url_open env (opens w + i) = OpenRaises IOError) /\
   r = Return false) \/
  (exists k, (k < n)%nat /\
     (forall i, (i < k)%nat ->
        url_open env (opens w + i) = OpenRaises IOError) /\
     ((exists code headers,
         url_open env (opens w + k) = Responded code headers /\
         r = Return true) \/
      (exists e,
         url_open env (opens w + k) = OpenRaises e /\ e <> IOError /\
         r = Raise e))).
Proof.
  induction n as [|n IH]; intros w r.
  - left. split; [intros i Hi; lia|]. reflexivity.
  - destruct (url_open env (opens w)) as [code headers|e] eqn:Hreply.
    + right. exists 0%nat. split; [lia|]. split; [intros i Hi; lia|].
      left. exists code, headers. rewrite Nat.add_0_r. split; [exact Hreply|].
      subst r. eapply wait_loop_response; [exact Hreply | lia].
    + destruct (decide (e = IOError)) as [->|He].
      * subst r. rewrite wait_loop_io_error by (exact Hreply || lia).
        replace (Z.of_nat (S n) - 1) with (Z.of_nat n) by lia.
        match goal with
        | |- context [wait_loop env n url (Z.of_nat n) ?w1] =>
            destruct (IH w1) as [[Hall Hr]|(k & Hk & Hbefore & Hat)];
            simpl in *
        end.
        -- left. split; [|exact Hr].
           intros [|i] Hi; [now rewrite Nat.add_0_r|].
           replace (opens w + S i)%nat with (S (opens w + i)) by lia.
           apply Hall. lia.
        -- right. exists (S k). split; [lia|]. split.
           ++ intros [|i] Hi; [now rewrite Nat.add_0_r|].
              replace (opens w + S i)%nat with (S (opens w + i)) by lia.
              apply Hbefore. lia.
           ++ replace (opens w + S k)%nat with (S (opens w + k)) by lia.
              exact Hat.
      * right. exists 0%nat. split; [lia|]. split; [intros i Hi; lia|].
        right. exists e. rewrite Nat.add_0_r. split; [exact Hreply|].
        split; [exact He|].
        subst r. eapply wait_loop_other_error; [exact Hreply|exact He|lia].
Qed.

End WaitOnApp.

(** C2, as the spec words it, fails: an application that answers the first
    probe with status 500 makes [wait_on_app] return [True], although no
    probe is answered with a 2xx or 3xx status. *)
Lemma wait_on_app_true_on_500 :
  fst (wait_on_app options failing_app 8080 world) = Return true /\
  ~ (exists i code headers,
       (i < 180)%nat /\
       url_open failing_app (opens world + i) = Responded code headers /\
       is_2xx_or_3xx code = true).
Proof.
  split; [vm_compute; reflexivity|].
  intros (i & code & headers & _ & Hreply & Hcode).
  destruct i as [|[|i]]; simpl in Hreply; try discriminate.
  injection Hreply as <- _. vm_compute in Hcode. discriminate.
Qed.

(** C2, amended: [wait_on_app] returns [True] exactly when, within its 180
    attempts, one is answered by an HTTP response of any status (a status
    other than 200 is only logged) after attempts that all ended in an
    [IOError]; it returns [False] exactly when all 180 attempts end in an
    [IOError]; it raises exactly when an attempt in that range ends in an
    exception that is not an [IOError], and then raises that exception; and
    it always comes to an end. *)
Theorem wait_on_app_result :
  forall (o : Options) (env : Env) (port : Z) (w : World),
    let r := fst (wait_on_app o env port w) in
    let failed i := url_open env (opens w + i) = OpenRaises IOError in
    (r = Return true <->
     exists k, (k < 180)%nat /\ (forall i, (i < k)%nat -> failed i) /\
       exists code headers,
         url_open env (opens w + k) = Responded code headers) /\
    (r = Return false <-> forall i, (i < 180)%nat -> failed i) /\
    (forall e, r = Raise e <->
       exists k, (k < 180)%nat /\ (forall i, (i < k)%nat -> failed i) /\
         url_open env (opens w + k) = OpenRaises e /\ e <> IOError) /\
    r <> OutOfFuel.
Proof.
  intros o env port w r failed.
  assert (Hr : r = fst (wait_loop env 180
                 ("http://" +:+ private_ip o +:+ ":" +:+ Py.str port +:+
                  FETCH_PATH) (Z.of_nat 180) w)) by reflexivity.
  pose proof (wait_loop_cases env
                ("http://" +:+ private_ip o +:+ ":" +:+ Py.str port +:+
                 FETCH_PATH) 180 w) as Hcases.
  cbv zeta in Hcases. rewrite <- Hr in Hcases. clear Hr.
  assert (Huniq : forall k k',
            (forall i, (i < k)%nat -> failed i) -> ~ failed k ->
            (forall i, (i < k')%nat -> failed i) -> ~ failed k' -> k = k').
  { intros k k' Hk Hnk Hk' Hnk'.
    destruct (Nat.lt_trichotomy k k') as [Hlt|[Heq|Hgt]]; [|exact Heq|].
    - exfalso. apply Hnk. apply Hk'. exact Hlt.
    - exfalso. apply Hnk'. apply Hk. exact Hgt. }
  destruct Hcases as [[Hall Hres]|(k & Hk & Hbefore & Hat)].
  - (* every attempt failed *)
    repeat split.
    + rewrite Hres. discriminate.
    + intros (k & Hk & _ & code & headers & Hreply).
      specialize (Hall k Hk). congruence.
    + intros _. exact Hall.
    + intros _. exact Hres.
    + rewrite Hres. discriminate.
    + intros (k & Hk & _ & Hreply & He).
      specialize (Hall k Hk). congruence.
    + rewrite Hres. discriminate.
  - destruct Hat as [(code & headers & Hreply & Hres)|(e & Hreply & He & Hres)].
    + (* attempt k is answered *)
      assert (Hnk : ~ failed k) by (unfold failed; congruence).
      repeat split.
      * intros _. exists k. eauto.
      * intros _. exact Hres.
      * rewrite Hres. discriminate.
      * intros Hall. exfalso. apply Hnk. apply Hall. exact Hk.
      * rewrite Hres. discriminate.
      * intros (k' & Hk' & Hbefore' & Hreply' & He').
        assert (k = k') as <-.
        { apply Huniq; try assumption. unfold failed. congruence. }
        congruence.
      * rewrite Hres. discriminate.
    + (* attempt k raises another exception *)
      assert (Hnk : ~ failed k) by (unfold failed; congruence).
      repeat split.
      * rewrite Hres. discriminate.
      * intros (k' & Hk' & Hbefore' & code & headers & Hreply').
        assert (k = k') as <-.
        { apply Huniq; try assumption. unfold failed. congruence. }
        congruence.
      * rewrite Hres. discriminate.
      * intros Hall. exfalso. apply Hnk. apply Hall. exact Hk.
      * rewrite Hres. intros [= <-]. exists k. eauto.
      * intros (k' & Hk' & Hbefore' & Hreply' & He').
        assert (k = k') as <-.
        { apply Huniq; try assumption. unfold failed. congruence. }
        congruence.
      * rewrite Hres. discriminate.
Qed.

Lemma wait_on_app_result_witness :
  fst (wait_on_app options failing_app 8080 world) = Return true.
Proof.
  apply (proj1 (wait_on_app_result options failing_app 8080 world)).
  exists 0%nat. split; [lia|]. split; [intros i Hi; lia|].
  exists 500, "[]". reflexivity.
Defined.

(** ** Registering with the AppController *)

Lemma no_routing_call_app evs1 evs2 :
  no_routing_call evs1 -> no_routing_call evs2 ->
  no_routing_call (evs1 ++ evs2).
Proof.
  unfold no_routing_call. intros H1 H2. rewrite forallb_app, H1, H2.
  reflexivity.
Qed.

Section AddRouting.

Context (o : Options) (env : Env) (app : string) (port : Z).


Let ip := private_ip o.



End AddRouting.



(** ** The active set of the revision collector *)

Lemma startswith_app s p :
  Py.startswith s p = true <-> exists rest, s = p +:+ rest.
Proof.
  unfold Py.startswith. revert s.
  induction p as [|a p IH]; intros s.
  - split; [intros _; now exists s|now destruct s].
  - destruct s as [|b s]; simpl.
    + split; [discriminate|intros (rest & Hrest); discriminate].
    + destruct (ascii_dec a b) as [->|Hne].
      * rewrite IH. split; intros (rest & Hrest); exists rest.
        -- now subst.
        -- now injection Hrest.
      * split; [discriminate|].
        intros (rest & Hrest). injection Hrest as Hb _. congruence.
Qed.

Lemma slice_from_app p rest :
  Py.slice_from (String.length p) (p +:+ rest) = rest.
Proof. induction p as [|a p IH]; simpl; [now destruct rest|exact IH]. Qed.

Lemma contains_char_app sep h q :
  contains_char sep (h +:+ String sep q) = true.
Proof.
  induction h as [|a h IH]; simpl.
  - now rewrite Ascii.eqb_refl.
  - rewrite IH. apply orb_true_r.
Qed.

Lemma before_last_none sep s :
  Py.before_last sep s = None <-> contains_char sep s = false.
Proof.
  induction s as [|a s IH]; simpl; [tauto|].
  destruct (Py.before_last sep s) as [h|].
  - split; [discriminate|]. intros H. apply orb_false_elim in H as [_ H].
    apply IH in H. discriminate.
  - destruct (Ascii.eqb a sep); simpl; [split; discriminate|].
    split; [intros _; now apply IH|reflexivity].
Qed.

Lemma before_last_some sep s h :
  Py.before_last sep s = Some h <->
  exists q, s = h +:+ String sep q /\ contains_char sep q = false.
Proof.
  revert h. induction s as [|a s IH]; intros h; simpl.
  - split; [discriminate|]. intros (q & Hq & _). destruct h; discriminate.
  - destruct (Py.before_last sep s) as [h'|] eqn:Hlast.
    + split.
      * intros [= <-]. destruct (proj1 (IH h') eq_refl) as (q & -> & Hq).
        exists q. split; [reflexivity|exact Hq].
      * intros (q & Hs & Hq). destruct h as [|b h]; simpl in Hs.
        -- injection Hs as -> ->.
           apply before_last_none in Hq. congruence.
        -- injection Hs as -> ->. f_equal. f_equal.
           assert (Some h' = Some h) as [= ->]; [|reflexivity].
           apply IH. exists q. split; [reflexivity|exact Hq].
    + apply before_last_none in Hlast.
      destruct (Ascii.eqb_spec a sep) as [->|Hne].
      * split.
        -- intros [= <-]. exists s. split; [reflexivity|exact Hlast].
        -- intros (q & Hs & Hq). destruct h as [|b h]; simpl in Hs.
           ++ reflexivity.
           ++ injection Hs as -> ->.
              rewrite contains_char_app in Hlast. discriminate.
      * split; [discriminate|].
        intros (q & Hs & Hq). destruct h as [|b h]; simpl in Hs.
        -- injection Hs as -> _. contradiction.
        -- injection Hs as -> ->.
           rewrite contains_char_app in Hlast. discriminate.
Qed.

(** What the comprehension over the Monit entries collects. *)
Lemma elem_of_entry_revisions (entries : list string) (x : string) :
  x ∈ entry_revisions entries <->
  exists entry, entry ∈ entries /\ stripped_entry entry x.
Proof.
  unfold entry_revisions.
  rewrite elem_of_list_to_set, list_elem_of_In, in_map_iff.
  split.
  - intros (entry & Hx & Hin). apply filter_In in Hin as [Hin Hprefix].
    exists entry. split; [now apply list_elem_of_In|].
    apply startswith_app in Hprefix as (rest & ->).
    exists rest. split; [reflexivity|].
    rewrite slice_from_app in Hx. unfold Py.rsplit1_head in Hx.
    destruct (Py.before_last "-" rest) as [h|] eqn:Hlast; simpl in Hx.
    + subst h. apply before_last_some in Hlast as (q & -> & Hq).
      left. exists q. split; [reflexivity|exact Hq].
    + right. apply before_last_none in Hlast. split; [exact Hlast|now subst].
  - intros (entry & Hin & rest & -> & Hrest).
    exists (MONIT_INSTANCE_PREFIX +:+ rest). split.
    + rewrite slice_from_app. unfold Py.rsplit1_head.
      destruct Hrest as [(q & -> & Hq)|[Hnone ->]].
      * assert (Py.before_last "-" (x +:+ "-" +:+ q) = Some x) as ->;
          [|reflexivity].
        apply before_last_some. exists q. split; [reflexivity|exact Hq].
      * apply before_last_none in Hnone. now rewrite Hnone.
    + apply filter_In. split; [now apply list_elem_of_In|].
      apply startswith_app. now exists rest.
Qed.



(** ** Starting a Java application with too little memory *)

(** C4: a start of a version whose runtime is Java, with a maximum memory of
    at most 250 MB, never succeeds and leaves the world as it was but for
    the request to the source manager: no Monit configuration file is
    written and Monit is not asked to start anything.  Once the source is
    there the start fails with [BadConfigurationException]. *)
Theorem java_start_rejects_small_heap :
  forall (c : Constants) (o : Options) (env : Env) (project_id : string)
         (config : StartConfig) (w : World) (port : Z)
         (service version : string) (vars : gmap string pyval)
         (details : VersionDetails) (params : gmap string Z),
    app_port config = Some port ->
    service_id config = Some service ->
    version_id config = Some version ->
    env_vars config = Some vars ->
    is_app_name_valid project_id = true ->
    lookup_version env project_id service version = Some details ->
    runtime details = JAVA ->
    runtime_params env = Some params ->
    let max_memory :=
      let max_memory :=
        default (DEFAULT_MAX_MEMORY c) (params !! "max_memory") in
      match instanceClass details with
      | Some class => default max_memory (INSTANCE_CLASSES c !! class)
      | None => max_memory
      end in
    let max_heap := max_memory - 250 in
    let revision_key :=
      Py.join (VERSION_PATH_SEPARATOR c)
        [project_id; service; version; Py.str (revision details)] in
    max_heap <= 0 ->
    snd (start_app c o env project_id config w) =
      {| files := files w;
         trace := trace w ++
                  [EnsureSource revision_key (sourceUrl details) JAVA];
         fetches := fetches w; opens := opens w; routings := routings w |} /\
    (exists e, fst (start_app c o env project_id config w) = Raise e) /\
    (ensure_source env revision_key (sourceUrl details) JAVA = None ->
     fst (start_app c o env project_id config w) =
     Raise (BadConfigurationException
              "Memory for Java applications must be greater than 250MB")).
Proof.
  intros c o env project_id config w port service version vars details params
    Hport Hservice Hversion Hvars Hvalid Hlookup Hjava Hparams
    max_memory max_heap revision_key Hheap.
  unfold start_app.
  rewrite Hport, Hservice, Hversion, Hvars, Hvalid, Hlookup, Hparams.
  cbn [negb]. rewrite Hjava.
  fold max_memory. fold revision_key.
  unfold bind at 1. unfold emit at 1. cbn [fst snd].
  destruct (ensure_source env revision_key (sourceUrl details) JAVA)
    as [e|] eqn:Hsource.
  - split; [reflexivity|]. split; [now exists e|discriminate].
  - change (String.eqb JAVA PYTHON27) with false.
    change (String.eqb JAVA GO) with false.
    change (String.eqb JAVA PHP) with false.
    change (String.eqb JAVA JAVA) with true.
    cbn [orb].
    fold max_heap.
    destruct (Z.leb_spec max_heap 0) as [_|Hgt]; [|lia].
    unfold bind, raise. cbn.
    split; [reflexivity|]. split; [eexists; reflexivity|reflexivity].
Qed.

Lemma java_start_rejects_small_heap_witness :
  start_app constants options (node [] [] [] []) "javabook" start_guestbook
    world =
  (Raise (BadConfigurationException
            "Memory for Java applications must be greater than 250MB"),
   {| files := disk;
      trace := [EnsureSource "javabook_default_v1_1"
                  "/opt/appscale/apps/javabook.tar.gz" "java"];
      fetches := 0; opens := 0; routings := 0 |}).
Proof.
  destruct (java_start_rejects_small_heap constants options (node [] [] [] [])
              "javabook" start_guestbook world 8080 "default" "v1" ∅
              javabook ∅ eq_refl eq_refl eq_refl eq_refl eq_refl eq_refl
              eq_refl eq_refl ltac:(vm_compute; discriminate))
    as (Hworld & _ & Hresult).
  specialize (Hresult eq_refl).
  destruct (start_app constants options (node [] [] [] []) "javabook"
              start_guestbook world) as [r w'].
  simpl in Hworld, Hresult. subst r w'. reflexivity.
Defined.

(** ** Stopping one instance *)

(** C1, as the spec words it, fails.  When Monit answers 404 the stop
    returns at once and successfully: the Monit configuration file is still
    there and [clean_old_sources] has not run.  And a stop that goes all the
    way removes the Monit configuration file and runs [clean_old_sources],
    but leaves the logrotate configuration of the project in place. *)
Lemma stop_instance_leaves_files :
  (fst (stop_app_instance constants unlisted "guestbook" 8080 world) =
     Return tt /\
   trace (snd (stop_app_instance constants unlisted "guestbook" 8080 world)) =
     [MonitUnmonitor "http://localhost:2812/app___guestbook-8080"] /\
   files (snd (stop_app_instance constants unlisted "guestbook" 8080 world))
     !! "/etc/monit/conf.d/appscale-app___guestbook-8080.cfg" =
     Some "check process" /\
   files (snd (stop_app_instance constants unlisted "guestbook" 8080 world))
     !! "/etc/logrotate.d/appscale-guestbook" = Some "rotate 7") /\
  (fst (stop_app_instance constants (node [] [] [] []) "guestbook" 8080 world)
     = Return tt /\
   files (snd (stop_app_instance constants (node [] [] [] []) "guestbook"
                 8080 world))
     !! "/etc/monit/conf.d/appscale-app___guestbook-8080.cfg" = None /\
   files (snd (stop_app_instance constants (node [] [] [] []) "guestbook"
                 8080 world))
     !! "/etc/logrotate.d/appscale-guestbook" = Some "rotate 7").
Proof. vm_compute. repeat split; reflexivity. Qed.

Lemma string_length_app (s1 s2 : string) :
  String.length (s1 +:+ s2) = (String.length s1 + String.length s2)%nat.
Proof.
  induction s1 as [|a s1 IH]; [reflexivity|].
  change (S (String.length (s1 +:+ s2)) =
          S (String.length s1 + String.length s2)).
  now rewrite IH.
Qed.

Lemma string_app_assoc (s1 s2 s3 : string) :
  (s1 +:+ s2) +:+ s3 = s1 +:+ s2 +:+ s3.
Proof.
  induction s1 as [|a s1 IH]; [reflexivity|].
  change (String a ((s1 +:+ s2) +:+ s3) = String a (s1 +:+ s2 +:+ s3)).
  now rewrite IH.
Qed.

Lemma get_app_right (s1 s2 : string) (i : nat) :
  String.get (String.length s1 + i) (s1 +:+ s2) = String.get i s2.
Proof. induction s1 as [|a s1 IH]; [reflexivity|exact IH]. Qed.

Lemma get_not_contained (ch : ascii) (s : string) (i : nat) :
  contains_char ch s = false -> String.get i s <> Some ch.
Proof.
  revert i. induction s as [|a s IH]; intros i Hs; simpl in *.
  - discriminate.
  - apply orb_false_elim in Hs as [Ha Hs].
    destruct i as [|i]; [|now apply IH].
    intros [= ->]. rewrite Ascii.eqb_refl in Ha. discriminate.
Qed.

Lemma app_name_has_no_dot (app_name : string) :
  all_app_name_chars app_name = true -> contains_char "." app_name = false.
Proof.
  induction app_name as [|a s IH]; simpl; [reflexivity|].
  intros H. apply andb_prop in H as [Ha Hs]. rewrite (IH Hs), orb_false_r.
  destruct (Ascii.eqb_spec a ".") as [->|]; [discriminate Ha|reflexivity].
Qed.

(** The logrotate configuration of a project is never the Monit
    configuration file of one of its instances: the latter ends in [.cfg],
    and a project identifier has no dot. *)
Lemma logrotate_script_not_config (c : Constants) (app_name : string)
  (port : Z) :
  is_app_name_valid app_name = true ->
  logrotate_script c app_name <>
  monit_config_file c (instance_watch app_name port).
Proof.
  intros Hvalid Heq. unfold is_app_name_valid in Hvalid.
  apply andb_prop in Hvalid as [_ Hchars].
  unfold logrotate_script, monit_config_file in Heq.
  set (base := MONIT_CONFIG_DIR c +:+ "/appscale-" +:+
               instance_watch app_name port) in *.
  assert (Hcfg : MONIT_CONFIG_DIR c +:+ "/appscale-" +:+
                 instance_watch app_name port +:+ ".cfg" = base +:+ ".cfg").
  { subst base. now rewrite !string_app_assoc. }
  rewrite Hcfg in Heq. clear Hcfg.
  assert (Hlen : (String.length base =
                  String.length (LOGROTATE_CONFIG_DIR c) + 6 +
                  String.length app_name)%nat).
  { apply (f_equal String.length) in Heq.
    rewrite !string_length_app in Heq. simpl in Heq. lia. }
  assert (Hdot : String.get (String.length base) (base +:+ ".cfg") = Some "."%char).
  { rewrite <- (Nat.add_0_r (String.length base)) at 1.
    now rewrite get_app_right. }
  rewrite <- Heq, Hlen, <- Nat.add_assoc, get_app_right in Hdot.
  revert Hdot. apply get_not_contained. simpl.
  now apply app_name_has_no_dot.
Qed.

Lemma unmonitor_keeps_files (c : Constants) (env : Env)
  (process_name : string) (w : World) :
  fst (unmonitor c env process_name 5 w) <> OutOfFuel /\
  files (snd (unmonitor c env process_name 5 w)) = files w.
Proof.
  destruct (unmonitor_rec_bounded c env process_name 6 5 w)
    as (Hres & _ & Hfiles); [lia | lia |].
  split; assumption.
Qed.

(** C1, amended: after a stop of one instance has returned successfully,
    the logrotate configuration of the project is as it was, and either
    Monit had answered 404, and then the stop did nothing after the request
    to Monit (no file removed, no reload, [clean_old_sources] not run), or
    Monit let the process go, and then Monit was reloaded,
    [clean_old_sources] has run and the kill thread was started, and the
    Monit configuration file of the instance is absent unless its removal
    is refused, which is logged. *)
Theorem stop_instance_cleanup :
  forall (c : Constants) (env : Env) (app_name : string) (port : Z)
         (w w' : World),
    stop_app_instance c env app_name port w = (Return tt, w') ->
    let watch := instance_watch app_name port in
    let cfg := monit_config_file c watch in
    let unmonitored := unmonitor c env watch 5 w in
    files w' !! logrotate_script c app_name =
      files w !! logrotate_script c app_name /\
    (((exists message, fst unmonitored = Raise (ProcessNotFound message)) /\
      w' = snd unmonitored /\ files w' = files w) \/
     (fst unmonitored = Return tt /\
      (remove_fails env cfg = false -> files w' !! cfg = None) /\
      exists errors instance_pid,
        trace w' =
          trace (snd unmonitored) ++ errors ++
          [MonitReload; MonitGetEntries;
           CleanOldRevisions (active_revisions c env (monit_entries env));
           ThreadKillInstance watch instance_pid] /\
        (errors = [] \/ errors = [LogError ("Error deleting " +:+ cfg)]))).
Proof.
  intros c env app_name port w w' Hstop watch cfg unmonitored.
  unfold stop_app_instance in Hstop.
  destruct (is_app_name_valid app_name) eqn:Hvalid; [|discriminate Hstop].
  pose proof (logrotate_script_not_config c app_name port Hvalid) as Hpaths.
  fold watch in Hstop, Hpaths. fold cfg in Hpaths. cbn [negb] in Hstop.
  unfold bind at 1 in Hstop. unfold try_except at 1 in Hstop.
  unfold bind at 1 in Hstop. unfold read_file in Hstop.
  destruct (files w !! Py.path_join (PID_DIR c) [watch +:+ ".pid"])
    as [text|]; [|discriminate Hstop].
  destruct (Py.int (Py.strip text)) as [instance_pid|];
    [|discriminate Hstop].
  unfold ret at 1 in Hstop.
  unfold bind at 1 in Hstop. unfold try_except at 1 in Hstop.
  unfold bind at 1 in Hstop. fold unmonitored in Hstop.
  destruct (unmonitor_keeps_files c env watch w) as (Hfuel & Hfiles).
  fold unmonitored in Hfuel, Hfiles.
  destruct unmonitored as [r w1]. cbn [fst snd] in *.
  destruct r as [[]|e|]; [| |contradiction].
  - (* Monit let the process go *)
    cbn [ret negb] in Hstop.
    unfold bind at 1 in Hstop. unfold try_except at 1 in Hstop.
    unfold os_remove, bind, get_world in Hstop. fold cfg in Hstop.
    rewrite Hfiles in Hstop.
    destruct (files w !! cfg) as [contents|] eqn:Hcfg.
    + destruct (remove_fails env cfg) eqn:Hfails.
      * cbn in Hstop. injection Hstop as <-. cbn [files trace].
        rewrite Hfiles. split; [reflexivity|]. right.
        split; [reflexivity|]. split; [discriminate|].
        exists [LogError ("Error deleting " +:+ cfg)], instance_pid.
        split; [|now right]. now rewrite <- !app_assoc.
      * cbn in Hstop. injection Hstop as <-. cbn [files trace].
        split; [now rewrite lookup_delete_ne by congruence|]. right.
        split; [reflexivity|].
        split; [intros _; apply lookup_delete_eq|].
        exists [], instance_pid.
        split; [|now left]. now rewrite <- !app_assoc.
    + cbn in Hstop. injection Hstop as <-. cbn [files trace].
      rewrite Hfiles. split; [reflexivity|]. right.
      split; [reflexivity|]. split; [intros _; exact Hcfg|].
      exists [LogError ("Error deleting " +:+ cfg)], instance_pid.
      split; [|now right]. now rewrite <- !app_assoc.
  - (* Monit raised *)
    destruct e; try discriminate Hstop.
    cbn in Hstop. injection Hstop as <-.
    split; [now rewrite Hfiles|]. left.
    split; [eauto|]. split; [reflexivity|exact Hfiles].
Qed.

Lemma stop_instance_cleanup_witness :
  files (snd (stop_app_instance constants (node [] [] [] []) "guestbook" 8080
                world)) !! logrotate_script constants "guestbook" =
  files world !! logrotate_script constants "guestbook".
Proof.
  assert (H : stop_app_instance constants (node [] [] [] []) "guestbook" 8080
                world =
              (Return tt,
               snd (stop_app_instance constants (node [] [] [] [])
                      "guestbook" 8080 world)))
    by (vm_compute; reflexivity).
  exact (proj1 (stop_instance_cleanup constants (node [] [] [] [])
                  "guestbook" 8080 world _ H)).
Defined.

(** ** Log rotation *)

(** [setup_logrotate] never returns [False]: it returns [True] or lets the
    [IOError] of the write leave. *)
Lemma setup_logrotate_result (c : Constants) (env : Env)
  (app_name watch : string) (log_size : Z) (w : World) :
  (write_fails env (logrotate_script c app_name) = false /\
   setup_logrotate c env app_name watch log_size w =
   (Return true,
    {| files := <[logrotate_script c app_name :=
                    logrotate_contents watch log_size]> (files w);
       trace := trace w; fetches := fetches w; opens := opens w;
       routings := routings w |})) \/
  (write_fails env (logrotate_script c app_name) = true /\
   setup_logrotate c env app_name watch log_size w = (Raise IOError, w)).
Proof.
  unfold setup_logrotate, write_file, bind, get_world.
  destruct (write_fails env (logrotate_script c app_name)); [right|left];
    split; reflexivity.
Qed.

(** [remove_logrotate] never raises: a removal that fails is logged and
    answered with [False]. *)
Lemma remove_logrotate_result (c : Constants) (env : Env) (app_name : string)
  (w : World) :
  exists removed w',
    remove_logrotate c env app_name w = (Return removed, w') /\
    (removed = false ->
     trace w' =
       trace w ++ [LogError ("Error deleting " +:+ logrotate_script c app_name)]
     /\ files w' = files w).
Proof.
  unfold remove_logrotate, os_remove, try_except, bind, get_world.
  destruct (files w !! logrotate_script c app_name); cbn.
  - destruct (remove_fails env (logrotate_script c app_name)); cbn.
    + eexists _, _. split; [reflexivity|]. intros _. split; reflexivity.
    + eexists _, _. split; [reflexivity|]. discriminate.
  - eexists _, _. split; [reflexivity|]. intros _. split; reflexivity.
Qed.

(** C8 fails on the start: with a logrotate directory that cannot be
    written to, [start_app] has written the Monit configuration, started
    the instance and its routing thread, and then ends with the [IOError]
    of [setup_logrotate] instead of returning, and so does the handler;
    nothing is logged as an error; on the node where the write succeeds the
    same request returns. *)
Theorem logrotate_write_failure_fails_start :
  fst (start_app constants options read_only_logrotate "guestbook"
         start_guestbook world) = Raise IOError /\
  fst (AppHandler_post constants options read_only_logrotate "guestbook"
         (Some start_guestbook) world) = Raise IOError /\
  MonitStart "app___guestbook-8080" false ∈
    trace (snd (start_app constants options read_only_logrotate "guestbook"
                  start_guestbook world)) /\
  ThreadAddRouting "guestbook" 8080 ∈
    trace (snd (start_app constants options read_only_logrotate "guestbook"
                  start_guestbook world)) /\
  forallb (fun e => negb (is_log_error e))
    (trace (snd (start_app constants options read_only_logrotate
                   "guestbook" start_guestbook world))) = true /\
  fst (start_app constants options (node [] [] [] []) "guestbook"
         start_guestbook world) = Return tt.
Proof.
  split; [vm_compute; reflexivity|].
  split; [vm_compute; reflexivity|].
  assert (Htrace : exists e1 e2,
            trace (snd (start_app constants options read_only_logrotate
                          "guestbook" start_guestbook world)) =
            [e1; e2; MonitStart "app___guestbook-8080" false;
             ThreadAddRouting "guestbook" 8080]).
  { eexists _, _. vm_compute. reflexivity. }
  destruct Htrace as (e1 & e2 & Htrace).
  split; [rewrite Htrace; set_solver|].
  split; [rewrite Htrace; set_solver|].
  split; vm_compute; reflexivity.
Qed.

Lemma for_each_returns {A} (body : A -> M unit) (l : list A) :
  (forall x w, exists w', body x w = (Return tt, w')) ->
  forall w, exists w', for_each l body w = (Return tt, w').
Proof.
  intros Hbody. induction l as [|x l IH]; intros w; simpl.
  - now exists w.
  - unfold bind. destruct (Hbody x w) as (w1 & ->). apply IH.
Qed.

Lemma remove_or_log_returns (c : Constants) (env : Env) (path message : string)
  (w : World) :
  exists w',
    try_except (os_remove env path)
      (fun e => match e with
                | OSError => Some (emit (LogError message))
                | _ => None
                end) w = (Return tt, w').
Proof.
  unfold try_except, os_remove, bind, get_world.
  destruct (files w !! path); cbn; [|eauto].
  destruct (remove_fails env path); cbn; eauto.
Qed.

(** The stop of a project does keep what C8 says of the removal: once
    Monit has stopped the group, [stop_app] returns whether or not the
    configuration files and the logrotate configuration can be removed. *)
Lemma stop_app_survives_remove_failures (c : Constants) (env : Env)
  (app_name : string) (w : World) :
  is_app_name_valid app_name = true ->
  monit_stop env (MONIT_INSTANCE_PREFIX +:+ app_name) = true ->
  fst (stop_app c env app_name w) = Return tt.
Proof.
  intros Hvalid Hstopped. unfold stop_app. rewrite Hvalid. cbn [negb].
  unfold bind at 1. unfold emit at 1. rewrite Hstopped. cbn [negb].
  unfold bind at 1. unfold glob at 1. unfold bind at 1. cbn [get_world ret].
  unfold bind at 1.
  match goal with
  | |- context [for_each ?l ?body ?w0] =>
      destruct (for_each_returns body l
                  (fun x w1 => remove_or_log_returns c env x _ w1) w0)
        as (w1 & ->)
  end.
  unfold bind at 1.
  destruct (remove_logrotate_result c env app_name w1)
    as (removed & w2 & -> & _).
  destruct removed; reflexivity.
Qed.

(** ** The environment of a Java application *)

(** C9, as the spec words it, fails: on the sample node the document has
    the entry [GCS_HOST = storage.local], and the environment binds
    [GCS_HOST] to the address made from the deployment configuration. *)
Lemma java_env_overrides_gcs_host :
  (exists e,
     e ∈ env_var_elements web_xml /\
     attrib_of e !! "name" = Some "GCS_HOST" /\
     attrib_of e !! "value" = Some "storage.local") /\
  exists env_map,
    fst (create_java_app_env constants (node [] [] [] []) "javabook" world) =
      Return env_map /\
    env_map !! "GCS_HOST" = Some (PStr "https://gcs.example.com:443") /\
    env_map !! "GCS_HOST" <> Some (PStr "storage.local").
Proof.
  split.
  - eexists. split; [apply list_elem_of_here|]. split; reflexivity.
  - eexists. split; [vm_compute; reflexivity|].
    split; [vm_compute; reflexivity|]. vm_compute. discriminate.
Qed.

Section JavaEnv.

Context (c : Constants) (env : Env).

Lemma fold_env_vars (l : list Element) : forall acc w,
  (forall e, e ∈ l -> has_name_and_value e) ->
  fold_each l acc add_env_var w = (Return (fold_left set_env_var l acc), w).
Proof.
  induction l as [|e l IH]; intros acc w Hwf; [reflexivity|].
  simpl. unfold bind.
  destruct (Hwf e (list_elem_of_here _ _)) as [[k Hk] [v Hv]].
  unfold add_env_var at 1, set_env_var at 2. rewrite Hk, Hv. cbn.
  apply IH. intros e' He'. apply Hwf. now apply list_elem_of_further.
Qed.

Lemma fold_sections (children : list Element) : forall acc w,
  (forall e,
     e ∈ flat_map (fun child =>
                     if Py.endswith (tag_of child) "env-variables"
                     then children_of child else []) children ->
     has_name_and_value e) ->
  fold_each children acc
    (fun custom_vars child =>
       if negb (Py.endswith (tag_of child) "env-variables")
       then ret custom_vars
       else fold_each (children_of child) custom_vars add_env_var) w =
  (Return (fold_left set_env_var
             (flat_map (fun child =>
                          if Py.endswith (tag_of child) "env-variables"
                          then children_of child else []) children) acc), w).
Proof.
  induction children as [|child children IH]; intros acc w Hwf;
    [reflexivity|].
  simpl in *. unfold bind.
  destruct (Py.endswith (tag_of child) "env-variables"); cbn [negb].
  - rewrite fold_env_vars.
    + rewrite fold_left_app. apply IH.
      intros e He. apply Hwf. apply elem_of_app. now right.
    + intros e He. apply Hwf. apply elem_of_app. now left.
  - cbn. apply IH. exact Hwf.
Qed.

Lemma fold_set_env_var_other (K : string) (l : list Element) : forall acc,
  (forall e, e ∈ l -> attrib_of e !! "name" <> Some K) ->
  fold_left set_env_var l acc !! K = acc !! K.
Proof.
  induction l as [|e l IH]; intros acc Hother; [reflexivity|].
  simpl. rewrite IH.
  - unfold set_env_var.
    destruct (attrib_of e !! "name") as [k|] eqn:Hk; [|reflexivity].
    destruct (attrib_of e !! "value") as [v|]; [|reflexivity].
    apply lookup_insert_ne. intros ->.
    apply (Hother e (list_elem_of_here _ _)). exact Hk.
  - intros e' He'. apply Hother. now apply list_elem_of_further.
Qed.

Lemma fold_set_env_var_last (K V : string) (before after : list Element)
  (e : Element) (acc : gmap string string) :
  attrib_of e !! "name" = Some K ->
  attrib_of e !! "value" = Some V ->
  (forall e', e' ∈ after -> attrib_of e' !! "name" <> Some K) ->
  fold_left set_env_var (before ++ e :: after) acc !! K = Some V.
Proof.
  intros Hk Hv Hafter. rewrite fold_left_app. simpl.
  rewrite fold_set_env_var_other by exact Hafter.
  unfold set_env_var. rewrite Hk, Hv. apply lookup_insert_eq.
Qed.

End JavaEnv.

Lemma find_web_xml_keeps_world (env : Env) (app_name : string) (w : World) :
  snd (find_web_xml env app_name w) = w.
Proof.
  unfold find_web_xml.
  match goal with
  | |- context [match ?l with [] => _ | _ => _ end] => destruct l as [|x [|y l']]
  end; try reflexivity.
  destruct (sort_strings (x :: y :: l')); reflexivity.
Qed.

(** C9, amended: when the application has an [appengine-web.xml] whose
    entries all carry a name and a value, [create_java_app_env] returns an
    environment, and every entry [K = V] of an [env-variables] section that
    is not followed by another entry named [K] is bound to [V] in it,
    unless [K] is [GCS_HOST] and the deployment configures a GCS host. *)
Theorem java_env_has_xml_vars :
  forall (c : Constants) (env : Env) (app_name : string) (w : World)
         (xml_file : string) (root : Element),
    fst (find_web_xml env app_name w) = Return xml_file ->
    xml_parse env xml_file = inl root ->
    (forall e, e ∈ env_var_elements root -> has_name_and_value e) ->
    exists env_map w',
      create_java_app_env c env app_name w = (Return env_map, w') /\
      forall before e after K V,
        env_var_elements root = before ++ e :: after ->
        attrib_of e !! "name" = Some K ->
        attrib_of e !! "value" = Some V ->
        (forall e', e' ∈ after -> attrib_of e' !! "name" <> Some K) ->
        (K = "GCS_HOST" -> gcs env ≫= (.!! "host") = None) ->
        env_map !! K = Some (PStr V).
Proof.
  intros c env app_name w xml_file root Hfind Hparse Hwf.
  pose proof (find_web_xml_keeps_world env app_name w) as Hworld.
  unfold create_java_app_env. unfold bind at 1.
  destruct (find_web_xml env app_name w) as [r w0].
  cbn [fst snd] in Hfind, Hworld. subst r w0.
  unfold bind at 1. unfold extract_env_vars_from_xml. rewrite Hparse.
  rewrite fold_sections by exact Hwf. fold (env_var_elements root).
  set (custom := fold_left set_env_var (env_var_elements root) ∅).
  assert (Hcustom : forall before e after K V,
            env_var_elements root = before ++ e :: after ->
            attrib_of e !! "name" = Some K ->
            attrib_of e !! "value" = Some V ->
            (forall e', e' ∈ after -> attrib_of e' !! "name" <> Some K) ->
            ((PStr <$> custom) ∪
             (<["APPSCALE_HOME" := PStr (APPSCALE_HOME c)]> ∅
                : gmap string pyval)) !! K = Some (PStr V)).
  { intros before e after K V Hsplit Hk Hv Hafter.
    apply lookup_union_Some_l. rewrite lookup_fmap. subst custom.
    rewrite Hsplit.
    now rewrite (fold_set_env_var_last K V before after e ∅ Hk Hv Hafter). }
  destruct (gcs env) as [g|] eqn:Hgcs.
  - unfold bind at 1. cbn [ret].
    rewrite (lookup_union_l g gcs_defaults "host") by reflexivity.
    destruct (g !! "host") as [host|] eqn:Hhost.
    + unfold format_gcs_host.
      assert (Hscheme : is_Some ((g ∪ gcs_defaults) !! "scheme")).
      { apply lookup_union_is_Some. right. now eexists. }
      assert (Hport : is_Some ((g ∪ gcs_defaults) !! "port")).
      { apply lookup_union_is_Some. right. now eexists. }
      destruct Hscheme as [scheme ->]. destruct Hport as [gcs_port ->].
      rewrite (lookup_union_Some_l g gcs_defaults "host" host Hhost).
      cbn. eexists _, _. split; [reflexivity|].
      intros before e after K V Hsplit Hk Hv Hafter Hgcs_host.
      destruct (decide (K = "GCS_HOST")) as [->|Hne].
      * specialize (Hgcs_host eq_refl). cbn in Hgcs_host. congruence.
      * rewrite lookup_insert_ne by congruence. eauto.
    + cbn. eexists _, _. split; [reflexivity|].
      intros before e after K V Hsplit Hk Hv Hafter _. eauto.
  - cbn. eexists _, _. split; [reflexivity|].
    intros before e after K V Hsplit Hk Hv Hafter _. eauto.
Qed.

Lemma java_env_has_xml_vars_witness :
  exists env_map,
    fst (create_java_app_env constants (node [] [] [] []) "javabook" world) =
      Return env_map /\
    env_map !! "MODE" = Some (PStr "test").
Proof.
  destruct (java_env_has_xml_vars constants (node [] [] [] []) "javabook"
              world "/var/apps/javabook/app/war/WEB-INF/appengine-web.xml"
              web_xml)
    as (env_map & w' & Hrun & Hvars).
  - vm_compute. reflexivity.
  - reflexivity.
  - intros e He.
    change (env_var_elements web_xml) with
      [Elem "{http://appengine.google.com/ns/1.0}env-var"
         (<["name" := "GCS_HOST"]> (<["value" := "storage.local"]> ∅)) [];
       Elem "{http://appengine.google.com/ns/1.0}env-var"
         (<["name" := "MODE"]> (<["value" := "test"]> ∅)) []] in He.
    apply elem_of_cons in He as [->|He];
      [split; eexists; reflexivity|].
    apply elem_of_cons in He as [->|He];
      [split; eexists; reflexivity|].
    inversion He.
  - exists env_map. rewrite Hrun. split; [reflexivity|].
    apply (Hvars [Elem "{http://appengine.google.com/ns/1.0}env-var"
                    (<["name" := "GCS_HOST"]>
                       (<["value" := "storage.local"]> ∅)) []]
                 (Elem "{http://appengine.google.com/ns/1.0}env-var"
                    (<["name" := "MODE"]> (<["value" := "test"]> ∅)) [])
                 [] "MODE" "test").
    + reflexivity.
    + reflexivity.
    + reflexivity.
    + intros e' He'. inversion He'.
    + discriminate.
Defined.

(** * Further properties of the service *)

(** ** Requests that [start_app] turns down *)

(** X1: The required keys of the request are checked in the order [app_port],
    [service_id], [version_id], [env_vars]; the first one that is missing is
    named in the [BadConfigurationException], and nothing has been done. *)
Theorem start_app_missing_parameter :
  forall (c : Constants) (o : Options) (env : Env) (project_id : string)
         (config : StartConfig) (w : World),
    let missing name :=
      start_app c o env project_id config w =
      (Raise (BadConfigurationException ("Missing parameter: " +:+ name)), w) in
    (app_port config = None -> missing "app_port") /\
    (is_Some (app_port config) -> service_id config = None ->
     missing "service_id") /\
    (is_Some (app_port config) -> is_Some (service_id config) ->
     version_id config = None -> missing "version_id") /\
    (is_Some (app_port config) -> is_Some (service_id config) ->
     is_Some (version_id config) -> env_vars config = None ->
     missing "env_vars").
Proof.
  intros c o env project_id config w missing. subst missing.
  unfold start_app.
  repeat split.
  - intros ->. reflexivity.
  - intros [port ->] ->. reflexivity.
  - intros [port ->] [service ->] ->. reflexivity.
  - intros [port ->] [service ->] [version ->] ->. reflexivity.
Qed.

Lemma start_app_missing_parameter_witness :
  start_app constants options (node [] [] [] []) "guestbook"
    start_without_service world =
  (Raise (BadConfigurationException "Missing parameter: service_id"), world).
Proof.
  refine (proj1 (proj2 (start_app_missing_parameter constants options
                          (node [] [] [] []) "guestbook"
                          start_without_service world)) _ _).
  - now eexists.
  - reflexivity.
Defined.

(** X2: A complete request for an invalid project identifier, or for a version
    that the projects manager does not hold, is turned down with a
    [BadConfigurationException] before the source manager, Monit or the
    file system are touched. *)
Theorem start_app_unknown_target :
  forall (c : Constants) (o : Options) (env : Env) (project_id : string)
         (config : StartConfig) (w : World) (port : Z)
         (service version : string) (vars : gmap string pyval),
    app_port config = Some port ->
    service_id config = Some service ->
    version_id config = Some version ->
    env_vars config = Some vars ->
    (is_app_name_valid project_id = false ->
     start_app c o env project_id config w =
     (Raise (BadConfigurationException
               ("Invalid project ID: " +:+ project_id)), w)) /\
    (is_app_name_valid project_id = true ->
     lookup_version env project_id service version = None ->
     start_app c o env project_id config w =
     (Raise (BadConfigurationException "Version not found"), w)).
Proof.
  intros c o env project_id config w port service version vars
    Hport Hservice Hversion Hvars.
  unfold start_app. rewrite Hport, Hservice, Hversion, Hvars.
  split.
  - intros ->. reflexivity.
  - intros -> ->. reflexivity.
Qed.

Lemma start_app_unknown_target_witness :
  start_app constants options (node [] [] [] []) "guestbook"
    start_unknown_version world =
  (Raise (BadConfigurationException "Version not found"), world).
Proof.
  refine (proj2 (start_app_unknown_target constants options
                   (node [] [] [] []) "guestbook" start_unknown_version
                   world 8080 "default" "v7" ∅ eq_refl eq_refl eq_refl
                   eq_refl) _ _);
    reflexivity.
Defined.

(** ** A start of the Python application server, step by step *)

Section PythonStart.

Context (c : Constants) (o : Options) (env : Env).
Context (project_id : string) (config : StartConfig) (w : World).
Context (port : Z) (service version : string) (vars : gmap string pyval).
Context (details : VersionDetails) (params : gmap string Z).

Hypothesis Hport : app_port config = Some port.
Hypothesis Hservice : service_id config = Some service.
Hypothesis Hversion : version_id config = Some version.
Hypothesis Hvars : env_vars config = Some vars.
Hypothesis Hvalid : is_app_name_valid project_id = true.
Hypothesis Hlookup :
  lookup_version env project_id service version = Some details.
Hypothesis Hparams : runtime_params env = Some params.

Let key := revision_key_of c project_id service version details.
Let pidfile := PIDFILE project_id port.
Let watch := MONIT_INSTANCE_PREFIX +:+ project_id.
Let full_watch := watch +:+ "-" +:+ Py.str port.
Let cmd := create_python27_start_cmd c o project_id (login_ip o) port pidfile key.
Let penv := python_start_env c o env project_id key (runtime details) vars.
Let asked :=
  with_event w (EnsureSource key (sourceUrl details) (runtime details)).
Let configured :=
  with_event asked
    (CreateConfigFile watch cmd pidfile port penv
       (instance_max_memory c params details) (syslog_server o) true).
Let monitored :=
  with_event (with_file configured (monit_config_file c full_watch) cmd)
    (MonitStart full_watch false).
Let routed := with_event monitored (ThreadAddRouting project_id port).

(** A start stops at the source manager when the source cannot be had. *)
Lemma start_app_source_steps (e : exn) :
  ensure_source env key (sourceUrl details) (runtime details) = Some e ->
  start_app c o env project_id config w = (Raise e, asked).
Proof.
  intros Hsource. unfold start_app.
  rewrite Hport, Hservice, Hversion, Hvars, Hvalid, Hlookup, Hparams.
  cbn [negb]. unfold bind at 1. unfold emit at 1.
  fold (revision_key_of c project_id service version details). fold key.
  now rewrite Hsource.
Qed.

(** The steps of a start of a Python, Go or PHP application once the source
    is there. *)
Lemma start_app_python_steps :
  python_family (runtime details) = true ->
  ensure_source env key (sourceUrl details) (runtime details) = None ->
  start_app c o env project_id config w =
  if write_fails env (monit_config_file c full_watch) then
    (Raise IOError, configured)
  else if negb (monit_start env full_watch) then
    (Raise (AssertionError ("Monit was unable to start " +:+ project_id +:+
                            ":" +:+ Py.str port)), monitored)
  else if write_fails env (logrotate_script c project_id) then
    (Raise IOError, routed)
  else
    (Return tt,
     with_file routed (logrotate_script c project_id)
       (logrotate_contents watch (log_size_of c project_id))).
Proof.
  intros Hfamily Hsource. unfold start_app.
  rewrite Hport, Hservice, Hversion, Hvars, Hvalid, Hlookup, Hparams.
  cbn [negb]. unfold bind at 1. unfold emit at 1.
  fold (revision_key_of c project_id service version details). fold key.
  rewrite Hsource. unfold python_family in Hfamily. rewrite Hfamily.
  unfold bind at 1. cbn [ret fst snd].
  unfold bind at 1. unfold create_config_file, write_file.
  unfold bind at 1. unfold emit at 1. unfold bind at 1. cbn [get_world].
  fold watch. fold full_watch.
  destruct (write_fails env (monit_config_file c full_watch)) eqn:Hcfg;
    [reflexivity|].
  cbn [set_files files trace fetches opens routings].
  unfold bind at 1. unfold monit_interface_start.
  unfold bind at 1. unfold emit at 1. cbn [ret].
  destruct (monit_start env full_watch) eqn:Hstart; cbn [negb];
    [|reflexivity].
  unfold bind at 1. unfold emit at 1.
  unfold bind at 1. unfold setup_logrotate.
  unfold bind at 1. unfold write_file. unfold bind at 1. cbn [get_world].
  destruct (write_fails env (logrotate_script c project_id)) eqn:Hrot;
    reflexivity.
Qed.

End PythonStart.

(** X3: When the source manager cannot provide the source, [start_app] ends with
    the exception of the source manager, whatever the runtime; all it has
    done is to ask for the source. *)
Theorem start_app_source_failure :
  forall (c : Constants) (o : Options) (env : Env) (project_id : string)
         (config : StartConfig) (w : World) (port : Z)
         (service version : string) (vars : gmap string pyval)
         (details : VersionDetails) (params : gmap string Z) (e : exn),
    app_port config = Some port ->
    service_id config = Some service ->
    version_id config = Some version ->
    env_vars config = Some vars ->
    is_app_name_valid project_id = true ->
    lookup_version env project_id service version = Some details ->
    runtime_params env = Some params ->
    ensure_source env (revision_key_of c project_id service version details)
      (sourceUrl details) (runtime details) = Some e ->
    start_app c o env project_id config w =
    (Raise e,
     with_event w
       (EnsureSource (revision_key_of c project_id service version details)
          (sourceUrl details) (runtime details))).
Proof.
  intros c o env project_id config w port service version vars details
    params e Hport Hservice Hversion Hvars Hvalid Hlookup Hparams Hsource.
  eapply start_app_source_steps; eassumption.
Qed.

Lemma start_app_source_failure_witness :
  start_app constants options no_source "guestbook" start_guestbook world =
  (Raise SourceError,
   with_event world
     (EnsureSource "guestbook_default_v1_2"
        "/opt/appscale/apps/guestbook.tar.gz" "python27")).
Proof.
  exact (start_app_source_failure constants options no_source "guestbook"
           start_guestbook world 8080 "default" "v1" ∅ guestbook ∅
           SourceError eq_refl eq_refl eq_refl eq_refl eq_refl eq_refl
           eq_refl eq_refl).
Defined.

(** X4: A version with a runtime other than python27, go, php and java is turned
    down with a [BadConfigurationException] only after its source has been
    asked for; nothing is written and Monit is not asked to start anything. *)
Theorem start_app_unknown_runtime :
  forall (c : Constants) (o : Options) (env : Env) (project_id : string)
         (config : StartConfig) (w : World) (port : Z)
         (service version : string) (vars : gmap string pyval)
         (details : VersionDetails) (params : gmap string Z),
    app_port config = Some port ->
    service_id config = Some service ->
    version_id config = Some version ->
    env_vars config = Some vars ->
    is_app_name_valid project_id = true ->
    lookup_version env project_id service version = Some details ->
    runtime_params env = Some params ->
    ensure_source env (revision_key_of c project_id service version details)
      (sourceUrl details) (runtime details) = None ->
    python_family (runtime details) = false ->
    runtime details <> JAVA ->
    start_app c o env project_id config w =
    (Raise (BadConfigurationException
              ("Unknown runtime " +:+ runtime details +:+ " for " +:+
               project_id)),
     with_event w
       (EnsureSource (revision_key_of c project_id service version details)
          (sourceUrl details) (runtime details))).
Proof.
  intros c o env project_id config w port service version vars details
    params Hport Hservice Hversion Hvars Hvalid Hlookup Hparams Hsource
    Hfamily Hjava.
  unfold start_app.
  rewrite Hport, Hservice, Hversion, Hvars, Hvalid, Hlookup, Hparams.
  cbn [negb]. unfold bind at 1. unfold emit at 1.
  fold (revision_key_of c project_id service version details).
  rewrite Hsource. unfold python_family in Hfamily. rewrite Hfamily.
  apply String.eqb_neq in Hjava. rewrite Hjava. reflexivity.
Qed.

Lemma start_app_unknown_runtime_witness :
  start_app constants options odd_runtime "rubybook" start_guestbook world =
  (Raise (BadConfigurationException "Unknown runtime ruby for rubybook"),
   with_event world
     (EnsureSource "rubybook_default_v1_3"
        "/opt/appscale/apps/rubybook.tar.gz" "ruby")).
Proof.
  refine (start_app_unknown_runtime constants options odd_runtime "rubybook"
            start_guestbook world 8080 "default" "v1" ∅ rubybook ∅
            eq_refl eq_refl eq_refl eq_refl eq_refl eq_refl
            eq_refl eq_refl eq_refl _).
  discriminate.
Defined.

(** ** Starts that reach Monit *)


(** X6: A start of a Python, Go or PHP application that nothing hinders returns
    after four steps: the source is asked for, the Monit configuration is
    written with the start command, Monit is asked to start the single
    process (not the group) and the routing thread is started; then the
    logrotate configuration of the project is written, with the size of the
    dashboard logs for the dashboard and of the application logs for any
    other project.  No other file changes. *)
Theorem start_app_python_success :
  forall (c : Constants) (o : Options) (env : Env) (project_id : string)
         (config : StartConfig) (w : World) (port : Z)
         (service version : string) (vars : gmap string pyval)
         (details : VersionDetails) (params : gmap string Z),
    app_port config = Some port ->
    service_id config = Some service ->
    version_id config = Some version ->
    env_vars config = Some vars ->
    is_app_name_valid project_id = true ->
    lookup_version env project_id service version = Some details ->
    runtime_params env = Some params ->
    python_family (runtime details) = true ->
    ensure_source env (revision_key_of c project_id service version details)
      (sourceUrl details) (runtime details) = None ->
    write_fails env (monit_config_file c (instance_watch project_id port)) =
      false ->
    monit_start env (instance_watch project_id port) = true ->
    write_fails env (logrotate_script c project_id) = false ->
    let run := start_app c o env project_id config w in
    let cfg := monit_config_file c (instance_watch project_id port) in
    let key := revision_key_of c project_id service version details in
    let cmd := create_python27_start_cmd c o project_id (login_ip o) port
                 (PIDFILE project_id port) key in
    fst run = Return tt /\
    files (snd run) !! cfg = Some cmd /\
    files (snd run) !! logrotate_script c project_id =
      Some (logrotate_contents (MONIT_INSTANCE_PREFIX +:+ project_id)
              (if String.eqb project_id (DASHBOARD_PROJECT_ID c)
               then DASHBOARD_LOG_SIZE c else APP_LOG_SIZE c)) /\
    (forall path,
       path <> cfg -> path <> logrotate_script c project_id ->
       files (snd run) !! path = files w !! path) /\
    trace (snd run) =
      trace w ++
      [EnsureSource key (sourceUrl details) (runtime details);
       CreateConfigFile (MONIT_INSTANCE_PREFIX +:+ project_id) cmd
         (PIDFILE project_id port) port
         (python_start_env c o env project_id key (runtime details) vars)
         (instance_max_memory c params details) (syslog_server o) true;
       MonitStart (instance_watch project_id port) false;
       ThreadAddRouting project_id port].
Proof.
  intros c o env project_id config w port service version vars details
    params Hport Hservice Hversion Hvars Hvalid Hlookup Hparams Hfamily
    Hsource Hwrite Hstart Hrotate run cfg key cmd.
  subst run.
  rewrite (start_app_python_steps c o env project_id config w port service
             version vars details params Hport Hservice Hversion Hvars
             Hvalid Hlookup Hparams Hfamily Hsource).
  change ((MONIT_INSTANCE_PREFIX +:+ project_id) +:+ "-" +:+ Py.str port)
    with (instance_watch project_id port).
  fold cfg key cmd. fold cfg in Hwrite.
  rewrite Hwrite, Hstart, Hrotate. cbn [negb fst snd].
  split; [reflexivity|].
  cbn [with_event with_file files trace].
  pose proof (logrotate_script_not_config c project_id port Hvalid) as Hne.
  fold cfg in Hne.
  split; [rewrite lookup_insert_ne by exact Hne; apply lookup_insert_eq|].
  split; [apply lookup_insert_eq|].
  split.
  - intros path Hcfg Hrot.
    rewrite lookup_insert_ne by congruence. now apply lookup_insert_ne.
  - now rewrite <- !app_assoc.
Qed.

Lemma start_app_python_success_witness :
  fst (start_app constants options (node [] [] [] []) "guestbook"
         start_guestbook world) = Return tt /\
  is_Some (files (snd (start_app constants options (node [] [] [] [])
                         "guestbook" start_guestbook world))
             !! "/etc/monit/conf.d/appscale-app___guestbook-8080.cfg").
Proof.
  destruct (start_app_python_success constants options (node [] [] [] [])
              "guestbook" start_guestbook world 8080 "default" "v1" ∅
              guestbook ∅ eq_refl eq_refl eq_refl eq_refl eq_refl eq_refl
              eq_refl eq_refl eq_refl eq_refl eq_refl eq_refl)
    as (Hres & Hcfg & _).
  split; [exact Hres|]. eexists. exact Hcfg.
Defined.

(** ** The environment of a Python, Go or PHP instance *)

Lemma python_app_env_lookup (c : Constants) (env : Env)
  (public_ip app_name k : string) :
  k ∉ python_env_names ->
  create_python_app_env c env public_ip app_name !! k = None.
Proof.
  intros Hk. unfold create_python_app_env, python_env_names in *.
  rewrite !not_elem_of_cons in Hk. destruct Hk as (H1 & H2 & H3& H4 & H5 & _).
  rewrite !lookup_insert_ne by congruence. apply lookup_empty.
Qed.

(** X7: Whatever the request carries in [env_vars], the environment that a start
    of a Python, Go or PHP application hands to Monit has the five variables
    of [create_python_app_env] with the values of the service, and for a Go
    application [GOPATH] and [GOROOT] as the service sets them; every other
    variable of the request is passed on as it is. *)
Theorem start_app_env_precedence :
  forall (c : Constants) (o : Options) (env : Env) (project_id : string)
         (config : StartConfig) (w : World) (port : Z)
         (service version : string) (vars : gmap string pyval)
         (details : VersionDetails) (params : gmap string Z),
    app_port config = Some port ->
    service_id config = Some service ->
    version_id config = Some version ->
    env_vars config = Some vars ->
    is_app_name_valid project_id = true ->
    lookup_version env project_id service version = Some details ->
    runtime_params env = Some params ->
    python_family (runtime details) = true ->
    ensure_source env (revision_key_of c project_id service version details)
      (sourceUrl details) (runtime details) = None ->
    exists (handed : gmap string pyval) (cmd : string),
      CreateConfigFile (MONIT_INSTANCE_PREFIX +:+ project_id) cmd
        (PIDFILE project_id port) port handed
        (instance_max_memory c params details) (syslog_server o) true
        ∈ trace (snd (start_app c o env project_id config w)) /\
      handed !! "MY_IP_ADDRESS" = Some (PStr (login_ip o)) /\
      handed !! "APPNAME" = Some (PStr project_id) /\
      handed !! "GOMAXPROCS" = Some (PInt (num_cpus env)) /\
      handed !! "APPSCALE_HOME" = Some (PStr (APPSCALE_HOME c)) /\
      handed !! "PYTHON_LIB" =
        Some (PStr (APPSCALE_HOME c +:+ "/AppServer/")) /\
      (runtime details = GO ->
       handed !! "GOROOT" = Some (PStr "/opt/go_appengine/goroot") /\
       handed !! "GOPATH" =
         Some (PStr (Py.path_join (UNPACK_ROOT c)
                       [revision_key_of c project_id service version details;
                        "gopath"]))) /\
      (forall k,
         k ∉ python_env_names ->
         runtime details <> GO \/ (k <> "GOROOT" /\ k <> "GOPATH") ->
         handed !! k = vars !! k).
Proof.
  intros c o env project_id config w port service version vars details
    params Hport Hservice Hversion Hvars Hvalid Hlookup Hparams Hfamily
    Hsource.
  eexists (python_start_env c o env project_id
             (revision_key_of c project_id service version details)
             (runtime details) vars), _.
  split.
  - rewrite (start_app_python_steps c o env project_id config w port service
               version vars details params Hport Hservice Hversion Hvars
               Hvalid Hlookup Hparams Hfamily Hsource).
    repeat match goal with
           | |- context [if ?b then _ else _] => destruct b
           end;
      cbn [snd with_event with_file trace];
      rewrite ?elem_of_app, ?list_elem_of_singleton; eauto 10.
  - unfold python_start_env.
    repeat (split; [apply lookup_union_Some_l; reflexivity|]).
    split.
    + intros HGo. rewrite HGo. cbn [String.eqb].
      change (String.eqb GO GO) with true. cbn match.
      split.
      * rewrite lookup_union_r by reflexivity. apply lookup_insert_eq.
      * rewrite lookup_union_r by reflexivity.
        rewrite lookup_insert_ne by discriminate. apply lookup_insert_eq.
    + intros k Hk Hgo.
      rewrite lookup_union_r by (now apply python_app_env_lookup).
      destruct (String.eqb_spec (runtime details) GO) as [HGo|HGo];
        [|reflexivity].
      destruct Hgo as [Hgo|[Hroot Hpath]]; [contradiction|].
      now rewrite !lookup_insert_ne by congruence.
Qed.

Lemma start_app_env_precedence_witness :
  exists (handed : gmap string pyval) (cmd : string),
    CreateConfigFile "app___guestbook" cmd (PIDFILE "guestbook" 8080) 8080
      handed 400 "10.0.0.1" true
      ∈ trace (snd (start_app constants options (node [] [] [] [])
                      "guestbook" start_with_vars world)) /\
    handed !! "APPNAME" = Some (PStr "guestbook") /\
    handed !! "FOO" = Some (PStr "bar").
Proof.
  destruct (start_app_env_precedence constants options (node [] [] [] [])
              "guestbook" start_with_vars world 8080 "default" "v1"
              (<["APPNAME" := PStr "other"]> (<["FOO" := PStr "bar"]> ∅))
              guestbook ∅ eq_refl eq_refl eq_refl eq_refl eq_refl eq_refl
              eq_refl eq_refl eq_refl)
    as (handed & cmd & Hin & _ & Hname & _ & _ & _ & _ & Hother).
  exists handed, cmd. split; [exact Hin|]. split; [exact Hname|].
  rewrite Hother.
  - reflexivity.
  - unfold python_env_names. rewrite !not_elem_of_cons.
    repeat split; try discriminate. apply not_elem_of_nil.
  - left. discriminate.
Defined.

(** ** The ways in which a stop of one instance ends *)

(** A stop of one instance, step by step, once the PID file has been read. *)
Lemma stop_app_instance_steps (c : Constants) (env : Env) (app_name : string)
  (port : Z) (w : World) (text : string) (pid : Z) :
  is_app_name_valid app_name = true ->
  files w !! Py.path_join (PID_DIR c) [instance_watch app_name port +:+ ".pid"]
    = Some text ->
  Py.int (Py.strip text) = Some pid ->
  stop_app_instance c env app_name port w =
  match unmonitor c env (instance_watch app_name port) 5 w with
  | (Return _, w1) =>
      (Return tt,
       after_instance_cleanup c env (instance_watch app_name port) pid w1)
  | (Raise (ProcessNotFound _), w1) => (Return tt, w1)
  | (Raise e, w1) => (Raise e, w1)
  | (OutOfFuel, w1) => (OutOfFuel, w1)
  end.
Proof.
  intros Hvalid Hfile Hpid. unfold stop_app_instance.
  rewrite Hvalid. cbn [negb].
  unfold bind at 1. unfold try_except at 1. unfold bind at 1.
  unfold read_file. rewrite Hfile, Hpid. cbn [ret].
  unfold bind at 1. unfold try_except at 1. unfold bind at 1.
  destruct (unmonitor c env (instance_watch app_name port) 5 w) as [r w1].
  destruct r as [[]|e|]; [|destruct e; reflexivity|reflexivity].
  cbn [ret negb]. unfold after_instance_cleanup.
  unfold bind at 1. unfold try_except at 1.
  unfold os_remove, bind, get_world.
  destruct (files w1 !! monit_config_file c (instance_watch app_name port));
    [|reflexivity].
  destruct (remove_fails env
              (monit_config_file c (instance_watch app_name port)));
    reflexivity.
Qed.

(** X8: Without a readable PID file nothing is stopped: when the file is missing
    the stop ends with an [HTTPError] of code 500 that names the file, and
    when the file does not hold an integer it ends with a [ValueError]; in
    both cases Monit has not been asked anything and no file is removed. *)
Theorem stop_instance_needs_pid_file :
  forall (c : Constants) (env : Env) (app_name : string) (port : Z)
         (w : World),
    is_app_name_valid app_name = true ->
    let pid_location :=
      Py.path_join (PID_DIR c) [instance_watch app_name port +:+ ".pid"] in
    (files w !! pid_location = None ->
     stop_app_instance c env app_name port w =
     (Raise (HTTPError 500 (pid_location +:+ " does not exist")), w)) /\
    (forall text,
       files w !! pid_location = Some text ->
       Py.int (Py.strip text) = None ->
       stop_app_instance c env app_name port w = (Raise ValueError, w)).
Proof.
  intros c env app_name port w Hvalid pid_location.
  unfold stop_app_instance. rewrite Hvalid. cbn [negb].
  fold pid_location. split.
  - intros Hfile. unfold bind at 1. unfold try_except at 1.
    unfold bind at 1. unfold read_file. now rewrite Hfile.
  - intros text Hfile Hint. unfold bind at 1. unfold try_except at 1.
    unfold bind at 1. unfold read_file. now rewrite Hfile, Hint.
Qed.

Lemma stop_instance_needs_pid_file_witness :
  stop_app_instance constants (node [] [] [] []) "guestbook" 8081 world =
  (Raise (HTTPError 500
            "/var/run/appscale/app___guestbook-8081.pid does not exist"),
   world).
Proof.
  refine (proj1 (stop_instance_needs_pid_file constants (node [] [] [] [])
                   "guestbook" 8081 world _) _); reflexivity.
Defined.

(** X9: When Monit answers the request to unmonitor with an error that is
    neither 404 nor a 503 that a retry overcomes, the stop ends with that
    error right after the requests to Monit: the Monit configuration file
    is not removed, Monit is not reloaded and the old sources are not
    cleaned. *)
Theorem stop_instance_monit_error :
  forall (c : Constants) (env : Env) (app_name : string) (port : Z)
         (w : World) (text : string) (pid : Z) (code : Z) (message : string),
    is_app_name_valid app_name = true ->
    files w !! Py.path_join (PID_DIR c)
                 [instance_watch app_name port +:+ ".pid"] = Some text ->
    Py.int (Py.strip text) = Some pid ->
    fst (unmonitor c env (instance_watch app_name port) 5 w) =
      Raise (HTTPError code message) ->
    stop_app_instance c env app_name port w =
      (Raise (HTTPError code message),
       snd (unmonitor c env (instance_watch app_name port) 5 w)) /\
    files (snd (stop_app_instance c env app_name port w)) = files w.
Proof.
  intros c env app_name port w text pid code message Hvalid Hfile Hpid Hmonit.
  rewrite (stop_app_instance_steps c env app_name port w text pid
             Hvalid Hfile Hpid).
  destruct (unmonitor_keeps_files c env (instance_watch app_name port) w)
    as [_ Hfiles].
  destruct (unmonitor c env (instance_watch app_name port) 5 w) as [r w1].
  cbn [fst snd] in *. subst r. split; [reflexivity|exact Hfiles].
Qed.

Lemma stop_instance_monit_error_witness :
  fst (stop_app_instance constants monit_refuses "guestbook" 8080 world) =
    Raise (HTTPError 500 "Monit") /\
  files (snd (stop_app_instance constants monit_refuses "guestbook" 8080
                world)) = files world.
Proof.
  destruct (stop_instance_monit_error constants monit_refuses "guestbook"
              8080 world "4711
" 4711 500 "Monit" eq_refl eq_refl eq_refl eq_refl) as [Hrun Hfiles].
  split; [now rewrite Hrun|exact Hfiles].
Defined.

(** ** A start followed by a stop *)

(** X10: [start_app] takes the PID file from a template with a fixed directory
    and [stop_app_instance] looks under [PID_DIR]: the two name the same
    file when [PID_DIR] is [/var/run/appscale]. *)
Theorem pidfile_location_agrees :
  forall (c : Constants) (project_id : string) (port : Z),
    PID_DIR c = "/var/run/appscale" ->
    Py.path_join (PID_DIR c) [instance_watch project_id port +:+ ".pid"] =
    PIDFILE project_id port.
Proof.
  intros c project_id port ->. unfold instance_watch, PIDFILE.
  unfold MONIT_INSTANCE_PREFIX.
  rewrite !string_app_assoc. reflexivity.
Qed.

Lemma pidfile_location_agrees_witness :
  Py.path_join (PID_DIR constants) [instance_watch "guestbook" 8080 +:+ ".pid"]
  = PIDFILE "guestbook" 8080.
Proof. exact (pidfile_location_agrees constants "guestbook" 8080 eq_refl). Defined.

(** The steps of a stop that nothing hinders. *)
Lemma stop_instance_success_steps (c : Constants) (env : Env)
  (app_name : string) (port : Z) (w : World) (text : string) (pid : Z) :
  is_app_name_valid app_name = true ->
  files w !! Py.path_join (PID_DIR c) [instance_watch app_name port +:+ ".pid"]
    = Some text ->
  Py.int (Py.strip text) = Some pid ->
  monit_fetch env (fetches w) = FetchOk ->
  is_Some (files w !! monit_config_file c (instance_watch app_name port)) ->
  remove_fails env (monit_config_file c (instance_watch app_name port)) =
    false ->
  stop_app_instance c env app_name port w =
  (Return tt,
   {| files := delete (monit_config_file c (instance_watch app_name port))
                 (files w);
      trace := trace w ++
               [MonitUnmonitor (MONIT_LOCATION c +:+ "/" +:+
                                instance_watch app_name port);
                MonitReload; MonitGetEntries;
                CleanOldRevisions
                  (active_revisions c env (monit_entries env));
                ThreadKillInstance (instance_watch app_name port) pid];
      fetches := S (fetches w); opens := opens w; routings := routings w |}).
Proof.
  intros Hvalid Hfile Hpid Hok [contents Hcfg] Hremove.
  rewrite (stop_app_instance_steps c env app_name port w text pid
             Hvalid Hfile Hpid).
  unfold unmonitor. rewrite unmonitor_rec_ok by exact Hok.
  unfold after_instance_cleanup, after_posts. cbn [files].
  rewrite Hcfg, Hremove. unfold with_event, without_file.
  cbn [files trace fetches opens routings replicate].
  f_equal. f_equal.
  - now rewrite <- !app_assoc.
  - lia.
Qed.

(** X11: A stop that nothing hinders does its work in this order: Monit is asked
    to stop watching the process, the Monit configuration file is removed,
    Monit is reloaded, the old sources are cleaned, and only then is the
    thread started that ends the process whose number the PID file held.
    No other file changes. *)
Theorem stop_instance_success :
  forall (c : Constants) (env : Env) (app_name : string) (port : Z)
         (w : World) (text : string) (pid : Z),
    is_app_name_valid app_name = true ->
    files w !! Py.path_join (PID_DIR c)
                 [instance_watch app_name port +:+ ".pid"] = Some text ->
    Py.int (Py.strip text) = Some pid ->
    monit_fetch env (fetches w) = FetchOk ->
    is_Some (files w !! monit_config_file c (instance_watch app_name port)) ->
    remove_fails env (monit_config_file c (instance_watch app_name port)) =
      false ->
    let run := stop_app_instance c env app_name port w in
    fst run = Return tt /\
    files (snd run) =
      delete (monit_config_file c (instance_watch app_name port)) (files w) /\
    trace (snd run) =
      trace w ++
      [MonitUnmonitor (MONIT_LOCATION c +:+ "/" +:+
                       instance_watch app_name port);
       MonitReload; MonitGetEntries;
       CleanOldRevisions (active_revisions c env (monit_entries env));
       ThreadKillInstance (instance_watch app_name port) pid].
Proof.
  intros c env app_name port w text pid Hvalid Hfile Hpid Hok Hcfg Hremove run.
  subst run.
  rewrite (stop_instance_success_steps c env app_name port w text pid
             Hvalid Hfile Hpid Hok Hcfg Hremove).
  repeat split.
Qed.

Lemma stop_instance_success_witness :
  fst (stop_app_instance constants (node [] [] [] []) "guestbook" 8080 world)
    = Return tt /\
  files (snd (stop_app_instance constants (node [] [] [] []) "guestbook" 8080
                world)) =
    delete "/etc/monit/conf.d/appscale-app___guestbook-8080.cfg" disk.
Proof.
  destruct (stop_instance_success constants (node [] [] [] []) "guestbook"
              8080 world "4711
" 4711 eq_refl eq_refl eq_refl eq_refl
              (mk_is_Some _ _ eq_refl) eq_refl) as (Hres & Hfiles & _).
  split; [exact Hres|exact Hfiles].
Defined.

(** X12: What a start sets up, a stop of the same instance takes down, on a
    node whose [PID_DIR] is [/var/run/appscale], the directory of the PID
    file template.  After a start of a Python, Go or PHP application that
    nothing hinders (the source is there, the Monit and the logrotate
    configuration can be written, Monit starts the instance), and once the
    application server has written an integer into its PID file, take a stop
    of the instance to which Monit answers the first request to unmonitor
    with success and for which the removal of the Monit configuration file
    is not refused: it returns, the Monit configuration file that the start
    wrote is gone, and the process named in the PID file is the one that the
    kill thread is started for. *)
Theorem start_then_stop_instance :
  forall (c : Constants) (o : Options) (env : Env) (project_id : string)
         (config : StartConfig) (w : World) (port : Z)
         (service version : string) (vars : gmap string pyval)
         (details : VersionDetails) (params : gmap string Z)
         (text : string) (pid : Z),
    app_port config = Some port ->
    service_id config = Some service ->
    version_id config = Some version ->
    env_vars config = Some vars ->
    is_app_name_valid project_id = true ->
    lookup_version env project_id service version = Some details ->
    runtime_params env = Some params ->
    python_family (runtime details) = true ->
    ensure_source env (revision_key_of c project_id service version details)
      (sourceUrl details) (runtime details) = None ->
    write_fails env (monit_config_file c (instance_watch project_id port)) =
      false ->
    monit_start env (instance_watch project_id port) = true ->
    write_fails env (logrotate_script c project_id) = false ->
    PID_DIR c = "/var/run/appscale" ->
    Py.int (Py.strip text) = Some pid ->
    monit_fetch env (fetches w) = FetchOk ->
    remove_fails env (monit_config_file c (instance_watch project_id port)) =
      false ->
    let cfg := monit_config_file c (instance_watch project_id port) in
    let started := snd (start_app c o env project_id config w) in
    let running := with_file started (PIDFILE project_id port) text in
    let stopped := stop_app_instance c env project_id port running in
    is_Some (files started !! cfg) /\
    fst stopped = Return tt /\
    files (snd stopped) !! cfg = None /\
    trace (snd stopped) =
      trace started ++
      [MonitUnmonitor (MONIT_LOCATION c +:+ "/" +:+
                       instance_watch project_id port);
       MonitReload; MonitGetEntries;
       CleanOldRevisions (active_revisions c env (monit_entries env));
       ThreadKillInstance (instance_watch project_id port) pid].
Proof.
  intros c o env project_id config w port service version vars details
    params text pid Hport Hservice Hversion Hvars Hvalid Hlookup Hparams
    Hfamily Hsource Hwrite Hstart Hrotate Hdir Hpid Hok Hremove
    cfg started running stopped.
  pose proof (logrotate_script_not_config c project_id port Hvalid) as Hne.
  fold cfg in Hne, Hwrite, Hremove.
  assert (Hstarted :
            files started =
              <[logrotate_script c project_id :=
                  logrotate_contents (MONIT_INSTANCE_PREFIX +:+ project_id)
                    (log_size_of c project_id)]>
                (<[cfg := create_python27_start_cmd c o project_id
                            (login_ip o) port (PIDFILE project_id port)
                            (revision_key_of c project_id service version
                               details)]> (files w)) /\
            fetches started = fetches w).
  { subst started.
    rewrite (start_app_python_steps c o env project_id config w port service
               version vars details params Hport Hservice Hversion Hvars
               Hvalid Hlookup Hparams Hfamily Hsource).
    change ((MONIT_INSTANCE_PREFIX +:+ project_id) +:+ "-" +:+ Py.str port)
      with (instance_watch project_id port).
    fold cfg. rewrite Hwrite, Hstart, Hrotate. cbn [negb snd].
    split; reflexivity. }
  destruct Hstarted as [Hfiles Hfetches].
  assert (Hcfg : is_Some (files started !! cfg)).
  { rewrite Hfiles. rewrite lookup_insert_ne by exact Hne.
    rewrite lookup_insert_eq. now eexists. }
  split; [exact Hcfg|].
  assert (Hlocation :
            Py.path_join (PID_DIR c)
              [instance_watch project_id port +:+ ".pid"] =
            PIDFILE project_id port).
  { rewrite Hdir. unfold instance_watch, PIDFILE, MONIT_INSTANCE_PREFIX.
    rewrite !string_app_assoc. reflexivity. }
  assert (Hsteps := stop_instance_success_steps c env project_id port running
                      text pid Hvalid).
  rewrite Hlocation in Hsteps.
  fold cfg in Hsteps. subst stopped.
  rewrite Hsteps.
  - cbn [fst snd files trace]. split; [reflexivity|].
    split; [apply lookup_delete_eq|reflexivity].
  - subst running. cbn [with_file files]. apply lookup_insert_eq.
  - exact Hpid.
  - subst running. cbn [with_file fetches]. now rewrite Hfetches.
  - subst running. cbn [with_file files].
    apply lookup_insert_is_Some'. now right.
  - exact Hremove.
Qed.

Lemma start_then_stop_instance_witness :
  fst (stop_app_instance constants (node [] [] [] []) "guestbook" 8080
         (with_file
            (snd (start_app constants options (node [] [] [] []) "guestbook"
                    start_guestbook world))
            (PIDFILE "guestbook" 8080) "4711")) = Return tt.
Proof.
  exact (proj1 (proj2
           (start_then_stop_instance constants options (node [] [] [] [])
              "guestbook" start_guestbook world 8080 "default" "v1" ∅
              guestbook ∅ "4711" 4711
              eq_refl eq_refl eq_refl eq_refl eq_refl eq_refl eq_refl eq_refl
              eq_refl eq_refl eq_refl eq_refl eq_refl eq_refl eq_refl
              eq_refl))).
Defined.

(** ** The first answer of Monit that is not 503 *)

Lemma unmonitor_rec_error (c : Constants) (env : Env) (process_name : string)
  (fuel : nat) (retries : Z) (w : World) (code : Z) :
  monit_fetch env (fetches w) = FetchHTTPError code ->
  code <> 503 ->
  unmonitor_rec c env (S fuel) process_name retries w =
  (Raise (if code =? 404
          then ProcessNotFound (process_name +:+ " not listed by Monit")
          else HTTPError code "Monit"),
   after_posts w (MONIT_LOCATION c +:+ "/" +:+ process_name) 1).
Proof.
  intros Hreply Hcode. simpl. unfold try_except, monit_post. rewrite Hreply.
  apply Z.eqb_neq in Hcode.
  destruct (code =? 404); [|rewrite Hcode];
    unfold raise, after_posts; simpl; now rewrite Nat.add_1_r.
Qed.

(** X13: Among the first six answers of Monit, the first that is not 503 ends
    [unmonitor] without a further request: a 404 becomes [ProcessNotFound],
    any other error is raised as it came. *)
Theorem unmonitor_first_error_decides :
  forall (c : Constants) (env : Env) (process_name : string) (w : World)
         (k : nat) (code : Z),
    (k <= 5)%nat ->
    (forall i, (i < k)%nat ->
       monit_fetch env (fetches w + i) = FetchHTTPError 503) ->
    monit_fetch env (fetches w + k) = FetchHTTPError code ->
    code <> 503 ->
    unmonitor c env process_name 5 w =
    (Raise (if code =? 404
            then ProcessNotFound (process_name +:+ " not listed by Monit")
            else HTTPError code "Monit"),
     after_posts w (MONIT_LOCATION c +:+ "/" +:+ process_name) (S k)).
Proof.
  intros c env process_name w k code Hk Hbusy Hreply Hcode.
  unfold unmonitor. change (S (Z.to_nat 5)) with 6%nat.
  replace 6%nat with (k + S (5 - k))%nat by lia.
  rewrite unmonitor_rec_busy by (assumption || lia).
  rewrite (unmonitor_rec_error c env process_name _ _ _ code)
    by assumption.
  rewrite after_posts_plus. do 2 f_equal. lia.
Qed.

Lemma unmonitor_first_error_decides_witness :
  unmonitor constants monit_refuses "app___guestbook-8080" 5 world =
  (Raise (HTTPError 500 "Monit"),
   after_posts world "http://localhost:2812/app___guestbook-8080" 1).
Proof.
  refine (unmonitor_first_error_decides constants monit_refuses
            "app___guestbook-8080" world 0 500 _ _ eq_refl _).
  - lia.
  - intros i Hi. lia.
  - discriminate.
Defined.

(** ** How long [wait_on_app] waits *)

Lemma after_probes_0 w url : after_probes w url 0 = w.
Proof.
  destruct w. unfold after_probes. simpl.
  now rewrite app_nil_r, Nat.add_0_r.
Qed.

Lemma wait_loop_io_errors (env : Env) (url : string) (k : nat) :
  forall fuel retries w,
    (forall i, (i < k)%nat ->
       url_open env (opens w + i) = OpenRaises IOError) ->
    Z.of_nat k <= retries ->
    wait_loop env (k + fuel) url retries w =
    wait_loop env fuel url (retries - Z.of_nat k) (after_probes w url k).
Proof.
  induction k as [|k IH]; intros fuel retries w Hfail Hretries.
  - rewrite after_probes_0. simpl. f_equal. lia.
  - change (S k + fuel)%nat with (S (k + fuel)).
    rewrite wait_loop_io_error.
    + rewrite IH.
      * f_equal; [lia|].
        unfold after_probes. simpl. f_equal.
        -- now rewrite <- !app_assoc.
        -- lia.
      * intros i Hi. simpl.
        replace (S (opens w + i)) with (opens w + S i)%nat by lia.
        apply Hfail. lia.
      * lia.
    + rewrite <- (Nat.add_0_r (opens w)). apply Hfail. lia.
    + lia.
Qed.

(** X14: [wait_on_app] probes at most 180 times and pauses for one second after
    every probe that ends in an [IOError]: an application that answers the
    probe number [k] (counted from 0) has been waited for during [k] pauses,
    and one that never answers during 180, after which the failure is
    logged as an error. *)
Theorem wait_on_app_pauses :
  forall (o : Options) (env : Env) (port : Z) (w : World),
    let url := probe_url o port in
    (forall k code headers,
       (k < 180)%nat ->
       (forall i, (i < k)%nat ->
          url_open env (opens w + i) = OpenRaises IOError) ->
       url_open env (opens w + k) = Responded code headers ->
       fst (wait_on_app o env port w) = Return true /\
       opens (snd (wait_on_app o env port w)) = S (opens w + k) /\
       trace (snd (wait_on_app o env port w)) =
         trace w ++ concat (replicate k [OpenUrl url; Sleep 1]) ++
         OpenUrl url ::
         (if code =? 200 then []
          else [LogWarning (url +:+ " returned " +:+ Py.str code +:+
                            ". Headers: " +:+ headers)])) /\
    ((forall i, (i < 180)%nat ->
        url_open env (opens w + i) = OpenRaises IOError) ->
     wait_on_app o env port w =
     (Return false,
      with_event (after_probes w url 180)
        (LogError ("Application did not come up on " +:+ url +:+
                   " after 180 seconds")))).
Proof.
  intros o env port w url. unfold wait_on_app. fold (probe_url o port).
  fold url. change (Z.to_nat wait_retries) with 180%nat.
  change wait_retries with 180.
  split.
  - intros k code headers Hk Hfail Hreply.
    replace 180%nat with (k + S (179 - k))%nat by lia.
    rewrite wait_loop_io_errors by (assumption || lia).
    simpl. destruct (Z.gtb_spec (180 - Z.of_nat k) 0); [|lia].
    unfold bind, try_except, open_url. cbn [after_probes opens].
    rewrite Hreply. cbn [fst snd]. unfold HTTP_OK.
    destruct (code =? 200); cbn;
      (split; [reflexivity|]); (split; [reflexivity|]);
      now rewrite <- !app_assoc.
  - intros Hfail.
    change 180%nat with (180 + 0)%nat at 1.
    rewrite wait_loop_io_errors by (assumption || lia).
    reflexivity.
Qed.

Lemma wait_on_app_pauses_witness :
  fst (wait_on_app options slow_start 8080 world) = Return true /\
  opens (snd (wait_on_app options slow_start 8080 world)) = 2%nat.
Proof.
  destruct (proj1 (wait_on_app_pauses options slow_start 8080 world)
              1%nat 404 "[]") as (Hres & Hopens & _).
  - lia.
  - intros i Hi. destruct i; [reflexivity|lia].
  - reflexivity.
  - split; [exact Hres|exact Hopens].
Defined.

(** ** Stopping every instance of a project *)

Section RemoveFiles.

Context (env : Env) (prefix : string).

Let remove_or_log (path : string) : M unit :=
  try_except (os_remove env path)
    (fun e => match e with
              | OSError => Some (emit (LogError (prefix +:+ path)))
              | _ => None
              end).

(** One removal that may fail. *)
Lemma remove_or_log_step (path : string) (w : World) :
  exists w',
    remove_or_log path w = (Return tt, w') /\
    (forall p,
       files w' !! p =
       if bool_decide (p = path) && negb (remove_fails env path)
       then None else files w !! p) /\
    (exists logs,
       forallb is_log_error logs = true /\ trace w' = trace w ++ logs).
Proof.
  unfold remove_or_log, try_except, os_remove, bind, get_world.
  destruct (files w !! path) as [contents|] eqn:Hfile; cbn.
  - destruct (remove_fails env path) eqn:Hfails; cbn.
    + eexists. split; [reflexivity|]. split.
      * intros p. cbn. now rewrite andb_false_r.
      * exists [LogError (prefix +:+ path)]. now split.
    + eexists. split; [reflexivity|]. split.
      * intros p. cbn. rewrite andb_true_r.
        destruct (bool_decide_reflect (p = path)) as [->|Hne].
        -- apply lookup_delete_eq.
        -- now apply lookup_delete_ne.
      * exists []. split; [reflexivity|]. cbn. now rewrite app_nil_r.
  - eexists. split; [reflexivity|]. split.
    + intros p. cbn.
      destruct (bool_decide_reflect (p = path)) as [->|Hne]; cbn;
        [|reflexivity].
      now destruct (remove_fails env path).
    + exists [LogError (prefix +:+ path)]. now split.
Qed.

(** The loop over the files to remove. *)
Lemma remove_each (l : list string) : forall w,
  exists w',
    for_each l remove_or_log w = (Return tt, w') /\
    (forall p,
       files w' !! p =
       if bool_decide (p ∈ l) && negb (remove_fails env p)
       then None else files w !! p) /\
    (exists logs,
       forallb is_log_error logs = true /\ trace w' = trace w ++ logs).
Proof.
  induction l as [|x l IH]; intros w.
  - exists w. split; [reflexivity|]. split.
    + intros p. rewrite bool_decide_eq_false_2 by apply not_elem_of_nil.
      reflexivity.
    + exists []. split; [reflexivity|]. now rewrite app_nil_r.
  - simpl. unfold bind.
    destruct (remove_or_log_step x w) as (w1 & -> & Hfiles1 & logs1 & Hl1 & Ht1).
    destruct (IH w1) as (w' & -> & Hfiles & logs & Hl & Ht).
    exists w'. split; [reflexivity|]. split.
    + intros p. rewrite Hfiles, Hfiles1.
      destruct (bool_decide_reflect (p = x)) as [->|Hne].
      * rewrite (bool_decide_eq_true_2 (x ∈ x :: l))
          by apply list_elem_of_here.
        cbn [andb]. destruct (remove_fails env x); cbn.
        -- now rewrite !andb_false_r.
        -- now rewrite !andb_true_r; destruct (bool_decide (x ∈ l)).
      * cbn [andb].
        destruct (bool_decide_reflect (p ∈ l)) as [Hin|Hnin].
        -- rewrite (bool_decide_eq_true_2 (p ∈ x :: l))
             by (now apply list_elem_of_further).
           reflexivity.
        -- rewrite (bool_decide_eq_false_2 (p ∈ x :: l)); [reflexivity|].
           rewrite not_elem_of_cons. now split.
    + exists (logs1 ++ logs). split.
      * now rewrite forallb_app, Hl1, Hl.
      * now rewrite Ht, Ht1, <- app_assoc.
Qed.

End RemoveFiles.

Lemma remove_logrotate_step (c : Constants) (env : Env) (app_name : string)
  (w : World) :
  exists removed w',
    remove_logrotate c env app_name w = (Return removed, w') /\
    (forall p,
       files w' !! p =
       if bool_decide (p = logrotate_script c app_name) &&
          negb (remove_fails env (logrotate_script c app_name))
       then None else files w !! p) /\
    (exists logs,
       forallb is_log_error logs = true /\ trace w' = trace w ++ logs).
Proof.
  unfold remove_logrotate, os_remove, try_except, bind, get_world.
  set (script := logrotate_script c app_name).
  destruct (files w !! script) as [contents|] eqn:Hfile; cbn.
  - destruct (remove_fails env script) eqn:Hfails; cbn.
    + eexists _, _. split; [reflexivity|]. split.
      * intros p. cbn. now rewrite andb_false_r.
      * exists [LogError ("Error deleting " +:+ script)]. now split.
    + eexists _, _. split; [reflexivity|]. split.
      * intros p. cbn. rewrite andb_true_r.
        destruct (bool_decide_reflect (p = script)) as [->|Hne].
        -- apply lookup_delete_eq.
        -- now apply lookup_delete_ne.
      * exists []. split; [reflexivity|]. cbn. now rewrite app_nil_r.
  - eexists _, _. split; [reflexivity|]. split.
    + intros p. cbn.
      destruct (bool_decide_reflect (p = script)) as [->|Hne]; cbn;
        [|reflexivity].
      now destruct (remove_fails env script).
    + exists [LogError ("Error deleting " +:+ script)]. now split.
Qed.

Lemma elem_of_glob (pre suf p : string) (m : gmap string string) :
  p ∈ List.filter (glob_match pre suf) (map fst (map_to_list m)) <->
  glob_match pre suf p = true /\ is_Some (m !! p).
Proof.
  rewrite list_elem_of_In, filter_In, in_map_iff. split.
  - intros [([p' contents] & <- & Hin) Hmatch]. split; [exact Hmatch|].
    apply list_elem_of_In in Hin. apply elem_of_map_to_list in Hin.
    cbn [fst]. exists contents. exact Hin.
  - intros [Hmatch [contents Hp]]. split; [|exact Hmatch].
    exists (p, contents). split; [reflexivity|].
    apply list_elem_of_In. now apply elem_of_map_to_list.
Qed.

(** X15: When Monit cannot stop the group of a project, [stop_app] ends with an
    [HTTPError] of code 500 and has removed nothing. *)
Theorem stop_app_monit_failure :
  forall (c : Constants) (env : Env) (app_name : string) (w : World),
    is_app_name_valid app_name = true ->
    monit_stop env (MONIT_INSTANCE_PREFIX +:+ app_name) = false ->
    stop_app c env app_name w =
    (Raise (HTTPError 500 ("Unable to stop " +:+ MONIT_INSTANCE_PREFIX +:+
                           app_name)),
     with_event w (MonitStop (MONIT_INSTANCE_PREFIX +:+ app_name))).
Proof.
  intros c env app_name w Hvalid Hstop. unfold stop_app.
  rewrite Hvalid. cbn [negb]. unfold bind at 1. unfold emit at 1.
  now rewrite Hstop.
Qed.

Lemma stop_app_monit_failure_witness :
  stop_app constants monit_refuses "guestbook" world =
  (Raise (HTTPError 500 "Unable to stop app___guestbook"),
   with_event world (MonitStop "app___guestbook")).
Proof.
  exact (stop_app_monit_failure constants monit_refuses "guestbook" world
           eq_refl eq_refl).
Defined.

(** The steps of a stop of a project once Monit has stopped the group. *)
Lemma stop_app_steps (c : Constants) (env : Env) (app_name : string)
  (w : World) :
  is_app_name_valid app_name = true ->
  monit_stop env (MONIT_INSTANCE_PREFIX +:+ app_name) = true ->
  let pattern :=
    glob_match (MONIT_CONFIG_DIR c +:+ "/appscale-" +:+
                (MONIT_INSTANCE_PREFIX +:+ app_name) +:+ "-") ".cfg" in
  exists final logs,
    stop_app c env app_name w = (Return tt, final) /\
    (forall p,
       files final !! p =
       if bool_decide (p = logrotate_script c app_name) &&
          negb (remove_fails env (logrotate_script c app_name))
       then None
       else if bool_decide
                 (p ∈ List.filter pattern (map fst (map_to_list (files w)))) &&
               negb (remove_fails env p)
       then None else files w !! p) /\
    forallb is_log_error logs = true /\
    trace final =
      trace w ++
      MonitStop (MONIT_INSTANCE_PREFIX +:+ app_name) :: logs ++
      [MonitGetEntries;
       CleanOldRevisions (active_revisions c env (monit_entries env))].
Proof.
  intros Hvalid Hstop pattern.
  unfold stop_app. rewrite Hvalid. cbn [negb].
  unfold bind at 1. unfold emit at 1. rewrite Hstop. cbn [negb].
  unfold bind at 1. unfold glob at 1. unfold bind at 1.
  cbn [get_world ret]. cbn [files]. fold pattern.
  unfold bind at 1.
  match goal with
  | |- context [for_each ?l ?body ?w0] =>
      destruct (remove_each env "Error removing " l w0)
        as (w1 & Hloop & Hfiles1 & logs1 & Hlogs1 & Htrace1)
  end.
  rewrite Hloop. clear Hloop.
  unfold bind at 1.
  destruct (remove_logrotate_step c env app_name w1)
    as (removed & w2 & -> & Hfiles2 & logs2 & Hlogs2 & Htrace2).
  cbn [files trace] in Hfiles1, Htrace1.
  destruct removed; cbn.
  - eexists _, (logs1 ++ logs2). split; [reflexivity|]. cbn.
    split; [intros p; now rewrite Hfiles2, Hfiles1|].
    split; [now rewrite forallb_app, Hlogs1, Hlogs2|].
    rewrite Htrace2, Htrace1. now rewrite <- !app_assoc.
  - eexists _, (logs1 ++ logs2 ++
                [LogError
                   ("Error while setting up log rotation for application: "
                    +:+ app_name)]).
    split; [reflexivity|]. cbn.
    split; [intros p; now rewrite Hfiles2, Hfiles1|].
    split; [now rewrite !forallb_app, Hlogs1, Hlogs2|].
    rewrite Htrace2, Htrace1. now rewrite <- !app_assoc.
Qed.

(** X16: Once Monit has stopped the group of a project, [stop_app] returns.
    Every file that matches [appscale-app___<project>-*.cfg] in the Monit
    directory is gone unless its removal is refused, and so is the logrotate
    configuration of the project; every other file is as it was.  Between
    the request to Monit and the cleaning of the old sources, with which the
    stop ends, nothing happens but the logging of errors: Monit is not
    reloaded. *)
Theorem stop_app_removes_configs :
  forall (c : Constants) (env : Env) (app_name : string) (w : World),
    is_app_name_valid app_name = true ->
    monit_stop env (MONIT_INSTANCE_PREFIX +:+ app_name) = true ->
    let run := stop_app c env app_name w in
    let pattern :=
      glob_match (MONIT_CONFIG_DIR c +:+ "/appscale-" +:+
                  (MONIT_INSTANCE_PREFIX +:+ app_name) +:+ "-") ".cfg" in
    fst run = Return tt /\
    (forall p,
       pattern p = true \/ p = logrotate_script c app_name ->
       remove_fails env p = false ->
       files (snd run) !! p = None) /\
    (forall p,
       pattern p = false -> p <> logrotate_script c app_name ->
       files (snd run) !! p = files w !! p) /\
    (exists logs,
       forallb is_log_error logs = true /\
       trace (snd run) =
         trace w ++ MonitStop (MONIT_INSTANCE_PREFIX +:+ app_name) :: logs ++
         [MonitGetEntries;
          CleanOldRevisions (active_revisions c env (monit_entries env))]).
Proof.
  intros c env app_name w Hvalid Hstop run pattern.
  destruct (stop_app_steps c env app_name w Hvalid Hstop)
    as (final & logs & Hrun & Hfiles & Hlogs & Htrace).
  fold pattern in Hfiles.
  subst run. rewrite Hrun. cbn [fst snd].
  split; [reflexivity|]. split; [|split].
  - intros p Hp Hremovable. rewrite Hfiles.
    destruct (bool_decide_reflect (p = logrotate_script c app_name))
      as [->|Hne]; cbn [andb].
    { now rewrite Hremovable. }
    destruct Hp as [Hp|Hp]; [|contradiction].
    rewrite Hremovable, andb_true_r.
    destruct (bool_decide_reflect
                (p ∈ List.filter pattern (map fst (map_to_list (files w)))))
      as [Hin|Hnin]; [reflexivity|].
    destruct (files w !! p) as [contents|] eqn:Hfile; [|reflexivity].
    exfalso. apply Hnin. apply elem_of_glob.
    split; [exact Hp|exists contents; exact Hfile].
  - intros p Hp Hne. rewrite Hfiles.
    rewrite (bool_decide_eq_false_2 _ Hne). cbn [andb].
    rewrite bool_decide_eq_false_2; [reflexivity|].
    intros Hin. apply elem_of_glob in Hin as [Hmatch _].
    unfold pattern in Hp. congruence.
  - exists logs. split; [exact Hlogs|exact Htrace].
Qed.

Lemma stop_app_removes_configs_witness :
  fst (stop_app constants (node [] [] [] []) "guestbook" world) = Return tt /\
  files (snd (stop_app constants (node [] [] [] []) "guestbook" world))
    !! "/etc/logrotate.d/appscale-guestbook" = None.
Proof.
  destruct (stop_app_removes_configs constants (node [] [] [] []) "guestbook"
              world eq_refl eq_refl) as (Hres & Hgone & _).
  split; [exact Hres|].
  apply Hgone; [now right|reflexivity].
Defined.

(** ** Decimal numbers and the characters of names *)

Lemma pretty_N_char_digit (y : N) :
  is_Some (Ascii.is_nat (pretty_N_char y)).
Proof. unfold pretty_N_char. repeat case_match; now eexists. Qed.

Lemma pretty_N_go_all_digits (x : N) : forall s,
  all_digits s = true -> all_digits (pretty_N_go x s) = true.
Proof.
  induction (N.lt_wf_0 x) as [x _ IH]; intros s Hs.
  destruct (N.eq_dec x 0%N) as [->|Hx].
  - now rewrite pretty_N_go_0.
  - rewrite pretty_N_go_step by lia. apply IH.
    + apply N.div_lt; lia.
    + simpl. now destruct (pretty_N_char_digit (x `mod` 10)%N) as [d ->].
Qed.

Lemma pretty_N_go_length (x : N) : forall s,
  (String.length s <= String.length (pretty_N_go x s))%nat.
Proof.
  induction (N.lt_wf_0 x) as [x _ IH]; intros s.
  destruct (N.eq_dec x 0%N) as [->|Hx].
  - now rewrite pretty_N_go_0.
  - rewrite pretty_N_go_step by lia.
    etransitivity; [|apply IH; apply N.div_lt; lia]. simpl. lia.
Qed.

(** The decimal text of an integer that is not negative has digits only. *)
Lemma str_all_digits (n : Z) : 0 <= n -> all_digits (Py.str n) = true.
Proof.
  intros Hn. destruct n as [|p|p]; [reflexivity| |lia].
  unfold Py.str, pretty, pretty_Z, pretty, pretty_positive, pretty, pretty_N.
  destruct (decide (N.pos p = 0%N)); [discriminate|].
  now apply pretty_N_go_all_digits.
Qed.

(** The decimal text of an integer is never empty. *)
Lemma str_not_empty (n : Z) : (0 < String.length (Py.str n))%nat.
Proof.
  assert (Hpos : forall p, (0 < String.length (pretty (N.pos p)))%nat).
  { intros p. unfold pretty, pretty_N.
    destruct (decide (N.pos p = 0%N)); [discriminate|].
    rewrite pretty_N_go_step by lia.
    eapply Nat.lt_le_trans; [|apply pretty_N_go_length]. simpl. lia. }
  destruct n as [|p|p]; [simpl; lia|apply Hpos|].
  unfold Py.str, pretty, pretty_Z. fold (pretty (N.pos p)).
  change (0 < S (String.length (pretty (N.pos p))))%nat. lia.
Qed.

Lemma all_digits_without (ch : ascii) (s : string) :
  Ascii.is_nat ch = None -> all_digits s = true -> contains_char ch s = false.
Proof.
  intros Hch. induction s as [|a s IH]; [reflexivity|]. simpl.
  destruct (Ascii.is_nat a) eqn:Ha; [|discriminate].
  intros Hs. rewrite (IH Hs), orb_false_r.
  destruct (Ascii.eqb_spec a ch) as [->|]; [congruence|reflexivity].
Qed.

Lemma app_name_without (ch : ascii) (s : string) :
  is_app_name_char ch = false ->
  all_app_name_chars s = true -> contains_char ch s = false.
Proof.
  intros Hch. induction s as [|a s IH]; [reflexivity|]. simpl.
  intros H. apply andb_prop in H as [Ha Hs]. rewrite (IH Hs), orb_false_r.
  destruct (Ascii.eqb_spec a ch) as [->|]; [congruence|reflexivity].
Qed.

Lemma contains_char_append (ch : ascii) (s1 s2 : string) :
  contains_char ch (s1 +:+ s2) = contains_char ch s1 || contains_char ch s2.
Proof.
  induction s1 as [|a s1 IH]; [reflexivity|].
  change (contains_char ch (String a (s1 +:+ s2)) =
          contains_char ch (String a s1) || contains_char ch s2).
  simpl. now rewrite IH, orb_assoc.
Qed.

Lemma rev_app_app (s1 s2 acc : string) :
  String.rev_app (s1 +:+ s2) acc = String.rev_app s2 (String.rev_app s1 acc).
Proof.
  revert acc. induction s1 as [|a s1 IH]; intros acc; [reflexivity|].
  change (String.rev_app (s1 +:+ s2) (String a acc) =
          String.rev_app s2 (String.rev_app s1 (String a acc))).
  apply IH.
Qed.

Lemma rev_app_acc (s acc : string) :
  String.rev_app s acc = String.rev_app s "" +:+ acc.
Proof.
  revert acc. induction s as [|a s IH]; intros acc; [reflexivity|].
  simpl. rewrite (IH (String a acc)), (IH (String a "")).
  now rewrite string_app_assoc.
Qed.

(** [(a + b).endswith(b)] *)
Lemma endswith_app (a b : string) : Py.endswith (a +:+ b) b = true.
Proof.
  unfold Py.endswith, String.rev.
  rewrite rev_app_app, (rev_app_acc b (String.rev_app a "")).
  apply startswith_app. eexists. reflexivity.
Qed.

(** ** Entry names and project identifiers with dashes *)

Lemma instance_watch_split (project_id : string) (port : Z) :
  instance_watch project_id port =
  MONIT_INSTANCE_PREFIX +:+ (project_id +:+ "-" +:+ Py.str port).
Proof. reflexivity. Qed.

(** X17: From the name under which an instance is known to Monit,
    [clean_old_sources] gets back the project identifier, also when the
    identifier has dashes of its own, and keeps it in the active set; what
    it gets is never the revision key of a version of that project. *)
Theorem entry_gives_project_id :
  forall (c : Constants) (env : Env) (project_id : string) (port : Z),
    0 <= port ->
    Py.rsplit1_head "-"
      (Py.slice_from (String.length MONIT_INSTANCE_PREFIX)
         (instance_watch project_id port)) = project_id /\
    (instance_watch project_id port ∈ monit_entries env ->
     project_id ∈ active_revisions c env (monit_entries env)) /\
    (forall service version details,
       project_id <> revision_key_of c project_id service version details).
Proof.
  intros c env project_id port Hport.
  assert (Hdash : contains_char "-" (Py.str port) = false).
  { apply all_digits_without; [reflexivity|now apply str_all_digits]. }
  split; [|split].
  - rewrite instance_watch_split, slice_from_app. unfold Py.rsplit1_head.
    assert (Py.before_last "-" (project_id +:+ "-" +:+ Py.str port) =
            Some project_id) as ->; [|reflexivity].
    apply before_last_some. exists (Py.str port). now split.
  - intros Hin. unfold active_revisions. apply elem_of_union. left.
    apply elem_of_entry_revisions. exists (instance_watch project_id port).
    split; [exact Hin|].
    exists (project_id +:+ "-" +:+ Py.str port). split; [reflexivity|].
    left. exists (Py.str port). now split.
  - intros service version details Heq.
    apply (f_equal String.length) in Heq.
    unfold revision_key_of in Heq. cbn [Py.join] in Heq.
    rewrite !string_length_app in Heq.
    pose proof (str_not_empty (revision details)). lia.
Qed.

Lemma entry_gives_project_id_witness :
  Py.rsplit1_head "-"
    (Py.slice_from (String.length MONIT_INSTANCE_PREFIX)
       (instance_watch "my-shop" 8080)) = "my-shop".
Proof.
  refine (proj1 (entry_gives_project_id constants (node [] [] [] []) "my-shop"
                   8080 _)).
  lia.
Defined.

(** The pattern with which [stop_app] looks for the configuration files of a
    project also matches those of every project whose identifier is that of
    the project followed by a dash and more. *)
Lemma glob_matches_longer_names (c : Constants) (app_name suffix : string)
  (port : Z) :
  all_app_name_chars suffix = true ->
  0 <= port ->
  glob_match (MONIT_CONFIG_DIR c +:+ "/appscale-" +:+
              (MONIT_INSTANCE_PREFIX +:+ app_name) +:+ "-") ".cfg"
    (monit_config_file c (instance_watch (app_name +:+ "-" +:+ suffix) port))
  = true.
Proof.
  intros Hsuffix Hport.
  set (pre := MONIT_CONFIG_DIR c +:+ "/appscale-" +:+
              (MONIT_INSTANCE_PREFIX +:+ app_name) +:+ "-").
  assert (Hpath :
            monit_config_file c
              (instance_watch (app_name +:+ "-" +:+ suffix) port) =
            pre +:+ (suffix +:+ "-" +:+ Py.str port) +:+ ".cfg").
  { subst pre. unfold monit_config_file, instance_watch.
    now rewrite !string_app_assoc. }
  rewrite Hpath. unfold glob_match. rewrite slice_from_app.
  rewrite (proj2 (startswith_app _ _)) by (now eexists).
  rewrite endswith_app. cbn [andb].
  rewrite !contains_char_append.
  rewrite (app_name_without "/" suffix) by (reflexivity || assumption).
  rewrite (all_digits_without "/" (Py.str port))
    by (reflexivity || now apply str_all_digits).
  reflexivity.
Qed.

(** X18: A stop of a project takes with it the Monit configuration files of
    the instances of every project whose identifier is its own followed by
    a dash and more, while Monit is asked to stop the group of the one
    project only. *)
Theorem stop_app_removes_longer_names :
  forall (c : Constants) (env : Env) (app_name suffix : string) (port : Z)
         (w : World),
    is_app_name_valid app_name = true ->
    is_app_name_valid suffix = true ->
    0 <= port ->
    monit_stop env (MONIT_INSTANCE_PREFIX +:+ app_name) = true ->
    let other :=
      monit_config_file c
        (instance_watch (app_name +:+ "-" +:+ suffix) port) in
    remove_fails env other = false ->
    fst (stop_app c env app_name w) = Return tt /\
    files (snd (stop_app c env app_name w)) !! other = None /\
    forall watch,
      MonitStop watch ∈ trace (snd (stop_app c env app_name w)) ->
      MonitStop watch ∈ trace w \/ watch = MONIT_INSTANCE_PREFIX +:+ app_name.
Proof.
  intros c env app_name suffix port w Hvalid Hsuffix Hport Hstop other
    Hremovable.
  destruct (stop_app_steps c env app_name w Hvalid Hstop)
    as (final & logs & -> & Hfiles & Hlogs & Htrace).
  cbn [fst snd]. split; [reflexivity|]. split.
  - rewrite Hfiles.
    destruct (bool_decide (other = logrotate_script c app_name) &&
              negb (remove_fails env (logrotate_script c app_name)));
      [reflexivity|].
    rewrite Hremovable, andb_true_r.
    destruct (bool_decide_reflect
                (other ∈ List.filter
                   (glob_match
                      (MONIT_CONFIG_DIR c +:+ "/appscale-" +:+
                       (MONIT_INSTANCE_PREFIX +:+ app_name) +:+ "-") ".cfg")
                   (map fst (map_to_list (files w)))))
      as [Hin|Hnin]; [reflexivity|].
    destruct (files w !! other) as [contents|] eqn:Hfile; [|reflexivity].
    exfalso. apply Hnin. apply elem_of_glob. split.
    + apply glob_matches_longer_names; [|exact Hport].
      unfold is_app_name_valid in Hsuffix.
      now apply andb_prop in Hsuffix as [_ Hchars].
    + exists contents. exact Hfile.
  - intros watch. rewrite Htrace.
    rewrite elem_of_app, elem_of_cons, elem_of_app.
    intros [Hin|[Hin|[Hin|Hin]]].
    + now left.
    + right. now injection Hin.
    + exfalso. rewrite forallb_forall in Hlogs.
      apply list_elem_of_In in Hin. apply Hlogs in Hin. discriminate.
    + exfalso. rewrite !elem_of_cons in Hin.
      destruct Hin as [Hin|[Hin|Hin]]; try discriminate. inversion Hin.
Qed.

Lemma stop_app_removes_longer_names_witness :
  fst (stop_app constants (node [] [] [] []) "shop" shared_world) = Return tt /\
  files (snd (stop_app constants (node [] [] [] []) "shop" shared_world))
    !! "/etc/monit/conf.d/appscale-app___shop-admin-8081.cfg" = None.
Proof.
  destruct (stop_app_removes_longer_names constants (node [] [] [] [])
              "shop" "admin" 8081 shared_world eq_refl eq_refl
              ltac:(lia) eq_refl eq_refl) as (Hres & Hgone & _).
  split; [exact Hres|exact Hgone].
Defined.

(** ** The choice of [appengine-web.xml] *)

Lemma string_le_refl (x : string) : string_le x x.
Proof.
  unfold string_le. apply Is_true_true.
  exact (reflexivity (R := String.le) x).
Qed.

Lemma string_le_trans (x y z : string) :
  string_le x y -> string_le y z -> string_le x z.
Proof.
  unfold string_le. intros Hxy Hyz. apply Is_true_true.
  apply Is_true_true in Hxy, Hyz.
  exact (transitivity (R := String.le) Hxy Hyz).
Qed.

Lemma string_le_total (x y : string) : string_le x y \/ string_le y x.
Proof. apply String.leb_total. Qed.

Lemma elem_of_insert_sorted (x y : string) (l : list string) :
  y ∈ insert_sorted x l <-> y = x \/ y ∈ l.
Proof.
  induction l as [|z l IH]; simpl.
  - rewrite list_elem_of_singleton, elem_of_nil. tauto.
  - destruct (String.leb x z).
    + rewrite !elem_of_cons. tauto.
    + rewrite !elem_of_cons, IH. tauto.
Qed.

Lemma elem_of_sort_strings (y : string) (l : list string) :
  y ∈ sort_strings l <-> y ∈ l.
Proof.
  induction l as [|x l IH]; simpl; [reflexivity|].
  rewrite elem_of_insert_sorted, IH, elem_of_cons. tauto.
Qed.

Lemma insert_sorted_sorted (x : string) (l : list string) :
  StronglySorted string_le l -> StronglySorted string_le (insert_sorted x l).
Proof.
  induction 1 as [|z l Hl IH Hz]; simpl.
  - repeat constructor.
  - destruct (String.leb x z) eqn:Hxz.
    + constructor; [now constructor|].
      constructor; [exact Hxz|].
      eapply Forall_impl; [exact Hz|].
      intros y Hy. now apply (string_le_trans x z y).
    + constructor; [exact IH|].
      apply Forall_forall. intros y Hy.
      apply elem_of_insert_sorted in Hy as [->|Hy].
      * destruct (string_le_total x z) as [H|H]; [|exact H].
        unfold string_le in H. congruence.
      * rewrite Forall_forall in Hz. now apply Hz.
Qed.

Lemma sort_strings_sorted (l : list string) :
  StronglySorted string_le (sort_strings l).
Proof.
  induction l as [|x l IH]; simpl; [constructor|].
  now apply insert_sorted_sorted.
Qed.

(** What the loop that looks for a shorter match leaves. *)
Lemma fold_shorter (l : list string) : forall acc,
  let r := fold_left shorter_of l acc in
  (r = acc \/ r ∈ l) /\
  (String.length r <= String.length acc)%nat /\
  (forall m, m ∈ l -> (String.length r <= String.length m)%nat) /\
  (String.length r = String.length acc -> r = acc) /\
  ((forall m, m ∈ l -> string_le acc m) ->
   StronglySorted string_le l ->
   forall m, m ∈ l -> String.length m = String.length r -> string_le r m).
Proof.
  induction l as [|x l IH]; intros acc r.
  - subst r. simpl. repeat split; auto.
    intros m Hm. inversion Hm.
  - subst r. simpl.
    destruct (IH (shorter_of acc x)) as (Hin & Hlen & Hmin & Heq & Hord).
    set (r := fold_left shorter_of l (shorter_of acc x)) in *.
    assert (Hacc' : (shorter_of acc x = x /\
                     (String.length x < String.length acc)%nat) \/
                    (shorter_of acc x = acc /\
                     (String.length acc <= String.length x)%nat)).
    { unfold shorter_of.
      destruct (Nat.ltb_spec (String.length x) (String.length acc));
        [left|right]; split; auto. }
    split; [|split; [|split; [|split]]].
    + destruct Hin as [Hin|Hin]; [|right; now apply list_elem_of_further].
      destruct Hacc' as [[Hx _]|[Ha _]]; rewrite Hin.
      * right. rewrite Hx. apply list_elem_of_here.
      * left. exact Ha.
    + destruct Hacc' as [[Hx Hlt]|[Ha Hle]]; rewrite ?Hx, ?Ha in Hlen; lia.
    + intros m Hm. apply elem_of_cons in Hm as [->|Hm]; [|now apply Hmin].
      destruct Hacc' as [[Hx Hlt]|[Ha Hle]]; rewrite ?Hx, ?Ha in Hlen; lia.
    + intros Hsame.
      destruct Hacc' as [[Hx Hlt]|[Ha Hle]].
      * rewrite Hx in Hlen. lia.
      * rewrite Ha in Heq. now apply Heq.
    + intros Hfirst Hsorted m Hm Hsame.
      apply StronglySorted_inv in Hsorted as [Hsorted Hx].
      rewrite Forall_forall in Hx.
      assert (Hfirst' : forall m, m ∈ l -> string_le (shorter_of acc x) m).
      { intros m' Hm'. destruct Hacc' as [[-> _]|[-> _]].
        - now apply Hx.
        - apply Hfirst. now apply list_elem_of_further. }
      apply elem_of_cons in Hm as [->|Hm]; [|now apply Hord].
      destruct Hacc' as [[Hx' Hlt]|[Ha Hle]].
      * rewrite Hx' in Heq. rewrite (Heq (eq_sym Hsame)).
        apply string_le_refl.
      * rewrite Ha in Heq, Hlen.
        assert (r = acc) as -> by (apply Heq; lia).
        apply Hfirst. apply list_elem_of_here.
Qed.

(** X19: When the source of an application holds at least one
    [appengine-web.xml] in a directory named [WEB-INF], [find_web_xml]
    returns one of these files and changes nothing: none of them has a
    shorter path, and among those with a path of the same length none comes
    before it in the order of [sort]. *)
Theorem find_web_xml_choice :
  forall (env : Env) (app_name : string) (w : World),
    (1 <= length (web_xml_candidates env app_name))%nat ->
    exists path,
      find_web_xml env app_name w = (Return path, w) /\
      path ∈ web_xml_candidates env app_name /\
      forall m, m ∈ web_xml_candidates env app_name ->
        (String.length path <= String.length m)%nat /\
        (String.length m = String.length path -> string_le path m).
Proof.
  intros env app_name w Hsome.
  change (find_web_xml env app_name w) with
    (match web_xml_candidates env app_name with
     | [] => raise (BadConfigurationException
                      ("Unable to find " +:+ "appengine-web.xml" +:+
                       " file for " +:+ app_name))
     | [only] => ret only
     | _ =>
         match sort_strings (web_xml_candidates env app_name) with
         | first :: _ as sorted => ret (fold_left shorter_of sorted first)
         | [] => raise IndexError
         end
     end w).
  destruct (web_xml_candidates env app_name) as [|a [|b l]] eqn:Hl.
  - simpl in Hsome. lia.
  - exists a. split; [reflexivity|]. split; [apply list_elem_of_here|].
    intros m Hm. apply list_elem_of_singleton in Hm as ->.
    split; [lia|]. intros _. apply string_le_refl.
  - pose proof (sort_strings_sorted (a :: b :: l)) as Hsorted.
    pose proof (elem_of_sort_strings) as Hperm.
    specialize (fun y => Hperm y (a :: b :: l)).
    destruct (sort_strings (a :: b :: l)) as [|first rest] eqn:Hsort.
    + exfalso. apply (elem_of_nil a). apply Hperm. apply list_elem_of_here.
    + destruct (fold_shorter rest first) as (Hin & Hlen & Hmin & Heq & Hord).
      apply StronglySorted_inv in Hsorted as [Hsorted Hfirst].
      rewrite Forall_forall in Hfirst.
      exists (fold_left shorter_of rest first).
      split; [reflexivity|]. split.
      * apply Hperm. destruct Hin as [->|Hin]; [apply list_elem_of_here|].
        now apply list_elem_of_further.
      * intros m Hm. apply Hperm in Hm.
        apply elem_of_cons in Hm as [->|Hm].
        -- split; [exact Hlen|]. intros Hsame.
           rewrite (Heq (eq_sym Hsame)). apply string_le_refl.
        -- split; [now apply Hmin|]. intros Hsame. now apply Hord.
Qed.

Lemma find_web_xml_choice_witness :
  exists path,
    find_web_xml nested_web_inf "javabook" world = (Return path, world) /\
    path ∈ web_xml_candidates nested_web_inf "javabook" /\
    forall m, m ∈ web_xml_candidates nested_web_inf "javabook" ->
      (String.length path <= String.length m)%nat /\
      (String.length m = String.length path -> string_le path m).
Proof.
  apply (find_web_xml_choice nested_web_inf "javabook" world).
  vm_compute. lia.
Defined.

(** ** The environment of a Java instance and the deployment *)

Section JavaEnvSteps.

Context (c : Constants) (env : Env) (app_name : string) (w : World).
Context (xml_file : string) (root : Element).

Hypothesis Hfind : fst (find_web_xml env app_name w) = Return xml_file.
Hypothesis Hparse : xml_parse env xml_file = inl root.

Let custom := fold_left set_env_var (env_var_elements root) ∅.
Let base : gmap string pyval :=
  (PStr <$> custom) ∪ <["APPSCALE_HOME" := PStr (APPSCALE_HOME c)]> ∅.

(** The two loops over the document are one loop over the entries of its
    [env-variables] sections. *)
Lemma fold_sections_flat (children : list Element) :
  forall (acc : gmap string string) (w0 : World),
    fold_each children acc
      (fun custom_vars child =>
         if negb (Py.endswith (tag_of child) "env-variables")
         then ret custom_vars
         else fold_each (children_of child) custom_vars add_env_var) w0 =
    fold_each
      (flat_map (fun child =>
                   if Py.endswith (tag_of child) "env-variables"
                   then children_of child else []) children)
      acc add_env_var w0.
Proof.
  assert (Happ : forall (l1 l2 : list Element) acc w0,
            fold_each (l1 ++ l2) acc add_env_var w0 =
            bind (fold_each l1 acc add_env_var)
              (fun acc' => fold_each l2 acc' add_env_var) w0).
  { induction l1 as [|e l1 IH]; intros l2 acc w0; [reflexivity|].
    simpl. unfold bind.
    destruct (add_env_var acc e w0) as [[acc'| |] w1]; try reflexivity.
    apply IH. }
  induction children as [|child children IH]; intros acc w0; [reflexivity|].
  simpl. destruct (Py.endswith (tag_of child) "env-variables"); cbn [negb].
  - rewrite Happ. unfold bind.
    destruct (fold_each (children_of child) acc add_env_var w0)
      as [[acc'| |] w1]; try reflexivity.
    apply IH.
  - unfold bind at 1. cbn [ret]. apply IH.
Qed.

(** The entries are read up to the first one that lacks an attribute. *)
Lemma fold_env_vars_malformed (before after : list Element) (e : Element)
  (acc : gmap string string) (w0 : World) :
  (forall e', e' ∈ before -> has_name_and_value e') ->
  ~ has_name_and_value e ->
  fold_each (before ++ e :: after) acc add_env_var w0 =
  (Raise (KeyError (match attrib_of e !! "value" with
                    | Some _ => "name"
                    | None => "value"
                    end)), w0).
Proof.
  revert acc. induction before as [|b before IH]; intros acc Hwf Hbad.
  - simpl. unfold bind, add_env_var.
    destruct (attrib_of e !! "value") as [v|] eqn:Hv; [|reflexivity].
    destruct (attrib_of e !! "name") as [k|] eqn:Hk; [|reflexivity].
    exfalso. apply Hbad. split; [exists k; exact Hk|exists v; exact Hv].
  - simpl. unfold bind at 1.
    destruct (Hwf b (list_elem_of_here _ _)) as [[k Hk] [v Hv]].
    unfold add_env_var at 1. rewrite Hk, Hv. cbn [ret].
    apply IH; [|exact Hbad].
    intros e' He'. apply Hwf. now apply list_elem_of_further.
Qed.

(** What [create_java_app_env] does once the document is read. *)
Lemma java_env_steps :
  (forall e, e ∈ env_var_elements root -> has_name_and_value e) ->
  create_java_app_env c env app_name w =
  match gcs env with
  | Some g =>
      match g !! "host" with
      | Some host =>
          (Return
             (<["GCS_HOST" :=
                  PStr (pyval_str (default (PStr "https") (g !! "scheme")) +:+
                        "://" +:+ pyval_str host +:+ ":" +:+
                        pyval_str (default (PInt 443) (g !! "port")))]> base),
           w)
      | None => (Return base, w)
      end
  | None =>
      (Return base,
       with_event w (LogWarning "Unable to fetch GCS configuration."))
  end.
Proof.
  intros Hwf.
  pose proof (find_web_xml_keeps_world env app_name w) as Hworld.
  unfold create_java_app_env. unfold bind at 1.
  destruct (find_web_xml env app_name w) as [r w0].
  cbn [fst snd] in Hfind, Hworld. subst r w0.
  unfold bind at 1. unfold extract_env_vars_from_xml. rewrite Hparse.
  rewrite fold_sections by exact Hwf. fold (env_var_elements root).
  fold custom. fold base.
  destruct (gcs env) as [g|] eqn:Hgcs.
  - unfold bind at 1. cbn [ret].
    rewrite (lookup_union_l g gcs_defaults "host") by reflexivity.
    destruct (g !! "host") as [host|] eqn:Hhost; [|reflexivity].
    unfold bind, format_gcs_host.
    rewrite (lookup_union_Some_l g gcs_defaults "host" host Hhost).
    destruct (g !! "scheme") as [scheme|] eqn:Hscheme.
    + rewrite (lookup_union_Some_l g gcs_defaults "scheme" scheme Hscheme).
      destruct (g !! "port") as [gcs_port|] eqn:Hgport.
      * now rewrite (lookup_union_Some_l g gcs_defaults "port" gcs_port Hgport).
      * now rewrite (lookup_union_r g gcs_defaults "port" Hgport).
    + rewrite (lookup_union_r g gcs_defaults "scheme" Hscheme).
      destruct (g !! "port") as [gcs_port|] eqn:Hgport.
      * now rewrite (lookup_union_Some_l g gcs_defaults "port" gcs_port Hgport).
      * now rewrite (lookup_union_r g gcs_defaults "port" Hgport).
  - reflexivity.
Qed.

End JavaEnvSteps.

(** X20: When the deployment configures a GCS host, the environment of a Java
    application binds [GCS_HOST] to [scheme://host:port], whatever the
    document of the application says: the scheme is [https] and the port
    443 unless the deployment configures them.  Nothing is logged. *)
Theorem java_env_gcs_address :
  forall (c : Constants) (env : Env) (app_name : string) (w : World)
         (xml_file : string) (root : Element) (g : gmap string pyval)
         (host : pyval),
    fst (find_web_xml env app_name w) = Return xml_file ->
    xml_parse env xml_file = inl root ->
    (forall e, e ∈ env_var_elements root -> has_name_and_value e) ->
    gcs env = Some g ->
    g !! "host" = Some host ->
    exists env_map,
      create_java_app_env c env app_name w = (Return env_map, w) /\
      env_map !! "GCS_HOST" =
        Some (PStr (pyval_str (default (PStr "https") (g !! "scheme")) +:+
                    "://" +:+ pyval_str host +:+ ":" +:+
                    pyval_str (default (PInt 443) (g !! "port")))).
Proof.
  intros c env app_name w xml_file root g host Hfind Hparse Hwf Hgcs Hhost.
  rewrite (java_env_steps c env app_name w xml_file root Hfind Hparse Hwf).
  rewrite Hgcs, Hhost. eexists. split; [reflexivity|].
  apply lookup_insert_eq.
Qed.

Lemma java_env_gcs_address_witness :
  exists env_map,
    create_java_app_env constants (node [] [] [] []) "javabook" world =
      (Return env_map, world) /\
    env_map !! "GCS_HOST" = Some (PStr "https://gcs.example.com:443").
Proof.
  refine (java_env_gcs_address constants (node [] [] [] []) "javabook" world
            "/var/apps/javabook/app/war/WEB-INF/appengine-web.xml" web_xml
            (<["host" := PStr "gcs.example.com"]> ∅) (PStr "gcs.example.com")
            eq_refl eq_refl _ eq_refl eq_refl).
  intros e He. vm_compute in He.
  apply elem_of_cons in He as [->|He]; [split; eexists; reflexivity|].
  apply elem_of_cons in He as [->|He]; [split; eexists; reflexivity|].
  inversion He.
Defined.

(** X21: Without a GCS host in the deployment configuration, the environment of
    a Java application has a [GCS_HOST] only when the document of the
    application sets one; a configuration that cannot be read is logged
    with one warning and does not hinder the start, and nothing else is
    done. *)
Theorem java_env_without_gcs_host :
  forall (c : Constants) (env : Env) (app_name : string) (w : World)
         (xml_file : string) (root : Element),
    fst (find_web_xml env app_name w) = Return xml_file ->
    xml_parse env xml_file = inl root ->
    (forall e, e ∈ env_var_elements root -> has_name_and_value e) ->
    gcs env ≫= (.!! "host") = None ->
    exists env_map,
      create_java_app_env c env app_name w =
        (Return env_map,
         match gcs env with
         | Some _ => w
         | None =>
             with_event w (LogWarning "Unable to fetch GCS configuration.")
         end) /\
      ((forall e, e ∈ env_var_elements root ->
          attrib_of e !! "name" <> Some "GCS_HOST") ->
       env_map !! "GCS_HOST" = None).
Proof.
  intros c env app_name w xml_file root Hfind Hparse Hwf Hhost.
  rewrite (java_env_steps c env app_name w xml_file root Hfind Hparse Hwf).
  assert (Hbase : (forall e, e ∈ env_var_elements root ->
                     attrib_of e !! "name" <> Some "GCS_HOST") ->
                  ((PStr <$> fold_left set_env_var (env_var_elements root) ∅) ∪
                   (<["APPSCALE_HOME" := PStr (APPSCALE_HOME c)]> ∅
                      : gmap string pyval)) !! "GCS_HOST" = None).
  { intros Hother. apply lookup_union_None. split.
    - rewrite lookup_fmap, fold_set_env_var_other by exact Hother.
      reflexivity.
    - reflexivity. }
  destruct (gcs env) as [g|]; cbn in Hhost.
  - rewrite Hhost. eexists. split; [reflexivity|exact Hbase].
  - eexists. split; [reflexivity|exact Hbase].
Qed.

Lemma java_env_without_gcs_host_witness :
  exists env_map,
    create_java_app_env constants (without_deployment plain_web_xml)
      "javabook" world =
      (Return env_map,
       with_event world (LogWarning "Unable to fetch GCS configuration.")) /\
    env_map !! "GCS_HOST" = None.
Proof.
  destruct (java_env_without_gcs_host constants
              (without_deployment plain_web_xml) "javabook" world
              "/var/apps/javabook/app/war/WEB-INF/appengine-web.xml"
              plain_web_xml eq_refl eq_refl)
    as (env_map & Hrun & Hnone).
  - intros e He. vm_compute in He. inversion He.
  - reflexivity.
  - exists env_map. split; [exact Hrun|].
    apply Hnone. intros e He. vm_compute in He. inversion He.
Defined.

(** X22: An entry of an [env-variables] section that lacks its value or its name
    ends [create_java_app_env] with a [KeyError], for the value when both
    are missing, whatever the entries behind it are; nothing has been done,
    and the deployment configuration is not looked at. *)
Theorem java_env_malformed_entry :
  forall (c : Constants) (env : Env) (app_name : string) (w : World)
         (xml_file : string) (root : Element)
         (before after : list Element) (e : Element),
    fst (find_web_xml env app_name w) = Return xml_file ->
    xml_parse env xml_file = inl root ->
    env_var_elements root = before ++ e :: after ->
    (forall e', e' ∈ before -> has_name_and_value e') ->
    ~ has_name_and_value e ->
    create_java_app_env c env app_name w =
    (Raise (KeyError (match attrib_of e !! "value" with
                      | Some _ => "name"
                      | None => "value"
                      end)), w).
Proof.
  intros c env app_name w xml_file root before after e Hfind Hparse Hsplit
    Hwf Hbad.
  pose proof (find_web_xml_keeps_world env app_name w) as Hworld.
  unfold create_java_app_env. unfold bind at 1.
  destruct (find_web_xml env app_name w) as [r w0].
  cbn [fst snd] in Hfind, Hworld. subst r w0.
  unfold bind at 1. unfold extract_env_vars_from_xml. rewrite Hparse.
  rewrite fold_sections_flat. fold (env_var_elements root). rewrite Hsplit.
  now rewrite fold_env_vars_malformed.
Qed.

Lemma java_env_malformed_entry_witness :
  create_java_app_env constants (without_deployment broken_web_xml)
    "javabook" world = (Raise (KeyError "value"), world).
Proof.
  refine (java_env_malformed_entry constants
            (without_deployment broken_web_xml) "javabook" world
            "/var/apps/javabook/app/war/WEB-INF/appengine-web.xml"
            broken_web_xml
            [Elem "{http://appengine.google.com/ns/1.0}env-var"
               (<["name" := "MODE"]> (<["value" := "test"]> ∅)) []]
            []
            (Elem "{http://appengine.google.com/ns/1.0}env-var"
               (<["name" := "LEVEL"]> ∅) [])
            eq_refl eq_refl eq_refl _ _).
  - intros e He. apply list_elem_of_singleton in He as ->.
    split; eexists; reflexivity.
  - intros [_ [v Hv]]. vm_compute in Hv. discriminate.
Defined.

(** ** A start of the Java application server, step by step *)

Section JavaStart.

Context (c : Constants) (o : Options) (env : Env).
Context (project_id : string) (config : StartConfig) (w : World).
Context (port : Z) (service version : string) (vars : gmap string pyval).
Context (details : VersionDetails) (params : gmap string Z).
Context (web_inf : string).

Let key := revision_key_of c project_id service version details.
Let pidfile := PIDFILE project_id port.
Let watch := MONIT_INSTANCE_PREFIX +:+ project_id.
Let full_watch := watch +:+ "-" +:+ Py.str port.
Let max_memory := instance_max_memory c params details.
Let cmd :=
  Py.join " " (java_cmd c o project_id port (login_ip o) (max_memory - 250)
                 pidfile web_inf).
Let asked :=
  with_event w (EnsureSource key (sourceUrl details) (runtime details)).

Hypothesis Hport : app_port config = Some port.
Hypothesis Hservice : service_id config = Some service.
Hypothesis Hversion : version_id config = Some version.
Hypothesis Hvars : env_vars config = Some vars.
Hypothesis Hvalid : is_app_name_valid project_id = true.
Hypothesis Hlookup :
  lookup_version env project_id service version = Some details.
Hypothesis Hparams : runtime_params env = Some params.
Hypothesis Hjava : runtime details = JAVA.
Hypothesis Hsource :
  ensure_source env key (sourceUrl details) (runtime details) = None.
Hypothesis Hheap : 250 < max_memory.
Hypothesis Hwebinf :
  find_web_inf env (Py.path_join (UNPACK_ROOT c) [key]) = inl web_inf.

(** Once the source is there and the heap is large enough, the start
    builds the command, then the environment, and goes on as for any
    runtime. *)
Lemma start_app_java_steps :
  start_app c o env project_id config w =
  match create_java_app_env c env project_id asked with
  | (Return java_env, w1) =>
      let configured :=
        with_event w1
          (CreateConfigFile watch cmd pidfile port (java_env ∪ vars)
             max_memory (syslog_server o) true) in
      let monitored :=
        with_event (with_file configured (monit_config_file c full_watch) cmd)
          (MonitStart full_watch false) in
      let routed := with_event monitored (ThreadAddRouting project_id port) in
      if write_fails env (monit_config_file c full_watch) then
        (Raise IOError, configured)
      else if negb (monit_start env full_watch) then
        (Raise (AssertionError ("Monit was unable to start " +:+ project_id +:+
                                ":" +:+ Py.str port)), monitored)
      else if write_fails env (logrotate_script c project_id) then
        (Raise IOError, routed)
      else
        (Return tt,
         with_file routed (logrotate_script c project_id)
           (logrotate_contents watch (log_size_of c project_id)))
  | (Raise e, w1) => (Raise e, w1)
  | (OutOfFuel, w1) => (OutOfFuel, w1)
  end.
Proof.
  unfold start_app.
  rewrite Hport, Hservice, Hversion, Hvars, Hvalid, Hlookup, Hparams.
  cbn [negb]. unfold bind at 1. unfold emit at 1.
  fold (revision_key_of c project_id service version details). fold key.
  rewrite Hsource.
  fold (instance_max_memory c params details). fold max_memory.
  fold (with_event w (EnsureSource key (sourceUrl details) (runtime details))).
  fold asked. clearbody asked. rewrite Hjava.
  change (String.eqb JAVA PYTHON27) with false.
  change (String.eqb JAVA GO) with false.
  change (String.eqb JAVA PHP) with false.
  change (String.eqb JAVA JAVA) with true.
  cbn [orb].
  destruct (Z.leb_spec (max_memory - 250) 0) as [Hle|_]; [lia|].
  unfold bind at 1. unfold bind at 1.
  unfold create_java_start_cmd. unfold bind at 1. rewrite Hwebinf.
  cbn [ret]. unfold bind at 1. unfold bind at 1.
  destruct (create_java_app_env c env project_id asked)
    as [[java_env| |] w1]; [|reflexivity|reflexivity].
  cbn [ret fst snd].
  unfold bind at 1. unfold create_config_file, write_file.
  unfold bind at 1. unfold emit at 1. unfold bind at 1. cbn [get_world].
  fold watch. fold full_watch. fold pidfile.
  destruct (write_fails env (monit_config_file c full_watch)) eqn:Hcfg;
    [reflexivity|].
  cbn [set_files files trace fetches opens routings].
  unfold bind at 1. unfold monit_interface_start.
  unfold bind at 1. unfold emit at 1. cbn [ret].
  destruct (monit_start env full_watch) eqn:Hstart; cbn [negb];
    [|reflexivity].
  unfold setup_logrotate, write_file, emit, bind. cbn [get_world].
  destruct (write_fails env (logrotate_script c project_id)) eqn:Hrot;
    reflexivity.
Qed.

End JavaStart.




(** X24: A start of a Java application that nothing hinders gives the JVM a heap
    that is 250 MB under the memory that Monit allows the instance: the
    command in the Monit configuration has the flag [-Xmx] with the maximum
    memory of the version less 250, and the configuration is created with
    the maximum memory itself.  The environment handed over is that of
    [create_java_app_env], completed by the variables of the request. *)
Theorem start_app_java_heap :
  forall (c : Constants) (o : Options) (env : Env) (project_id : string)
         (config : StartConfig) (w : World) (port : Z)
         (service version : string) (vars : gmap string pyval)
         (details : VersionDetails) (params : gmap string Z)
         (web_inf : string) (java_env : gmap string pyval),
    app_port config = Some port ->
    service_id config = Some service ->
    version_id config = Some version ->
    env_vars config = Some vars ->
    is_app_name_valid project_id = true ->
    lookup_version env project_id service version = Some details ->
    runtime_params env = Some params ->
    runtime details = JAVA ->
    ensure_source env (revision_key_of c project_id service version details)
      (sourceUrl details) (runtime details) = None ->
    250 < instance_max_memory c params details ->
    find_web_inf env
      (Py.path_join (UNPACK_ROOT c)
         [revision_key_of c project_id service version details]) =
      inl web_inf ->
    let asked :=
      with_event w
        (EnsureSource (revision_key_of c project_id service version details)
           (sourceUrl details) (runtime details)) in
    fst (create_java_app_env c env project_id asked) = Return java_env ->
    write_fails env (monit_config_file c (instance_watch project_id port)) =
      false ->
    monit_start env (instance_watch project_id port) = true ->
    write_fails env (logrotate_script c project_id) = false ->
    let run := start_app c o env project_id config w in
    let max_memory := instance_max_memory c params details in
    exists args,
      fst run = Return tt /\
      ("--jvm_flag=-Xmx" +:+ Py.str (max_memory - 250) +:+ "m") ∈ args /\
      files (snd run)
        !! monit_config_file c (instance_watch project_id port) =
        Some (Py.join " " args) /\
      trace (snd run) =
        trace (snd (create_java_app_env c env project_id asked)) ++
        [CreateConfigFile (MONIT_INSTANCE_PREFIX +:+ project_id)
           (Py.join " " args) (PIDFILE project_id port) port
           (java_env ∪ vars) max_memory (syslog_server o) true;
         MonitStart (instance_watch project_id port) false;
         ThreadAddRouting project_id port].
Proof.
  intros c o env project_id config w port service version vars details
    params web_inf java_env Hport Hservice Hversion Hvars Hvalid Hlookup
    Hparams Hjava Hsource Hheap Hwebinf asked Henv Hwrite Hstart Hrotate
    run max_memory.
  subst run.
  rewrite (start_app_java_steps c o env project_id config w port service
             version vars details params web_inf Hport Hservice Hversion
             Hvars Hvalid Hlookup Hparams Hjava Hsource Hheap Hwebinf).
  fold asked. fold max_memory.
  destruct (create_java_app_env c env project_id asked) as [r w1].
  cbn [fst snd] in Henv |- *. subst r.
  change ((MONIT_INSTANCE_PREFIX +:+ project_id) +:+ "-" +:+ Py.str port)
    with (instance_watch project_id port).
  rewrite Hwrite, Hstart, Hrotate. cbn [negb fst snd].
  exists (java_cmd c o project_id port (login_ip o) (max_memory - 250)
            (PIDFILE project_id port) web_inf).
  split; [reflexivity|].
  split; [unfold java_cmd; do 3 apply list_elem_of_further;
          apply list_elem_of_here|].
  cbn [with_event with_file files trace].
  pose proof (logrotate_script_not_config c project_id port Hvalid) as Hne.
  split; [rewrite lookup_insert_ne by exact Hne; apply lookup_insert_eq|].
  now rewrite <- !app_assoc.
Qed.

Lemma start_app_java_heap_witness :
  exists args,
    fst (start_app constants options (java_node ["appengine-web.xml"])
           "bigbook" start_guestbook world) = Return tt /\
    "--jvm_flag=-Xmx262m" ∈ args /\
    files (snd (start_app constants options (java_node ["appengine-web.xml"])
                  "bigbook" start_guestbook world))
      !! "/etc/monit/conf.d/appscale-app___bigbook-8080.cfg" =
      Some (Py.join " " args).
Proof.
  destruct (start_app_java_heap constants options
              (java_node ["appengine-web.xml"]) "bigbook" start_guestbook
              world 8080 "default" "v1" ∅ bigbook ∅
              "/var/apps/bigbook_default_v1_3/app/war/WEB-INF"
              (<["MODE" := PStr "test"]>
                 (<["GCS_HOST" := PStr "storage.local"]>
                    (<["APPSCALE_HOME" := PStr "/root/appscale"]> ∅)))
              eq_refl eq_refl eq_refl eq_refl eq_refl eq_refl eq_refl
              eq_refl eq_refl ltac:(vm_compute; reflexivity)
              eq_refl ltac:(vm_compute; reflexivity)
              eq_refl eq_refl eq_refl)
    as (args & Hres & Hflag & Hfile & _).
  exists args. split; [exact Hres|]. split; [exact Hflag|exact Hfile].
Defined.

(** ** The port in the address of an instance *)

Lemma is_nat_pretty_N_char (y : N) :
  (y < 10)%N -> Ascii.is_nat (pretty_N_char y) = Some (N.to_nat y).
Proof.
  intros Hy.
  assert (Hcases : y = 0%N \/ y = 1%N \/ y = 2%N \/ y = 3%N \/ y = 4%N \/
                   y = 5%N \/ y = 6%N \/ y = 7%N \/ y = 8%N \/ y = 9%N)
    by lia.
  repeat (destruct Hcases as [->|Hcases]; [reflexivity|]).
  now subst y.
Qed.

(** Reading the digits that [pretty_N_go] writes in front of [s]. *)
Lemma digits_pretty_N_go (x : N) :
  exists k : nat, forall acc s,
    Py.digits acc (pretty_N_go x s) =
    Py.digits (acc * 10 ^ Z.of_nat k + Z.of_N x) s.
Proof.
  induction (N.lt_wf_0 x) as [x _ IH].
  destruct (N.eq_dec x 0%N) as [->|Hx].
  - exists O. intros acc s. rewrite pretty_N_go_0. f_equal. simpl. lia.
  - destruct (IH (x `div` 10)%N) as [k Hk]; [apply N.div_lt; lia|].
    exists (S k). intros acc s.
    rewrite pretty_N_go_step, Hk by lia.
    cbn [Py.digits].
    rewrite is_nat_pretty_N_char by (apply N.mod_lt; lia).
    f_equal.
    pose proof (N.div_mod x 10 ltac:(lia)) as Hdiv.
    rewrite Nat2Z.inj_succ, Z.pow_succ_r by lia.
    rewrite N_nat_Z. lia.
Qed.

Lemma digits_str (p : positive) :
  Py.digits 0 (pretty (N.pos p)) = Some (Z.pos p).
Proof.
  unfold pretty, pretty_N.
  destruct (decide (N.pos p = 0%N)); [discriminate|].
  destruct (digits_pretty_N_go (N.pos p)) as [k ->].
  reflexivity.
Qed.

Lemma port_char_not_space (a : ascii) :
  is_port_char a = true -> Ascii.is_space a = false.
Proof. destruct a as [[] [] [] [] [] [] [] []]; now try discriminate. Qed.

Lemma digit_is_port_char (s : string) :
  all_digits s = true -> port_chars s = true.
Proof.
  induction s as [|a s IH]; [reflexivity|]. simpl. unfold is_port_char.
  destruct (Ascii.is_nat a); [exact IH|discriminate].
Qed.

Lemma port_chars_rev_app (s acc : string) :
  port_chars s = true -> port_chars acc = true ->
  port_chars (String.rev_app s acc) = true.
Proof.
  revert acc. induction s as [|a s IH]; intros acc Hs Hacc; [exact Hacc|].
  simpl in Hs. apply andb_prop in Hs as [Ha Hs].
  apply (IH (String a acc) Hs). simpl. now rewrite Ha.
Qed.

Lemma lstrip_space_port (s : string) :
  port_chars s = true -> Py.lstrip_space s = s.
Proof.
  destruct s as [|a s]; [reflexivity|]. simpl. intros Hs.
  apply andb_prop in Hs as [Ha _].
  now rewrite (port_char_not_space a Ha).
Qed.

Lemma rev_app_rev_app (s acc acc' : string) :
  String.rev_app (String.rev_app s acc) acc' =
  String.rev_app acc (s +:+ acc').
Proof.
  revert acc. induction s as [|a s IH]; intros acc; [reflexivity|].
  change (String.rev_app (String.rev_app s (String a acc)) acc' =
          String.rev_app acc (String a (s +:+ acc'))).
  now rewrite IH.
Qed.

Lemma append_empty (s : string) : s +:+ "" = s.
Proof.
  induction s as [|a s IH]; [reflexivity|].
  change (String a (s +:+ "") = String a s). now rewrite IH.
Qed.

(** A text of digits and dashes has no blanks to strip. *)
Lemma strip_port (s : string) : port_chars s = true -> Py.strip s = s.
Proof.
  intros Hs. unfold Py.strip. rewrite (lstrip_space_port s Hs).
  unfold String.rev at 2.
  rewrite lstrip_space_port by now apply port_chars_rev_app.
  unfold String.rev. rewrite rev_app_rev_app.
  change (String.rev_app "" (s +:+ "")) with (s +:+ "").
  apply append_empty.
Qed.

Lemma int_without_sign (a : ascii) (r : string) (d : nat) :
  Ascii.is_nat a = Some d ->
  Py.strip (String a r) = String a r ->
  Py.int (String a r) = Py.digits 0 (String a r).
Proof.
  intros Ha Hstrip. unfold Py.int. rewrite Hstrip. clear Hstrip.
  destruct a as [[] [] [] [] [] [] [] []]; try discriminate; reflexivity.
Qed.

Lemma int_digits (s : string) :
  all_digits s = true -> s <> "" -> Py.int s = Py.digits 0 s.
Proof.
  intros Hs Hne. destruct s as [|a r]; [congruence|].
  pose proof (strip_port _ (digit_is_port_char _ Hs)) as Hstrip.
  simpl in Hs. destruct (Ascii.is_nat a) as [d|] eqn:Ha; [|discriminate].
  exact (int_without_sign a r d Ha Hstrip).
Qed.

(** [int(str(n))] is [n] for a number that is not negative. *)
Lemma int_str (n : Z) : 0 <= n -> Py.int (Py.str n) = Some n.
Proof.
  intros Hn. rewrite int_digits.
  - destruct n as [|p|p]; [reflexivity| |lia]. apply digits_str.
  - now apply str_all_digits.
  - intros Hempty. pose proof (str_not_empty n) as Hlen.
    rewrite Hempty in Hlen. simpl in Hlen. lia.
Qed.

(** Digits followed by something that is not a digit are not a number. *)
Lemma digits_stop (d : string) (a : ascii) (r : string) : forall acc,
  all_digits d = true -> Ascii.is_nat a = None ->
  Py.digits acc (d +:+ String a r) = None.
Proof.
  induction d as [|b d IH]; intros acc Hd Ha.
  - change (Py.digits acc (String a r) = None). simpl. now rewrite Ha.
  - change (Py.digits acc (String b (d +:+ String a r)) = None).
    simpl in Hd |- *.
    destruct (Ascii.is_nat b); [now apply IH|discriminate].
Qed.

Lemma port_chars_app (s1 s2 : string) :
  port_chars s1 = true -> port_chars s2 = true ->
  port_chars (s1 +:+ s2) = true.
Proof.
  induction s1 as [|a s1 IH]; intros H1 H2; [exact H2|].
  change (port_chars (String a (s1 +:+ s2)) = true).
  simpl in H1 |- *. apply andb_prop in H1 as [Ha H1].
  rewrite Ha. now apply IH.
Qed.

(** X25: The handler that stops one instance reads the port that [str]
    wrote: for the decimal text of a port that is not negative, [int] gives
    the port back and the handler does what [stop_app_instance] does for
    this port, except that a [BadConfigurationException] of it leaves the
    handler as the [HTTPError] that the module imports from
    [tornado.httpclient], carrying the code 400 and the message. *)
Theorem instance_delete_reads_port :
  forall (c : Constants) (env : Env) (project_id : string) (port : Z)
         (w : World),
    0 <= port ->
    InstanceHandler_delete c env project_id (Py.str port) w =
    bad_request (stop_app_instance c env project_id port) w.
Proof.
  intros c env project_id port w Hport. unfold InstanceHandler_delete.
  now rewrite int_str.
Qed.

Lemma instance_delete_reads_port_witness :
  InstanceHandler_delete constants (node [] [] [] []) "guestbook"
    (Py.str 8080) world =
  bad_request (stop_app_instance constants (node [] [] [] []) "guestbook" 8080)
    world.
Proof.
  apply (instance_delete_reads_port constants (node [] [] [] []) "guestbook"
           8080 world).
  lia.
Defined.

(** X26: The route of [InstanceHandler] lets dashes through in the port.  A port
    with a dash behind a digit is not a number: the handler ends with the
    [ValueError] of [int], which it does not turn into an answer 400, and
    nothing is stopped. *)
Theorem instance_delete_dash_in_port :
  forall (c : Constants) (env : Env) (project_id front back : string)
         (w : World),
    all_digits front = true ->
    (0 < String.length front)%nat ->
    port_chars back = true ->
    InstanceHandler_delete c env project_id (front +:+ "-" +:+ back) w =
    (Raise ValueError, w).
Proof.
  intros c env project_id front back w Hfront Hne Hback.
  unfold InstanceHandler_delete.
  assert (Hint : Py.int (front +:+ "-" +:+ back) = None);
    [|now rewrite Hint].
  assert (Hchars : port_chars (front +:+ "-" +:+ back) = true).
  { apply port_chars_app; [now apply digit_is_port_char|exact Hback]. }
  pose proof (strip_port _ Hchars) as Hstrip.
  destruct front as [|a front]; [simpl in Hne; lia|].
  change (String a front +:+ "-" +:+ back)
    with (String a (front +:+ String "-" back)) in Hstrip |- *.
  simpl in Hfront. destruct (Ascii.is_nat a) as [d|] eqn:Ha; [|discriminate].
  rewrite (int_without_sign a _ d Ha Hstrip).
  cbn [Py.digits]. rewrite Ha.
  now apply digits_stop.
Qed.

Lemma instance_delete_dash_in_port_witness :
  InstanceHandler_delete constants (node [] [] [] []) "guestbook" "8080-1"
    world = (Raise ValueError, world).
Proof.
  apply (instance_delete_dash_in_port constants (node [] [] [] [])
           "guestbook" "8080" "1" world);
    [reflexivity|simpl; lia|reflexivity].
Defined.

(** * Revision keys, entry names and routes *)

(** ** The set that is kept from the cleaning *)





(** ** Invalid project identifiers *)





(** ** Starts that Monit refuses *)

Lemma fold_env_vars_world (l : list Element) :
  forall (acc : gmap string string) (w : World),
    snd (fold_each l acc add_env_var w) = w.
Proof.
  induction l as [|e l IH]; intros acc w; [reflexivity|].
  simpl. unfold bind. unfold add_env_var at 1.
  destruct (attrib_of e !! "value") as [v|]; [|reflexivity].
  destruct (attrib_of e !! "name") as [k|]; [|reflexivity].
  cbn [ret]. apply IH.
Qed.

(** All that [create_java_app_env] does to the node is to log the warning
    about the GCS configuration. *)
Lemma java_env_world (c : Constants) (env : Env) (app_name : string)
  (w : World) :
  snd (create_java_app_env c env app_name w) = w \/
  snd (create_java_app_env c env app_name w) =
    with_event w (LogWarning "Unable to fetch GCS configuration.").
Proof.
  destruct (create_java_app_env c env app_name w) as [r w'] eqn:Hrun.
  cbn [snd]. revert Hrun.
  unfold create_java_app_env. unfold bind at 1.
  pose proof (find_web_xml_keeps_world env app_name w) as Hfind.
  destruct (find_web_xml env app_name w) as [[xml_file| |] w0];
    cbn [snd] in Hfind; subst w0;
    [|intros [= _ <-]; now left|intros [= _ <-]; now left].
  unfold bind at 1.
  assert (Hread : snd (extract_env_vars_from_xml env xml_file w) = w).
  { unfold extract_env_vars_from_xml.
    destruct (xml_parse env xml_file) as [root|e]; [|reflexivity].
    rewrite fold_sections_flat. apply fold_env_vars_world. }
  destruct (extract_env_vars_from_xml env xml_file w) as [[custom| |] w0];
    cbn [snd] in Hread; subst w0;
    [|intros [= _ <-]; now left|intros [= _ <-]; now left].
  assert (Hformat : forall gcs_config w0,
            snd (format_gcs_host gcs_config w0) = w0).
  { intros gcs_config w0. unfold format_gcs_host.
    destruct (gcs_config !! "scheme"), (gcs_config !! "host"),
      (gcs_config !! "port"); reflexivity. }
  destruct (gcs env) as [g|]; unfold bind, emit; cbn [ret].
  - destruct ((g ∪ gcs_defaults) !! "host");
      [|intros [= _ <-]; now left].
    specialize (Hformat (g ∪ gcs_defaults) w).
    destruct (format_gcs_host (g ∪ gcs_defaults) w) as [[host| |] w0];
      cbn [snd] in Hformat; subst w0; intros [= _ <-]; now left.
  - fold (with_event w (LogWarning "Unable to fetch GCS configuration.")).
    destruct (gcs_defaults !! "host");
      [|intros [= _ <-]; now right].
    specialize (Hformat gcs_defaults
                  (with_event w
                     (LogWarning "Unable to fetch GCS configuration."))).
    destruct (format_gcs_host gcs_defaults
                (with_event w
                   (LogWarning "Unable to fetch GCS configuration.")))
      as [[host| |] w0];
      cbn [snd] in Hformat; subst w0; intros [= _ <-]; now right.
Qed.

(** X5: When Monit refuses to start an instance whose source is there, whose
    start command and environment have been built and whose Monit
    configuration file can be written, [start_app] ends with an
    [AssertionError].  This holds for an instance of a Python, Go or PHP
    application, and for one of a Java application with more than 250 MB
    whose [WEB-INF] directory is found and for which [create_java_app_env]
    returns.  The Monit configuration file that the start has just written
    stays on disk with the start command in it, and no other file changes:
    the logrotate configuration is not written.  What has been done is the
    request for the source, for a Java application possibly the warning
    about the GCS configuration, the creation of the configuration and the
    request to Monit, in this order: no routing thread is started.  For a
    Python, Go or PHP application the command is that of
    [create_python27_start_cmd], and nothing is logged. *)
Theorem start_app_monit_refuses :
  forall (c : Constants) (o : Options) (env : Env) (project_id : string)
         (config : StartConfig) (w : World) (port : Z)
         (service version : string) (vars : gmap string pyval)
         (details : VersionDetails) (params : gmap string Z),
    app_port config = Some port ->
    service_id config = Some service ->
    version_id config = Some version ->
    env_vars config = Some vars ->
    is_app_name_valid project_id = true ->
    lookup_version env project_id service version = Some details ->
    runtime_params env = Some params ->
    let key := revision_key_of c project_id service version details in
    let asked :=
      with_event w (EnsureSource key (sourceUrl details) (runtime details)) in
    ensure_source env key (sourceUrl details) (runtime details) = None ->
    python_family (runtime details) = true \/
    (runtime details = JAVA /\
     250 < instance_max_memory c params details /\
     (exists web_inf,
        find_web_inf env (Py.path_join (UNPACK_ROOT c) [key]) = inl web_inf) /\
     (exists java_env,
        fst (create_java_app_env c env project_id asked) = Return java_env)) ->
    write_fails env (monit_config_file c (instance_watch project_id port)) =
      false ->
    monit_start env (instance_watch project_id port) = false ->
    let run := start_app c o env project_id config w in
    let cfg := monit_config_file c (instance_watch project_id port) in
    exists (cmd : string) (instance_env : gmap string pyval)
           (warnings : list event),
      fst run =
        Raise (AssertionError ("Monit was unable to start " +:+ project_id +:+
                               ":" +:+ Py.str port)) /\
      files (snd run) !! cfg = Some cmd /\
      (forall path, path <> cfg -> files (snd run) !! path = files w !! path) /\
      trace (snd run) =
        trace w ++
        [EnsureSource key (sourceUrl details) (runtime details)] ++
        warnings ++
        [CreateConfigFile (MONIT_INSTANCE_PREFIX +:+ project_id) cmd
           (PIDFILE project_id port) port instance_env
           (instance_max_memory c params details) (syslog_server o) true;
         MonitStart (instance_watch project_id port) false] /\
      (warnings = [] \/
       warnings = [LogWarning "Unable to fetch GCS configuration."]) /\
      (python_family (runtime details) = true ->
       cmd = create_python27_start_cmd c o project_id (login_ip o) port
               (PIDFILE project_id port) key /\
       instance_env = python_start_env c o env project_id key
                        (runtime details) vars /\
       warnings = []).
Proof.
  intros c o env project_id config w port service version vars details
    params Hport Hservice Hversion Hvars Hvalid Hlookup Hparams key asked
    Hsource Hbuilt Hwrite Hstart run cfg.
  subst run.
  destruct Hbuilt as [Hfamily|(Hjava & Hheap & [web_inf Hwebinf] &
                               [java_env Henv])].
  - rewrite (start_app_python_steps c o env project_id config w port service
               version vars details params Hport Hservice Hversion Hvars
               Hvalid Hlookup Hparams Hfamily Hsource).
    change ((MONIT_INSTANCE_PREFIX +:+ project_id) +:+ "-" +:+ Py.str port)
      with (instance_watch project_id port).
    fold cfg. fold cfg in Hwrite. rewrite Hwrite, Hstart. cbn [negb fst snd].
    eexists _, _, []. split; [reflexivity|].
    cbn [with_event with_file files trace].
    split; [apply lookup_insert_eq|].
    split; [intros path Hpath; now apply lookup_insert_ne|].
    split; [now rewrite <- !app_assoc|].
    split; [now left|]. intros _. repeat split; reflexivity.
  - rewrite (start_app_java_steps c o env project_id config w port service
               version vars details params web_inf Hport Hservice Hversion
               Hvars Hvalid Hlookup Hparams Hjava Hsource Hheap Hwebinf).
    fold key. fold asked.
    pose proof (java_env_world c env project_id asked) as Hworld.
    destruct (create_java_app_env c env project_id asked) as [r w1].
    cbn [fst snd] in Henv, Hworld. subst r.
    change ((MONIT_INSTANCE_PREFIX +:+ project_id) +:+ "-" +:+ Py.str port)
      with (instance_watch project_id port).
    fold cfg. fold cfg in Hwrite. rewrite Hwrite, Hstart. cbn [negb fst snd].
    assert (Hfamily : python_family (runtime details) = false)
      by now rewrite Hjava.
    destruct Hworld as [->| ->].
    + eexists _, _, []. split; [reflexivity|].
      cbn [with_event with_file files trace]. subst asked.
      cbn [with_event files trace].
      split; [apply lookup_insert_eq|].
      split; [intros path Hpath; now apply lookup_insert_ne|].
      split; [now rewrite <- !app_assoc|].
      split; [now left|]. congruence.
    + eexists _, _, [LogWarning "Unable to fetch GCS configuration."].
      split; [reflexivity|].
      cbn [with_event with_file files trace]. subst asked.
      cbn [with_event files trace].
      split; [apply lookup_insert_eq|].
      split; [intros path Hpath; now apply lookup_insert_ne|].
      split; [now rewrite <- !app_assoc|].
      split; [now right|]. congruence.
Qed.

Lemma start_app_monit_refuses_witness :
  (fst (start_app constants options monit_refuses "guestbook" start_guestbook
          world) =
     Raise (AssertionError "Monit was unable to start guestbook:8080") /\
   is_Some (files (snd (start_app constants options monit_refuses "guestbook"
                          start_guestbook world))
              !! "/etc/monit/conf.d/appscale-app___guestbook-8080.cfg")) /\
  (fst (start_app constants options java_monit_refuses "bigbook"
          start_guestbook world) =
     Raise (AssertionError "Monit was unable to start bigbook:8080") /\
   is_Some (files (snd (start_app constants options java_monit_refuses
                          "bigbook" start_guestbook world))
              !! "/etc/monit/conf.d/appscale-app___bigbook-8080.cfg")).
Proof.
  split.
  - destruct (start_app_monit_refuses constants options monit_refuses
                "guestbook" start_guestbook world 8080 "default" "v1" ∅
                guestbook ∅ eq_refl eq_refl eq_refl eq_refl eq_refl eq_refl
                eq_refl eq_refl (or_introl eq_refl) eq_refl eq_refl)
      as (cmd & instance_env & warnings & Hres & Hcfg & _).
    split; [exact Hres|]. exists cmd. exact Hcfg.
  - assert (Hbuilt :
              runtime bigbook = JAVA /\
              250 < instance_max_memory constants ∅ bigbook /\
              (exists web_inf,
                 find_web_inf java_monit_refuses
                   (Py.path_join (UNPACK_ROOT constants)
                      [revision_key_of constants "bigbook" "default" "v1"
                         bigbook]) = inl web_inf) /\
              (exists java_env,
                 fst (create_java_app_env constants java_monit_refuses
                        "bigbook"
                        (with_event world
                           (EnsureSource
                              (revision_key_of constants "bigbook" "default"
                                 "v1" bigbook)
                              (sourceUrl bigbook) (runtime bigbook)))) =
                 Return java_env)).
    { split; [reflexivity|]. split; [vm_compute; reflexivity|].
      split; eexists; vm_compute; reflexivity. }
    destruct (start_app_monit_refuses constants options java_monit_refuses
                "bigbook" start_guestbook world 8080 "default" "v1" ∅
                bigbook ∅ eq_refl eq_refl eq_refl eq_refl eq_refl eq_refl
                eq_refl eq_refl (or_intror Hbuilt) eq_refl eq_refl)
      as (cmd & instance_env & warnings & Hres & Hcfg & _).
    split; [exact Hres|]. exists cmd. exact Hcfg.
Defined.
